(** * Probability distributions of a function of a random variable

    A shallow embedding of the two scripts of the repository:

    - [VariantA]: [Maths_assignment/Assignment 1_Group C.py], which validates
      its parameters, rejects negative values and delegates the probabilities
      to [scipy.stats];
    - [VariantB]: [modified_for_negative_removal.py], which strips the negative
      values and computes the four formulas by hand.

    Numbers.  The values of [vals] are integers, modelled as [Z]; a parameter
    is a Python [int] or a Python [float] ([num]), and the arithmetic on them
    is Python's: exact on two [int]s, on floats as soon as one operand is a
    float.  A float ([double]) is a finite number, an infinity or NaN.  The finite
    floats are taken in exact arithmetic, as rationals of [Q] compared with
    [Qeq] ([==]): the rounding of each result to the nearest double, underflow
    and the sign of zero are outside the model.  The range of the doubles is
    inside it: a result too large for a double becomes an infinity or raises
    [OverflowError], as the operation does in Python.

    Exceptions.  A function that can raise returns a [result]; the text of a
    [ValueError] is kept, since it is all that tells the error kinds apart.

    Output.  [print] is modelled by the list of the lines printed, in order. *)

From Stdlib Require Import ZArith QArith Qabs Qpower Qround Qfield Lqa Lia String Ascii.
From Stdlib Require Import DecimalString.
From stdpp Require Import base list gmap strings.

Local Open Scope Z_scope.

(** ** Exceptions and the error monad *)

Inductive exn : Type :=
| ValueError (msg : string)
| KeyError (key : string)
| TypeError (msg : string)
| ZeroDivisionError (msg : string)
| OverflowError (msg : string).

Inductive result (A : Type) : Type :=
| Ok (a : A)
| Err (e : exn).
Arguments Ok {A} a.
Arguments Err {A} e.

#[global] Instance result_ret : MRet result := λ A, Ok.
#[global] Instance result_bind : MBind result :=
  λ A B f m, match m with Ok a => f a | Err e => Err e end.

(** ** Python floats *)

(** A double: a finite number (in exact arithmetic), an infinity with its
    sign, or NaN. *)
Inductive double : Type :=
| Fin (q : Q)
| Inf (negative : bool)
| NaN.

(** [a < b] on rationals, as a boolean. *)
Definition Qlt_bool (a b : Q) : bool := negb (Qle_bool b a).

(** The least magnitude that has no nearest double: [2^1024 - 2^970], half
    way between the largest double [2^1024 - 2^971] and [2^1024]. *)
Definition float_limit : Q := inject_Z (Z.shiftl (2 ^ 54 - 1) 970).

Definition overflows (q : Q) : bool := Qle_bool float_limit (Qabs q).

(** The float of an exact result, for the operations that overflow to an
    infinity. *)
Definition rounded (q : Q) : double :=
  if overflows q then Inf (Qlt_bool q 0) else Fin q.

Definition fneg (a : double) : double :=
  match a with
  | Fin x => Fin (- x)
  | Inf negative => Inf (negb negative)
  | NaN => NaN
  end.

Definition fadd (a b : double) : double :=
  match a, b with
  | NaN, _ | _, NaN => NaN
  | Fin x, Fin y => rounded (x + y)
  | Fin _, Inf s | Inf s, Fin _ => Inf s
  | Inf s, Inf t => if Bool.eqb s t then Inf s else NaN
  end.

Definition fsub (a b : double) : double := fadd a (fneg b).

Definition fmul (a b : double) : double :=
  match a, b with
  | NaN, _ | _, NaN => NaN
  | Fin x, Fin y => rounded (x * y)
  | Fin x, Inf s | Inf s, Fin x =>
      if Qeq_bool x 0 then NaN else Inf (xorb s (Qlt_bool x 0))
  | Inf s, Inf t => Inf (xorb s t)
  end.

(** [a / b] on two floats: Python raises on a zero divisor, whatever [a]. *)
Definition fdiv (a b : double) : result double :=
  match b with
  | Fin y =>
      if Qeq_bool y 0 then Err (ZeroDivisionError "float division by zero")
      else Ok match a with
              | Fin x => rounded (x / y)
              | Inf s => Inf (xorb s (Qlt_bool y 0))
              | NaN => NaN
              end
  | Inf _ => Ok match a with Fin _ => Fin 0 | _ => NaN end
  | NaN => Ok NaN
  end.

(** [a ** b] for a float [a] and an integer [b]: zero cannot be raised to a
    negative power, and a finite result out of range is an error, not an
    infinity.  The exponent is a value of [vals], or [n - x] in the
    binomial formula, and is taken to have a double of its own, as every
    element of [np.arange] has. *)
Definition fpow (a : double) (b : Z) : result double :=
  match a with
  | Fin x =>
      if Qeq_bool x 0 && (b <? 0)
      then Err (ZeroDivisionError "0.0 cannot be raised to a negative power")
      else if overflows (x ^ b)
      then Err (OverflowError "(34, 'Numerical result out of range')")
      else Ok (Fin (x ^ b))
  | Inf negative =>
      Ok (if b =? 0 then Fin 1
          else if 0 <? b then Inf (negative && Z.odd b)
          else Fin 0)
  | NaN => Ok (if b =? 0 then Fin 1 else NaN)
  end.

(** [a <= b] and [a < b]: every comparison with NaN is false. *)
Definition fle (a b : double) : bool :=
  match a, b with
  | NaN, _ | _, NaN => false
  | Fin x, Fin y => Qle_bool x y
  | Inf true, _ | _, Inf false => true
  | Inf false, _ | _, Inf true => false
  end.

Definition flt (a b : double) : bool := fle a b && negb (fle b a).

(** The conversion of an [int] to a float, which an arithmetic operation
    applies to its [int] operand when the other one is a float. *)
Definition of_int (z : Z) : result double :=
  if overflows (inject_Z z)
  then Err (OverflowError "int too large to convert to float")
  else Ok (Fin (inject_Z z)).

(** ** Python numbers *)

(** A parameter read from the dictionary, or a probability: an [int]
    ([int(input(...))], the literal [0]) or a [float] ([float(input(...))],
    the result of a float operation). *)
Inductive num : Type :=
| PyInt (z : Z)
| PyFloat (f : double).

Definition as_float (v : num) : result double :=
  match v with
  | PyInt z => of_int z
  | PyFloat f => Ok f
  end.

(** The number as it is compared: Python compares an [int] with a double
    exactly, without the conversion. *)
Definition exact (v : num) : double :=
  match v with
  | PyInt z => Fin (inject_Z z)
  | PyFloat f => f
  end.

Definition py_le (a b : num) : bool := fle (exact a) (exact b).
Definition py_lt (a b : num) : bool := flt (exact a) (exact b).

Definition py_neg (a : num) : num :=
  match a with
  | PyInt x => PyInt (- x)
  | PyFloat f => PyFloat (fneg f)
  end.

Definition py_sub (a b : num) : result num :=
  match a, b with
  | PyInt x, PyInt y => Ok (PyInt (x - y))
  | _, _ => x ← as_float a; y ← as_float b; mret (PyFloat (fsub x y))
  end.

Definition py_mul (a b : num) : result num :=
  match a, b with
  | PyInt x, PyInt y => Ok (PyInt (x * y))
  | _, _ => x ← as_float a; y ← as_float b; mret (PyFloat (fmul x y))
  end.

(** [a ** b] for an integer exponent [b]: an [int] to a negative power is
    the power of its float. *)
Definition pow (a : num) (b : Z) : result num :=
  match a with
  | PyInt x =>
      if 0 <=? b then Ok (PyInt (x ^ b))
      else f ← of_int x; r ← fpow f b; mret (PyFloat r)
  | PyFloat f => r ← fpow f b; mret (PyFloat r)
  end.

(** [a / b], Python's true division, a float also on two [int]s. *)
Definition truediv (a b : num) : result num :=
  match a, b with
  | PyInt x, PyInt y =>
      if y =? 0 then Err (ZeroDivisionError "division by zero")
      else if overflows (inject_Z x / inject_Z y)
      then Err (OverflowError "integer division result too large for a float")
      else Ok (PyFloat (Fin (inject_Z x / inject_Z y)))
  | _, _ => x ← as_float a; y ← as_float b; q ← fdiv x y; mret (PyFloat q)
  end.

(** [math.factorial]. *)
Definition factorial (x : Z) : result Z :=
  if x <? 0
  then Err (ValueError "factorial() not defined for negative values")
  else Ok (Z.of_nat (fact (Z.to_nat x))).

(** [math.comb(n, k)] on two integers: the number of ways to choose [k] items
    from [n], [n! / (k! * (n - k)!)] when [k <= n] and zero when [k > n]; it
    accepts no negative argument. *)
Definition comb (n k : Z) : result Z :=
  if n <? 0 then Err (ValueError "n must be a non-negative integer")
  else if k <? 0 then Err (ValueError "k must be a non-negative integer")
  else if n <? k then Ok 0
  else Ok (Z.of_nat (fact (Z.to_nat n))
           / (Z.of_nat (fact (Z.to_nat k)) * Z.of_nat (fact (Z.to_nat (n - k))))).

(** What [math.comb] raises on a float argument. *)
Definition not_an_integer : exn :=
  TypeError "'float' object cannot be interpreted as an integer".

(** [math.exp(v)], for [exp] the exponential function, which no rational
    function computes: [math.exp] raises where the exponential has no
    double. *)
Definition math_exp (exp : Q → Q) (v : num) : result double :=
  x ← as_float v;
  match x with
  | Fin q =>
      if overflows (exp q) then Err (OverflowError "math range error")
      else Ok (Fin (exp q))
  | Inf negative => Ok (if negative then Fin 0 else Inf false)
  | NaN => Ok NaN
  end.

(** [parameters[key]]. *)
Definition getitem (parameters : gmap string num) (key : string) : result num :=
  match parameters !! key with
  | Some v => Ok v
  | None => Err (KeyError key)
  end.

(** The sum of a list of probabilities. *)
Definition Qsum (l : list Q) : Q := foldr Qplus 0%Q l.

(** [np.arange(start, stop)] on two integers, as [get_user_input] builds
    [vals]. *)
Definition range (start stop : Z) : list Z := seqZ start (stop - start).

(** [str.lower], on the ASCII letters (the four names are ASCII, and no
    other character lowers to an ASCII letter of theirs). *)
Definition lower_ascii (c : ascii) : ascii :=
  let n := nat_of_ascii c in
  if ((65 <=? n) && (n <=? 90))%nat then ascii_of_nat (n + 32) else c.

Fixpoint lower (s : string) : string :=
  match s with
  | EmptyString => EmptyString
  | String c s => String (lower_ascii c) (lower s)
  end.

(** ** Variant A: [Maths_assignment/Assignment 1_Group C.py] *)

Module VariantA.

Definition msg_geometric_p : string :=
  "The probability of success 'p' must be in the range (0, 1].".
Definition msg_binomial_n : string :=
  "The number of trials 'n' must be non-negative.".
Definition msg_binomial_p : string :=
  "The probability of success 'p' must be in the range [0, 1].".
Definition msg_poisson_mu : string := "The mean 'mu' must be non-negative.".
Definition msg_uniform_bounds : string :=
  "The lower bound 'low' must be less than the upper bound 'high'.".
Definition msg_negative : string := "All values in 'vals' must be non-negative.".
Definition msg_unsupported : string := "Unsupported distribution name.".

(** The frozen distributions of [scipy.stats], which are no code of the
    repository: [geom(p).pmf], [binom(n, p).pmf], [poisson(mu).pmf] and
    [uniform(loc, scale).pdf] at one point.  On an array they are evaluated
    element by element, and give a float at every point, NaN where the
    parameters are no numbers of the distribution. *)
Class scipy_stats : Type := {
  geom_pmf : num → Z → double;
  binom_pmf : num → num → Z → double;
  poisson_pmf : num → Z → double;
  uniform_pdf : num → num → Z → double
}.

Section Distributions.
Context `{!scipy_stats}.

Definition geometric (p : num) (vals : list Z) : result (list double) :=
  if py_le p (PyInt 0) || py_lt (PyInt 1) p then Err (ValueError msg_geometric_p)
  else if existsb (λ v, v <? 0) vals then Err (ValueError msg_negative)
  else Ok (geom_pmf p <$> vals).

Definition binomial (n p : num) (vals : list Z) : result (list double) :=
  if py_lt n (PyInt 0) then Err (ValueError msg_binomial_n)
  else if py_lt p (PyInt 0) || py_lt (PyInt 1) p then Err (ValueError msg_binomial_p)
  else if existsb (λ v, v <? 0) vals then Err (ValueError msg_negative)
  else Ok (binom_pmf n p <$> vals).

Definition poisson_dist (mu : num) (vals : list Z) : result (list double) :=
  if py_lt mu (PyInt 0) then Err (ValueError msg_poisson_mu)
  else if existsb (λ v, v <? 0) vals then Err (ValueError msg_negative)
  else Ok (poisson_pmf mu <$> vals).

Definition uniform_dist (low high : num) (vals : list Z) : result (list double) :=
  if py_le high low then Err (ValueError msg_uniform_bounds)
  else
    scale ← py_sub high low;
    mret (uniform_pdf low scale <$> vals).

Definition get_probability_distribution
    (name : string) (parameters : gmap string num) (vals : list Z)
  : result (list double) :=
  if existsb (λ v, v <? 0) vals then Err (ValueError msg_negative)
  else
    let name := lower name in
    if (name =? "geometric")%string then
      p ← getitem parameters "p";
      geometric p vals
    else if (name =? "binomial")%string then
      n ← getitem parameters "n";
      p ← getitem parameters "p";
      binomial n p vals
    else if (name =? "poisson")%string then
      mu ← getitem parameters "mu";
      poisson_dist mu vals
    else if (name =? "uniform")%string then
      low ← getitem parameters "low";
      high ← getitem parameters "high";
      uniform_dist low high vals
    else Err (ValueError msg_unsupported).

End Distributions.

End VariantA.

(** ** Variant B: [modified_for_negative_removal.py] *)

Module VariantB.

(** A line printed by [filter_values]. *)
Inductive line : Type :=
| removed_line (removed_values : list Z)
| remaining_line (remaining_values : list Z).

Definition msg_all_negative : string :=
  "All input values are negative. Cannot compute probabilities.".
Definition msg_unsupported : string := "Unsupported distribution name.".

Section Distributions.

(** The exponential function of [math.exp]: a parameter of the model. *)
Variable exp : Q → Q.

Definition geometric (p : num) (vals : list Z) : result (list num) :=
  mapM (λ x,
    if 0 <? x
    then
      q ← py_sub (PyInt 1) p;
      a ← pow q (x - 1);
      py_mul a p
    else mret (PyInt 0)) vals.

Definition binomial (n p : num) (vals : list Z) : result (list num) :=
  mapM (λ x,
    if (0 <=? x) && py_le (PyInt x) n
    then
      match n with
      | PyInt m =>
          c ← comb m x;
          a ← pow p x;
          ca ← py_mul (PyInt c) a;
          q ← py_sub (PyInt 1) p;
          b ← pow q (m - x);
          py_mul ca b
      | PyFloat _ => Err not_an_integer
      end
    else mret (PyInt 0)) vals.

Definition poisson_dist (mu : num) (vals : list Z) : result (list num) :=
  mapM (λ x,
    if 0 <=? x
    then
      a ← pow mu x;
      e ← math_exp exp (py_neg mu);
      ae ← py_mul a (PyFloat e);
      f ← factorial x;
      truediv ae (PyInt f)
    else mret (PyInt 0)) vals.

Definition uniform_dist (low high : num) (vals : list Z) : result (list num) :=
  mapM (λ x,
    if py_le low (PyInt x) && py_le (PyInt x) high
    then
      d ← py_sub high low;
      truediv (PyInt 1) d
    else mret (PyInt 0)) vals.

Definition filter_values (vals : list Z) : list line * result (list Z) :=
  let removed_values := filter (λ v, v < 0) vals in
  let remaining_values := filter (λ v, 0 ≤ v) vals in
  ((match removed_values with
    | [] => []
    | _ => [removed_line removed_values]
    end) ++ [remaining_line remaining_values],
   match remaining_values with
   | [] => Err (ValueError msg_all_negative)
   | _ => Ok remaining_values
   end).

Definition get_probability_distribution
    (name : string) (parameters : gmap string num) (vals : list Z)
  : list line * result (list Z * list num) :=
  let '(out, filtered) := filter_values vals in
  (out,
   filtered_vals ← filtered;
   probabilities ←
     (if (name =? "geometric")%string then
        p ← getitem parameters "p";
        geometric p filtered_vals
      else if (name =? "binomial")%string then
        n ← getitem parameters "n";
        p ← getitem parameters "p";
        binomial n p filtered_vals
      else if (name =? "poisson")%string then
        mu ← getitem parameters "mu";
        poisson_dist mu filtered_vals
      else if (name =? "uniform")%string then
        low ← getitem parameters "low";
        high ← getitem parameters "high";
        uniform_dist low high filtered_vals
      else Err (ValueError msg_unsupported));
   mret (filtered_vals, probabilities)).

End Distributions.

End VariantB.
(** ** The scripts around the core: prompts, printing and plotting *)

(** [str.strip] and [str.capitalize], on ASCII as [lower] is: the white space
    of [str.isspace] below 128 is the range 9-13, the range 28-31 and the
    blank. *)
Definition is_space (c : ascii) : bool :=
  let n := nat_of_ascii c in
  ((9 <=? n) && (n <=? 13) || (28 <=? n) && (n <=? 32))%nat.

Fixpoint lstrip (s : string) : string :=
  match s with
  | EmptyString => EmptyString
  | String c s' => if is_space c then lstrip s' else s
  end.

Fixpoint rstrip (s : string) : string :=
  match s with
  | EmptyString => EmptyString
  | String c s' =>
      match rstrip s' with
      | EmptyString => if is_space c then EmptyString else String c EmptyString
      | r => String c r
      end
  end.

Definition strip (s : string) : string := rstrip (lstrip s).

Definition upper_ascii (c : ascii) : ascii :=
  let n := nat_of_ascii c in
  if ((97 <=? n) && (n <=? 122))%nat then ascii_of_nat (n - 32) else c.

Definition capitalize (s : string) : string :=
  match s with
  | EmptyString => EmptyString
  | String c s' => String (upper_ascii c) (lower s')
  end.

(** What a script writes or draws, in order: the prompt of an [input], a
    [print] (its arguments rather than its text: the formatting of numbers
    and lists is not modelled), and the bar chart of [matplotlib], whose
    calls ([style.use], [bar], [xlabel], [ylabel], [title], [legend],
    [show]) are gathered in one event. *)
Inductive event : Type :=
| prompt (msg : string)
| range_line (vals : list Z)
| filter_line (l : VariantB.line)
| probabilities_for (name : string) (parameters : gmap string num)
| calculated_probabilities
| value_line (val : Z) (prob : num)
| error_line (msg : string)
| bar_chart (x : list Z) (height : list num) (label xlabel ylabel title : string).

(** What a script can raise: an exception of the core, or the [EOFError] of
    an [input] that finds no line left. *)
Inductive exception : Type :=
| Core (e : exn)
| EOFError.

Inductive outcome (A : Type) : Type :=
| Returns (a : A)
| Raises (e : exception).
Arguments Returns {A} a.
Arguments Raises {A} e.

(** A computation of a script: from the lines waiting on the standard input
    to what was written, the lines left, and how it ended. *)
Definition io (A : Type) : Type :=
  list string → list event * list string * outcome A.

#[global] Instance io_ret : MRet io := λ A a stdin, ([], stdin, Returns a).
#[global] Instance io_bind : MBind io :=
  λ A B f m stdin,
    let '(out1, stdin1, r) := m stdin in
    match r with
    | Returns a => let '(out2, stdin2, r2) := f a stdin1 in (out1 ++ out2, stdin2, r2)
    | Raises e => (out1, stdin1, Raises e)
    end.

(** [input(msg)]. *)
Definition input (msg : string) : io string :=
  λ stdin,
    match stdin with
    | [] => ([prompt msg], [], Raises EOFError)
    | answer :: stdin' => ([prompt msg], stdin', Returns answer)
    end.

(** [print(...)], and a [for] loop of them. *)
Definition print (e : event) : io unit := λ stdin, ([e], stdin, Returns tt).
Definition print_all (es : list event) : io unit := λ stdin, (es, stdin, Returns tt).

(** [raise ValueError(msg)], and a call of the core. *)
Definition raise {A} (e : exn) : io A := λ stdin, ([], stdin, Raises (Core e)).
Definition call {A} (r : result A) : io A :=
  match r with
  | Ok a => mret a
  | Err e => raise e
  end.

(** [try: body except ValueError as e: handler]. *)
Definition try_except_ValueError (body : io unit) (handler : string → io unit)
  : io unit :=
  λ stdin,
    let '(out1, stdin1, r) := body stdin in
    match r with
    | Raises (Core (ValueError msg)) =>
        let '(out2, stdin2, r2) := handler msg stdin1 in (out1 ++ out2, stdin2, r2)
    | _ => (out1, stdin1, r)
    end.

(** The conversions [int(...)] and [float(...)] of a line that was read,
    which are Python's: parameters of the model. *)
Class builtins : Type := {
  int : string → result Z;
  float : string → result double
}.

Definition ask_name : string :=
  "Enter the name of the distribution (geometric, binomial, poisson, uniform): ".
Definition ask_start : string := "Enter the start of the range of x values (integer): ".
Definition ask_end : string := "Enter the end of the range of x values (integer): ".
Definition ask_p : string := "Enter the probability of success (p): ".
Definition ask_n : string := "Enter the number of trials (n): ".
Definition ask_mu : string := "Enter the mean (mu): ".
Definition ask_low : string := "Enter the lower bound (low): ".
Definition ask_high : string := "Enter the upper bound (high): ".
Definition msg_invalid_name : string := "Invalid distribution name.".

(** The parameters part of [get_user_input], the same in both scripts. *)
Definition ask_parameters `{!builtins} (name : string) : io (gmap string num) :=
  let parameters : gmap string num := ∅ in
  if (name =? "geometric")%string then
    p ← (input ask_p ≫= λ s, call (float s));
    mret (<["p" := PyFloat p]> parameters)
  else if (name =? "binomial")%string then
    n ← (input ask_n ≫= λ s, call (int s));
    let parameters := <["n" := PyInt n]> parameters in
    p ← (input ask_p ≫= λ s, call (float s));
    mret (<["p" := PyFloat p]> parameters)
  else if (name =? "poisson")%string then
    mu ← (input ask_mu ≫= λ s, call (float s));
    mret (<["mu" := PyFloat mu]> parameters)
  else if (name =? "uniform")%string then
    low ← (input ask_low ≫= λ s, call (float s));
    let parameters := <["low" := PyFloat low]> parameters in
    high ← (input ask_high ≫= λ s, call (float s));
    mret (<["high" := PyFloat high]> parameters)
  else raise (ValueError msg_invalid_name).

(** *** [Maths_assignment/Assignment 1_Group C.py] *)

Module ProgramA.

Definition msg_both_negative : string :=
  "Both start and end of the range of x values cannot be negative.".

Section Script.
Context `{!VariantA.scipy_stats} `{!builtins}.

Definition plot_distribution
    (name : string) (parameters : gmap string num) (vals : list Z) : io unit :=
  try_except_ValueError
    (probabilities ←
       call (VariantA.get_probability_distribution name parameters vals);
     print (probabilities_for (capitalize name) parameters);;
     print_all ((λ '(val, prob), value_line val (PyFloat prob))
                  <$> zip vals probabilities);;
     print (bar_chart vals (PyFloat <$> probabilities) (capitalize name) "Values"
              (if negb (name =? "uniform")%string then "Probability" else "Density")
              (capitalize name +:+ " Distribution")))
    (λ e, print (error_line e)).

Definition get_user_input : io (string * gmap string num * list Z) :=
  name ← (input ask_name ≫= λ s, mret (lower (strip s)));
  start ← (input ask_start ≫= λ s, call (int s));
  end_ ← (input ask_end ≫= λ s, call (int s));
  if (start <? 0) && (end_ <? 0) then raise (ValueError msg_both_negative)
  else
    let start := if start <? 0 then Z.abs start else start in
    let end_ := if end_ <? 0 then Z.abs end_ else end_ in
    let vals := range start (end_ + 1) in
    print (range_line vals);;
    parameters ← ask_parameters name;
    mret (name, parameters, vals).

Definition main : io unit :=
  try_except_ValueError
    ('(name, parameters, vals) ← get_user_input;
     plot_distribution name parameters vals)
    (λ e, print (error_line e)).

End Script.

End ProgramA.

(** *** [modified_for_negative_removal.py] *)

Module ProgramB.

Section Script.
Context `{!builtins}.
Variable exp : Q → Q.

Definition plot_distribution
    (name : string) (parameters : gmap string num) (vals : list Z) : io unit :=
  try_except_ValueError
    ('(filtered_vals, probabilities) ←
       (let '(out, r) := VariantB.get_probability_distribution exp name parameters vals in
        print_all (filter_line <$> out);; call r);
     print calculated_probabilities;;
     print_all ((λ '(v, prob), value_line v prob) <$> zip filtered_vals probabilities);;
     print (bar_chart filtered_vals probabilities (capitalize name) "Values"
              "Probability" (capitalize name +:+ " Distribution")))
    (λ e, print (error_line e)).

Definition get_user_input : io (string * gmap string num * list Z) :=
  name ← (input ask_name ≫= λ s, mret (lower (strip s)));
  start ← (input ask_start ≫= λ s, call (int s));
  end_ ← (input ask_end ≫= λ s, call (int s));
  let vals := range start (end_ + 1) in
  parameters ← ask_parameters name;
  mret (name, parameters, vals).

Definition main : io unit :=
  try_except_ValueError
    ('(name, parameters, vals) ← get_user_input;
     plot_distribution name parameters vals)
    (λ e, print (error_line e)).

End Script.

End ProgramB.

(** Decimal literals as [int] reads them, and [float] on such a literal and
    on the word "nan": computable stand-ins for the two conversions on
    concrete inputs. *)
Definition decimal_builtins : builtins := {|
  int := λ s,
    match NilZero.int_of_string s with
    | Some d => Ok (Z.of_int d)
    | None => Err (ValueError "invalid literal for int() with base 10")
    end;
  float := λ s,
    if (lower (strip s) =? "nan")%string then Ok NaN
    else
      match NilZero.int_of_string s with
      | Some d => Ok (rounded (inject_Z (Z.of_int d)))
      | None => Err (ValueError "could not convert string to float")
      end
|}.

(** ** The specification's vocabulary *)

(** The four recognized kinds. *)
Definition kinds : list string := ["geometric"; "binomial"; "poisson"; "uniform"].

(** The error kinds of the specification, all of them a [ValueError] in the
    code, told apart by their text. *)
Definition InvalidParameter (e : exn) : Prop :=
  e = ValueError VariantA.msg_geometric_p ∨
  e = ValueError VariantA.msg_binomial_n ∨
  e = ValueError VariantA.msg_binomial_p ∨
  e = ValueError VariantA.msg_poisson_mu ∨
  e = ValueError VariantA.msg_uniform_bounds.

Definition InvalidInput (e : exn) : Prop :=
  e = ValueError VariantA.msg_negative ∨
  e = ValueError VariantB.msg_all_negative.

Definition UnsupportedDistribution (e : exn) : Prop :=
  e = ValueError "Unsupported distribution name.".

(** [r] is an exception of the kind [K]. *)
Definition raises {A} (r : result A) (K : exn → Prop) : Prop :=
  ∃ e, r = Err e ∧ K e.

(** [sub] is the subsequence of [l] made of exactly the values that satisfy
    [P]: a subsequence (so in the order of [l]) of such values, and the
    greatest one. *)
Definition subsequence_where (P : Z → Prop) (sub l : list Z) : Prop :=
  sub `sublist_of` l ∧
  Forall P sub ∧
  ∀ l', l' `sublist_of` l → Forall P l' → l' `sublist_of` sub.

(** The real number a Python number stands for, when it is one. *)
Definition real (v : num) : option Q :=
  match v with
  | PyInt z => Some (inject_Z z)
  | PyFloat (Fin q) => Some q
  | PyFloat _ => None
  end.

(** [q] has a nearest double. *)
Definition fits (q : Q) : Prop := (Qabs q < float_limit)%Q.

(** The error of a result that has no double. *)
Definition overflow_error (e : exn) : Prop := ∃ msg, e = OverflowError msg.

(** Pascal's triangle: the binomial coefficient, by its recurrence. *)
Fixpoint pascal (n k : nat) : nat :=
  match k, n with
  | O, _ => 1
  | S _, O => 0
  | S k', S n' => pascal n' k' + pascal n' k
  end%nat.

(** The formulas of the specification, at one value [x]. *)
Definition geometric_formula (p : Q) (x : Z) : Q :=
  if 1 <=? x then ((1 - p) ^ (x - 1) * p)%Q else 0%Q.

Definition binomial_formula (n : Z) (p : Q) (x : Z) : Q :=
  if (0 <=? x) && (x <=? n)
  then (inject_Z (Z.of_nat (pascal (Z.to_nat n) (Z.to_nat x)))
        * p ^ x * (1 - p) ^ (n - x))%Q
  else 0%Q.

Definition poisson_formula (exp : Q → Q) (mu : Q) (x : Z) : Q :=
  if 0 <=? x
  then (mu ^ x * exp (- mu) / inject_Z (Z.of_nat (fact (Z.to_nat x))))%Q
  else 0%Q.

Definition uniform_formula (low high : Q) (x : Z) : Q :=
  if Qle_bool low (inject_Z x) && Qle_bool (inject_Z x) high
  then (1 / (high - low))%Q
  else 0%Q.

(** The probabilities as the evaluators of Variant B return them: the float
    of the formula where its condition on [x] holds, the [int] zero
    elsewhere. *)
Definition geometric_value (p : Q) (x : Z) : num :=
  if 1 <=? x then PyFloat (Fin (geometric_formula p x)) else PyInt 0.

Definition binomial_value (n : Z) (p : Q) (x : Z) : num :=
  if (0 <=? x) && (x <=? n) then PyFloat (Fin (binomial_formula n p x)) else PyInt 0.

Definition poisson_value (exp : Q → Q) (mu : Q) (x : Z) : num :=
  if 0 <=? x then PyFloat (Fin (poisson_formula exp mu x)) else PyInt 0.


(** Every intermediate result of a formula at [x] has a double. *)
Definition geometric_fits (p : Q) (x : Z) : Prop :=
  1 ≤ x →
  fits (1 - p) ∧ fits ((1 - p) ^ (x - 1)) ∧ fits ((1 - p) ^ (x - 1) * p).

Definition binomial_fits (n : Z) (p : Q) (x : Z) : Prop :=
  0 ≤ x ≤ n →
  let c := inject_Z (Z.of_nat (pascal (Z.to_nat n) (Z.to_nat x))) in
  fits (p ^ x) ∧ fits c ∧ fits (c * p ^ x) ∧
  fits (1 - p) ∧ fits ((1 - p) ^ (n - x)) ∧ fits (c * p ^ x * (1 - p) ^ (n - x)).

Definition poisson_fits (exp : Q → Q) (mu : Q) (x : Z) : Prop :=
  0 ≤ x →
  let f := inject_Z (Z.of_nat (fact (Z.to_nat x))) in
  fits (mu ^ x) ∧ fits (exp (- mu)%Q) ∧ fits (mu ^ x * exp (- mu)%Q) ∧
  fits f ∧ fits (mu ^ x * exp (- mu)%Q / f).


(** The factorial and a row of Pascal's triangle on binary integers: what
    [fact] and [pascal] compute, in a form that evaluates on large
    arguments.  [pascal_row n k c len] lists [len] coefficients of the row
    [n] from the [k]-th one, which is [c]. *)
Fixpoint fact_Z (n : nat) : Z :=
  match n with
  | O => 1
  | S k => Z.of_nat n * fact_Z k
  end.

Fixpoint pascal_row (n : Z) (k : nat) (c : Z) (len : nat) : list Z :=
  match len with
  | O => []
  | S len' => c :: pascal_row n (S k) (c * (n - Z.of_nat k) / Z.of_nat (S k)) len'
  end.

(** The exponential series cut after [k] terms: a computable stand-in for
    [math.exp] on concrete inputs. *)
Fixpoint exp_series (k : nat) (q : Q) : Q :=
  match k with
  | O => 1%Q
  | S k' => (exp_series k' q + q ^ Z.of_nat k / inject_Z (Z.of_nat (fact k)))%Q
  end.

(** The specification's formulas as the distributions of [scipy.stats]:
    concrete distributions to run Variant A on. *)
Definition exact_stats : VariantA.scipy_stats := {|
  VariantA.geom_pmf := λ p x,
    match real p with
    | Some p => Fin (geometric_formula p x)
    | None => NaN
    end;
  VariantA.binom_pmf := λ n p x,
    match real n, real p with
    | Some n, Some p => Fin (binomial_formula (Qfloor n) p x)
    | _, _ => NaN
    end;
  VariantA.poisson_pmf := λ mu x,
    match real mu with
    | Some mu => Fin (poisson_formula (exp_series 4) mu x)
    | None => NaN
    end;
  VariantA.uniform_pdf := λ loc scale x,
    match real loc, real scale with
    | Some loc, Some scale => Fin (uniform_formula loc (loc + scale) x)
    | _, _ => NaN
    end
|}.

(** [f] does not tell two names apart that differ by case only. *)
Definition case_insensitive {A} (f : string → A) : Prop :=
  ∀ name1 name2, lower name1 = lower name2 → f name1 = f name2.

(** A term of the binomial expansion of [(a + b) ^ n]. *)
Definition binomial_term (a b : Q) (n k : nat) : Q :=
  (inject_Z (Z.of_nat (pascal n k)) * a ^ Z.of_nat k * b ^ (Z.of_nat n - Z.of_nat k))%Q.


(** [ring] on a goal whose powers have exponents that are no constants:
    each power is made a variable first. *)
Ltac hide_powers :=
  repeat match goal with
         | |- context [Qpower ?x ?z] => generalize (Qpower x z); intro
         end.

(** The names of the parameters of a kind. *)
Definition parameter_names (name : string) : gset string :=
  if (name =? "geometric")%string then {["p"]}
  else if (name =? "binomial")%string then {["n"; "p"]}
  else if (name =? "poisson")%string then {["mu"]}
  else if (name =? "uniform")%string then {["low"; "high"]}
  else ∅.

(** The lines of a value and its probability that a script printed, in
    order. *)
Definition printed_probabilities (out : list event) : list (Z * num) :=
  omap (λ e, match e with value_line v prob => Some (v, prob) | _ => None end) out.

(** The values whose probability a script printed, in order. *)
Definition printed_values (out : list event) : list Z :=
  omap (λ e, match e with value_line v _ => Some v | _ => None end) out.

(** The bar charts a script drew: the values and the heights of the bars. *)
Definition charts (out : list event) : list (list Z * list num) :=
  omap (λ e, match e with bar_chart x height _ _ _ _ => Some (x, height) | _ => None end)
       out.

(** What can go wrong while a line is read and converted: no line is left,
    or [int] or [float] raises. *)
Definition input_error `{!builtins} (x : exception) : Prop :=
  x = EOFError ∨ ∃ s e, (int s = Err e ∨ float s = Err e) ∧ x = Core e.

(** ** Lists and the error monad *)

Section ListFacts.
Context {A B : Type}.

Lemma filter_greatest (P : A → Prop) `{!∀ x, Decision (P x)} (l' l : list A) :
  l' `sublist_of` l → Forall P l' → l' `sublist_of` filter P l.
Proof.
  induction 1 as [|x l1 l2 _ IH|x l1 l2 _ IH]; intros HP.
  - constructor.
  - apply Forall_cons in HP as [Hx HP].
    rewrite filter_cons_True by done. constructor. by apply IH.
  - rewrite filter_cons. destruct (decide (P x)); [constructor|]; by apply IH.
Qed.

Lemma mapM_Ok_fmap (f : A → result B) (g : A → B) (l : list A) :
  Forall (λ x, f x = Ok (g x)) l → mapM f l = Ok (g <$> l).
Proof.
  induction 1 as [|x l Hx _ IH]; [done|].
  cbn. rewrite Hx. cbn. by rewrite IH.
Qed.

Lemma mapM_Ok_Forall2 (f : A → result B) (l : list A) (k : list B) :
  mapM f l = Ok k ↔ Forall2 (λ x y, f x = Ok y) l k.
Proof.
  split.
  - revert k. induction l as [|x l IH]; intros k; cbn.
    + intros [= <-]. constructor.
    + destruct (f x) as [y|e] eqn:Hx; cbn; [|done].
      destruct (mapM f l) as [k'|e] eqn:Hl; cbn; [|done].
      intros [= <-]. constructor; [done|]. by apply IH.
  - induction 1 as [|x y l k Hx _ IH]; [done|].
    cbn. rewrite Hx. cbn. by rewrite IH.
Qed.

End ListFacts.

(** ** Variant B: the value policy (filter mode) *)

Lemma filter_subsequence_where (P : Z → Prop) `{!∀ x, Decision (P x)} (l : list Z) :
  subsequence_where P (filter P l) l.
Proof.
  split; [apply sublist_filter|]. split.
  - apply Forall_forall. intros x Hx. by apply list_elem_of_filter in Hx as [? _].
  - intros l'. apply filter_greatest; apply _.
Qed.

Lemma subsequence_where_unique (P : Z → Prop) (s1 s2 l : list Z) :
  subsequence_where P s1 l → subsequence_where P s2 l → s1 = s2.
Proof.
  intros (H1 & P1 & G1) (H2 & P2 & G2).
  apply (anti_symm sublist); auto.
Qed.

Lemma filter_negative_nonnegative (vals : list Z) :
  filter (λ v, v < 0) vals ++ filter (λ v, 0 ≤ v) vals ≡ₚ vals.
Proof.
  induction vals as [|v vals IH]; [done|].
  rewrite !filter_cons.
  destruct (decide (v < 0)), (decide (0 ≤ v)); try lia.
  - cbn. by rewrite IH.
  - rewrite <- Permutation_middle. by rewrite IH.
Qed.

Section VariantB_dispatch.
Variable exp : Q → Q.

Lemma get_probability_distribution_out name parameters vals :
  (VariantB.get_probability_distribution exp name parameters vals).1
  = (VariantB.filter_values vals).1.
Proof. done. Qed.

Lemma get_probability_distribution_nothing_kept name parameters vals :
  filter (λ v, 0 ≤ v) vals = [] →
  (VariantB.get_probability_distribution exp name parameters vals).2
  = Err (ValueError VariantB.msg_all_negative).
Proof.
  intros Hkept. unfold VariantB.get_probability_distribution, VariantB.filter_values.
  cbn. by rewrite Hkept.
Qed.

Lemma get_probability_distribution_kept name parameters vals v kept :
  filter (λ v, 0 ≤ v) vals = v :: kept →
  (VariantB.get_probability_distribution exp name parameters vals).2
  = (VariantB.get_probability_distribution exp name parameters (v :: kept)).2.
Proof.
  intros Hkept.
  assert (filter (λ v, 0 ≤ v) (v :: kept) = v :: kept) as Hidem.
  { rewrite <- Hkept. by apply list_filter_filter_l. }
  unfold VariantB.get_probability_distribution, VariantB.filter_values.
  by rewrite Hkept, Hidem.
Qed.

Lemma get_probability_distribution_on_kept name parameters vals :
  (VariantB.get_probability_distribution exp name parameters vals).2
  = (VariantB.get_probability_distribution exp name parameters
       (filter (λ v, 0 ≤ v) vals)).2.
Proof.
  destruct (filter (λ v, 0 ≤ v) vals) as [|v kept] eqn:Hkept.
  - by rewrite !get_probability_distribution_nothing_kept.
  - by apply get_probability_distribution_kept.
Qed.

End VariantB_dispatch.

(** C1. In filter mode, [filter_values] splits its input into the removed
    subsequence (exactly the values below zero) and the kept one (exactly the
    values that are zero or more), each in the order of the input, and
    between them every value once; it prints both (the removed one when it
    is not empty); it raises the all-negative error if and only if nothing
    is kept, and returns the kept subsequence otherwise, so that evaluating
    on [vals] is evaluating on the kept values. *)
Theorem filter_values_partition (vals : list Z) :
  ∃ removed kept : list Z,
    subsequence_where (λ v, v < 0) removed vals ∧
    subsequence_where (λ v, 0 ≤ v) kept vals ∧
    removed ++ kept ≡ₚ vals ∧
    (VariantB.filter_values vals).1 =
      (if decide (removed = []) then [] else [VariantB.removed_line removed])
      ++ [VariantB.remaining_line kept] ∧
    (kept = [] ↔
     (VariantB.filter_values vals).2 = Err (ValueError VariantB.msg_all_negative)) ∧
    (kept ≠ [] ↔ (VariantB.filter_values vals).2 = Ok kept) ∧
    (∀ exp name parameters,
       (VariantB.get_probability_distribution exp name parameters vals).2
       = (VariantB.get_probability_distribution exp name parameters kept).2).
Proof.
  exists (filter (λ v, v < 0) vals), (filter (λ v, 0 ≤ v) vals).
  split; [apply filter_subsequence_where; apply _|].
  split; [apply filter_subsequence_where; apply _|].
  split; [apply filter_negative_nonnegative|].
  split; [|split; [|split]].
  - unfold VariantB.filter_values; cbn. by destruct (filter (λ v, v < 0) vals).
  - unfold VariantB.filter_values; cbn.
    by destruct (filter (λ v, 0 ≤ v) vals) as [|v kept].
  - unfold VariantB.filter_values; cbn.
    by destruct (filter (λ v, 0 ≤ v) vals) as [|v kept].
  - intros. apply get_probability_distribution_on_kept.
Qed.

(** ** Floats: what has a double *)

Lemma Qlt_bool_iff (a b : Q) : Qlt_bool a b = true ↔ (a < b)%Q.
Proof.
  unfold Qlt_bool. rewrite negb_true_iff, <- not_true_iff_false, Qle_bool_iff.
  split; [apply Qnot_le_lt|apply Qlt_not_le].
Qed.

Lemma Qnot_lt_bool (a b : Q) : Qlt_bool a b = false ↔ (b <= a)%Q.
Proof.
  rewrite <- not_true_iff_false, Qlt_bool_iff.
  split; [apply Qnot_lt_le|apply Qle_not_lt].
Qed.

Lemma Qnot_le_bool (a b : Q) : Qle_bool a b = false ↔ (b < a)%Q.
Proof.
  rewrite <- not_true_iff_false, Qle_bool_iff.
  split; [apply Qnot_le_lt|apply Qlt_not_le].
Qed.

Lemma float_limit_above_1 : (1 < float_limit)%Q.
Proof. vm_compute. reflexivity. Qed.

Lemma overflows_false (q : Q) : overflows q = false ↔ fits q.
Proof. apply Qnot_le_bool. Qed.

Lemma overflows_true (q : Q) : overflows q = true ↔ (float_limit <= Qabs q)%Q.
Proof. apply Qle_bool_iff. Qed.

Lemma rounded_fits (q : Q) : fits q → rounded q = Fin q.
Proof. intros Hq%overflows_false. unfold rounded. by rewrite Hq. Qed.

Lemma fits_le (a b : Q) : (Qabs a <= Qabs b)%Q → fits b → fits a.
Proof. unfold fits. intros Hab Hb. lra. Qed.

Lemma fits_proper (a b : Q) : (a == b)%Q → fits a → fits b.
Proof. unfold fits. by intros ->. Qed.

Lemma fits_unit (q : Q) : (0 <= q)%Q → (q <= 1)%Q → fits q.
Proof.
  intros H0 H1. unfold fits. rewrite Qabs_pos by done.
  pose proof float_limit_above_1. lra.
Qed.

Lemma fits_0 : fits 0.
Proof. by apply fits_unit. Qed.

Lemma fits_scaled (a b : Q) : (0 <= b)%Q → (b <= 1)%Q → fits a → fits (a * b).
Proof.
  intros H0 H1. apply fits_le. rewrite Qabs_Qmult, (Qabs_pos b) by done.
  pose proof (Qabs_nonneg a). nra.
Qed.

Lemma of_int_fits (z : Z) : fits (inject_Z z) → of_int z = Ok (Fin (inject_Z z)).
Proof. intros Hz%overflows_false. unfold of_int. by rewrite Hz. Qed.

Lemma of_int_overflows (z : Z) :
  (float_limit <= Qabs (inject_Z z))%Q →
  of_int z = Err (OverflowError "int too large to convert to float").
Proof. intros Hz%overflows_true. unfold of_int. by rewrite Hz. Qed.

Lemma of_int_1 : of_int 1 = Ok (Fin 1).
Proof. apply (of_int_fits 1). by apply fits_unit. Qed.

(** ** Python's arithmetic on finite floats *)

Lemma py_sub_1_float (p : Q) :
  fits (1 - p) → py_sub (PyInt 1) (PyFloat (Fin p)) = Ok (PyFloat (Fin (1 - p))).
Proof.
  intros Hp. unfold py_sub. cbn [as_float]. rewrite of_int_1. cbn.
  do 2 f_equal. exact (rounded_fits _ Hp).
Qed.

Lemma py_sub_float (a b : Q) :
  fits (a - b) →
  py_sub (PyFloat (Fin a)) (PyFloat (Fin b)) = Ok (PyFloat (Fin (a - b))).
Proof. intros Hp. cbn. do 2 f_equal. exact (rounded_fits _ Hp). Qed.

Lemma pow_float (a : Q) (b : Z) :
  0 ≤ b → fits (a ^ b) → pow (PyFloat (Fin a)) b = Ok (PyFloat (Fin (a ^ b))).
Proof.
  intros Hb Hab%overflows_false. unfold pow, fpow.
  destruct (Z.ltb_spec b 0); [lia|]. by rewrite andb_false_r, Hab.
Qed.

Lemma py_mul_float (a b : Q) :
  fits (a * b) →
  py_mul (PyFloat (Fin a)) (PyFloat (Fin b)) = Ok (PyFloat (Fin (a * b))).
Proof. intros Hab. cbn. by rewrite rounded_fits. Qed.

Lemma py_mul_int_float (c : Z) (a : Q) :
  fits (inject_Z c) → fits (inject_Z c * a) →
  py_mul (PyInt c) (PyFloat (Fin a)) = Ok (PyFloat (Fin (inject_Z c * a))).
Proof.
  intros Hc Hca. unfold py_mul. cbn [as_float]. rewrite of_int_fits by done.
  cbn. by rewrite rounded_fits.
Qed.

Lemma truediv_float_int (a : Q) (d : Z) :
  d ≠ 0 → fits (inject_Z d) → fits (a / inject_Z d) →
  truediv (PyFloat (Fin a)) (PyInt d) = Ok (PyFloat (Fin (a / inject_Z d))).
Proof.
  intros Hd Hfd Hq. unfold truediv. cbn [as_float]. rewrite of_int_fits by done.
  cbn. destruct (Qeq_bool (inject_Z d) 0) eqn:Heq.
  - apply Qeq_bool_iff in Heq. change 0%Q with (inject_Z 0) in Heq.
    by rewrite inject_Z_injective in Heq.
  - cbn. do 2 f_equal. exact (rounded_fits _ Hq).
Qed.


Lemma truediv_1_zero (d : Q) :
  (d == 0)%Q →
  truediv (PyInt 1) (PyFloat (Fin d)) = Err (ZeroDivisionError "float division by zero").
Proof.
  intros Hd%Qeq_bool_iff. unfold truediv. cbn [as_float]. rewrite of_int_1. cbn.
  by rewrite Hd.
Qed.

Lemma math_exp_float (exp : Q → Q) (q : Q) :
  fits (exp (- q)%Q) →
  math_exp exp (py_neg (PyFloat (Fin q))) = Ok (Fin (exp (- q)%Q)).
Proof. intros Hq%overflows_false. cbn. by rewrite Hq. Qed.

(** ** Python's arithmetic: what it can raise *)

Lemma of_int_Err (z : Z) (e : exn) : of_int z = Err e → overflow_error e.
Proof. unfold of_int. destruct (overflows _); intros [= <-]. by eexists. Qed.

Lemma as_float_Err (v : num) (e : exn) : as_float v = Err e → overflow_error e.
Proof. destruct v; [apply of_int_Err|done]. Qed.

Lemma py_sub_Err (a b : num) (e : exn) : py_sub a b = Err e → overflow_error e.
Proof.
  destruct a as [x|f], b as [y|g]; cbn; try done.
  - destruct (of_int x) eqn:Hx; cbn; [done|]. intros [= <-]. by eapply of_int_Err.
  - destruct (of_int y) eqn:Hy; cbn; [done|]. intros [= <-]. by eapply of_int_Err.
Qed.

Lemma py_mul_Err (a b : num) (e : exn) : py_mul a b = Err e → overflow_error e.
Proof.
  destruct a as [x|f], b as [y|g]; cbn; try done.
  - destruct (of_int x) eqn:Hx; cbn; [done|]. intros [= <-]. by eapply of_int_Err.
  - destruct (of_int y) eqn:Hy; cbn; [done|]. intros [= <-]. by eapply of_int_Err.
Qed.

Lemma fpow_Err (a : double) (b : Z) (e : exn) :
  0 ≤ b → fpow a b = Err e → overflow_error e.
Proof.
  intros Hb. destruct a as [x| |]; cbn; [|done..].
  destruct (Z.ltb_spec b 0); [lia|]. rewrite andb_false_r.
  destruct (overflows _); intros [= <-]. by eexists.
Qed.

Lemma pow_Err (a : num) (b : Z) (e : exn) : 0 ≤ b → pow a b = Err e → overflow_error e.
Proof.
  intros Hb. destruct a as [x|f]; cbn.
  - by destruct (Z.leb_spec 0 b); [|lia].
  - destruct (fpow f b) eqn:Hf; cbn; [done|]. intros [= <-]. by eapply fpow_Err.
Qed.

Lemma math_exp_Err (exp : Q → Q) (v : num) (e : exn) :
  math_exp exp v = Err e → overflow_error e.
Proof.
  unfold math_exp. destruct (as_float v) as [[q| |]|e'] eqn:Hv; cbn; try done.
  - destruct (overflows _); intros [= <-]. by eexists.
  - intros [= <-]. by eapply as_float_Err.
Qed.

Lemma fdiv_Err (a b : double) (e : exn) :
  fdiv a b = Err e →
  e = ZeroDivisionError "float division by zero" ∧ ∃ y, b = Fin y ∧ (y == 0)%Q.
Proof.
  destruct b as [y| |]; cbn; [|done..].
  destruct (Qeq_bool y 0) eqn:Hy; [|done]. intros [= <-].
  split; [done|]. exists y. split; [done|]. by apply Qeq_bool_iff.
Qed.

Lemma truediv_Err (a b : num) (e : exn) :
  truediv a b = Err e →
  overflow_error e ∨
  ∃ msg y, e = ZeroDivisionError msg ∧ real b = Some y ∧ (y == 0)%Q.
Proof.
  assert (∀ x y : double, (q ← fdiv x y; mret (PyFloat q)) = Err e →
          ∃ z, e = ZeroDivisionError "float division by zero" ∧ y = Fin z ∧ (z == 0)%Q)
    as Hdiv.
  { intros x y. destruct (fdiv x y) eqn:Hxy; cbn; [done|]. intros [= <-].
    apply fdiv_Err in Hxy as (-> & z & -> & Hz). by exists z. }
  destruct a as [x|f], b as [y|g]; cbn.
  - destruct (Z.eqb_spec y 0) as [->|_].
    + intros [= <-]. right. by eexists _, _.
    + destruct (overflows _); intros [= <-]. left. by eexists.
  - destruct (of_int x) as [fx|e'] eqn:Hx; cbn.
    + intros (z & -> & -> & Hz)%Hdiv. right. by eexists _, _.
    + intros [= <-]. left. by eapply of_int_Err.
  - destruct (of_int y) as [fy|e'] eqn:Hy; cbn.
    + intros (z & -> & -> & Hz)%Hdiv. right. eexists _, z.
      split; [done|]. unfold of_int in Hy. destruct (overflows _); [done|].
      injection Hy as <-. by split.
    + intros [= <-]. left. by eapply of_int_Err.
  - intros (z & -> & -> & Hz)%Hdiv. right. by eexists _, _.
Qed.

(** ** Python's comparisons *)

Lemma exact_real (v : num) (q : Q) : real v = Some q → exact v = Fin q.
Proof. destruct v as [z|[x| |]]; cbn; congruence. Qed.

Lemma flt_Fin (x y : Q) : flt (Fin x) (Fin y) = Qlt_bool x y.
Proof.
  unfold flt, fle, Qlt_bool. destruct (Qle_bool y x) eqn:Hyx; cbn.
  - apply andb_false_r.
  - rewrite andb_true_r. apply Qle_bool_iff. apply Qnot_le_bool in Hyx. lra.
Qed.

Lemma py_le_real (a b : num) (x y : Q) :
  real a = Some x → real b = Some y → py_le a b = Qle_bool x y.
Proof. intros Ha%exact_real Hb%exact_real. unfold py_le. by rewrite Ha, Hb. Qed.

Lemma py_lt_real (a b : num) (x y : Q) :
  real a = Some x → real b = Some y → py_lt a b = Qlt_bool x y.
Proof.
  intros Ha%exact_real Hb%exact_real. unfold py_lt. rewrite Ha, Hb. apply flt_Fin.
Qed.

Lemma fle_NaN (a : double) : fle a NaN = false ∧ fle NaN a = false.
Proof. by destruct a as [x|[]|]. Qed.

Lemma py_compare_NaN (a : num) :
  py_le a (PyFloat NaN) = false ∧ py_le (PyFloat NaN) a = false ∧
  py_lt a (PyFloat NaN) = false ∧ py_lt (PyFloat NaN) a = false.
Proof.
  unfold py_lt, py_le, flt. cbn [exact].
  destruct (fle_NaN (exact a)) as [-> ->]. done.
Qed.

(** ** Variant A: validation *)

Lemma existsb_negative (vals : list Z) :
  existsb (λ v, v <? 0) vals = true ↔ Exists (λ v, v < 0) vals.
Proof.
  rewrite existsb_exists, Exists_exists. split.
  - intros (v & Hin & Hv). exists v. rewrite list_elem_of_In. split; [done|lia].
  - intros (v & Hin & Hv). exists v. rewrite <- list_elem_of_In. split; [done|lia].
Qed.

Lemma existsb_nonnegative (vals : list Z) :
  Forall (λ v, 0 ≤ v) vals → existsb (λ v, v <? 0) vals = false.
Proof.
  intros Hall. apply not_true_iff_false. rewrite existsb_negative.
  rewrite Exists_exists. intros (v & Hin & Hv).
  rewrite Forall_forall in Hall. specialize (Hall v Hin). lia.
Qed.

Lemma msg_negative_not_InvalidParameter :
  ¬ InvalidParameter (ValueError VariantA.msg_negative).
Proof. intros H. repeat destruct H as [H|H]; discriminate H. Qed.

Lemma raises_guard {A} (c : bool) (e : exn) (r : result A) (K : exn → Prop) :
  K e → raises (if c then Err e else r) K ↔ c = true ∨ raises r K.
Proof.
  intros HK. destruct c.
  - split; [by left|]. intros _. by exists e.
  - split; [by right|]. by intros [?|?].
Qed.

Lemma raises_after_validation (vals : list Z) (k : list double) :
  raises (if existsb (λ v, v <? 0) vals
          then Err (ValueError VariantA.msg_negative) else Ok k) InvalidParameter
  ↔ False.
Proof.
  split; [|done]. intros (e & He & HK).
  apply msg_negative_not_InvalidParameter.
  by destruct (existsb _ vals); simplify_eq.
Qed.

Lemma raises_Ok {A} (a : A) (K : exn → Prop) : raises (Ok a) K ↔ False.
Proof. split; [|done]. by intros (e & He & _). Qed.

Lemma overflow_error_not_InvalidParameter (e : exn) :
  overflow_error e → ¬ InvalidParameter e.
Proof. intros [msg ->] H. repeat destruct H as [H|H]; discriminate H. Qed.

Lemma raises_after_scale {A} (low high : num) (k : num → A) :
  raises (scale ← py_sub high low; mret (k scale)) InvalidParameter ↔ False.
Proof.
  split; [|done]. intros (e & He & HK).
  destruct (py_sub high low) as [scale|e'] eqn:Hsub; cbn in He; [done|].
  injection He as <-. by apply py_sub_Err, overflow_error_not_InvalidParameter in Hsub.
Qed.

Lemma InvalidParameter_messages :
  InvalidParameter (ValueError VariantA.msg_geometric_p) ∧
  InvalidParameter (ValueError VariantA.msg_binomial_n) ∧
  InvalidParameter (ValueError VariantA.msg_binomial_p) ∧
  InvalidParameter (ValueError VariantA.msg_poisson_mu) ∧
  InvalidParameter (ValueError VariantA.msg_uniform_bounds).
Proof. unfold InvalidParameter. naive_solver. Qed.

Section VariantA_facts.
Context `{!VariantA.scipy_stats}.

(** C2. In reject mode, one negative value is enough for
    [get_probability_distribution] to fail with the invalid-input error,
    whatever the name (a recognized one or not), the parameters (present or
    not) and the distributions: nothing is dispatched or computed, and the
    result carries no probability. *)
Theorem reject_mode_negative_value
    (name : string) (parameters : gmap string num) (vals : list Z) :
  Exists (λ v, v < 0) vals →
  VariantA.get_probability_distribution name parameters vals
  = Err (ValueError VariantA.msg_negative) ∧
  raises (VariantA.get_probability_distribution name parameters vals) InvalidInput.
Proof.
  intros Hneg. apply existsb_negative in Hneg.
  assert (VariantA.get_probability_distribution name parameters vals
          = Err (ValueError VariantA.msg_negative)) as Hr.
  { unfold VariantA.get_probability_distribution. by rewrite Hneg. }
  split; [done|]. rewrite Hr. eexists. split; [done|]. by left.
Qed.

(** C3, against the claim. NaN, which [float(input(...))] returns on the
    line "nan", is in no range, and no check of Variant A rejects it, since
    every comparison with NaN is false: on values that are zero or more,
    [geometric], [binomial], [poisson_dist] and [uniform_dist] raise nothing
    on a NaN parameter and return what [scipy.stats] makes of it, and so does
    the dispatcher. *)
Theorem nan_parameter_accepted (vals : list Z) :
  Forall (λ v, 0 ≤ v) vals →
  VariantA.geometric (PyFloat NaN) vals
  = Ok (VariantA.geom_pmf (PyFloat NaN) <$> vals) ∧
  (∀ n : Z, 0 ≤ n →
     VariantA.binomial (PyInt n) (PyFloat NaN) vals
     = Ok (VariantA.binom_pmf (PyInt n) (PyFloat NaN) <$> vals)) ∧
  VariantA.poisson_dist (PyFloat NaN) vals
  = Ok (VariantA.poisson_pmf (PyFloat NaN) <$> vals) ∧
  (∀ bound : double,
     VariantA.uniform_dist (PyFloat NaN) (PyFloat bound) vals
     = Ok (VariantA.uniform_pdf (PyFloat NaN) (PyFloat NaN) <$> vals) ∧
     VariantA.uniform_dist (PyFloat bound) (PyFloat NaN) vals
     = Ok (VariantA.uniform_pdf (PyFloat bound) (PyFloat NaN) <$> vals)) ∧
  VariantA.get_probability_distribution "geometric" {[ "p" := PyFloat NaN ]} vals
  = Ok (VariantA.geom_pmf (PyFloat NaN) <$> vals) ∧
  ¬ raises (VariantA.get_probability_distribution
              "geometric" {[ "p" := PyFloat NaN ]} vals) InvalidParameter.
Proof.
  intros Hvals%existsb_nonnegative.
  assert (VariantA.geometric (PyFloat NaN) vals
          = Ok (VariantA.geom_pmf (PyFloat NaN) <$> vals)) as Hg.
  { unfold VariantA.geometric. by rewrite Hvals. }
  assert (VariantA.get_probability_distribution
            "geometric" {[ "p" := PyFloat NaN ]} vals
          = Ok (VariantA.geom_pmf (PyFloat NaN) <$> vals)) as Hd.
  { unfold VariantA.get_probability_distribution. by rewrite Hvals. }
  split; [done|]. split; [|split; [|split; [|split]]].
  - intros n Hn. unfold VariantA.binomial. rewrite Hvals.
    rewrite (py_lt_real (PyInt n) (PyInt 0) (inject_Z n) 0) by done.
    assert (Qlt_bool (inject_Z n) 0 = false) as ->; [|done].
    apply Qnot_lt_bool. change 0%Q with (inject_Z 0). by rewrite <- Zle_Qle.
  - unfold VariantA.poisson_dist. by rewrite Hvals.
  - intros bound. unfold VariantA.uniform_dist.
    destruct (py_compare_NaN (PyFloat bound)) as (-> & -> & _). by destruct bound.
  - done.
  - rewrite Hd. by intros (e & ? & _).
Qed.

End VariantA_facts.

(** C2, on the specification's example: binomial with [n = 5] and [p = 1/2]
    on [[-1; 0; 1]]. *)
Lemma reject_mode_negative_value_example :
  Exists (λ v, v < 0) [-1; 0; 1] ∧
  @VariantA.get_probability_distribution exact_stats
    "binomial" {[ "n" := PyInt 5; "p" := PyFloat (Fin (1 # 2)) ]} [-1; 0; 1]
  = Err (ValueError VariantA.msg_negative) ∧
  raises (@VariantA.get_probability_distribution exact_stats
            "binomial" {[ "n" := PyInt 5; "p" := PyFloat (Fin (1 # 2)) ]} [-1; 0; 1])
         InvalidInput.
Proof.
  assert (Exists (λ v, v < 0) [-1; 0; 1]) as Hneg by (left; lia).
  split; [exact Hneg|].
  exact (reject_mode_negative_value "binomial" _ _ Hneg).
Defined.

(** ** Dispatch by name *)

Lemma not_kind_eqb (name : string) :
  name ∉ kinds →
  (name =? "geometric")%string = false ∧ (name =? "binomial")%string = false ∧
  (name =? "poisson")%string = false ∧ (name =? "uniform")%string = false.
Proof.
  unfold kinds. rewrite !not_elem_of_cons, <- !String.eqb_neq. tauto.
Qed.

Lemma Exists_nonnegative_kept (vals : list Z) :
  Exists (λ v, 0 ≤ v) vals → ∃ v kept, filter (λ v, 0 ≤ v) vals = v :: kept.
Proof.
  rewrite Exists_exists. intros (v & Hin & Hv).
  destruct (filter (λ v, 0 ≤ v) vals) as [|v' kept] eqn:Hkept; [|by eauto].
  by destruct (filter_nil_not_elem_of _ _ v Hkept Hv).
Qed.

Lemma variantA_case_insensitive
    `{!VariantA.scipy_stats} (parameters : gmap string num) (vals : list Z) :
  case_insensitive
    (λ name, VariantA.get_probability_distribution name parameters vals).
Proof.
  intros name1 name2 Hlower. unfold VariantA.get_probability_distribution.
  by rewrite Hlower.
Qed.

Lemma variantB_unsupported
    (exp : Q → Q) (name : string) (parameters : gmap string num) (vals : list Z) :
  Exists (λ v, 0 ≤ v) vals → name ∉ kinds →
  (VariantB.get_probability_distribution exp name parameters vals).2
  = Err (ValueError VariantB.msg_unsupported).
Proof.
  intros (v & kept & Hkept)%Exists_nonnegative_kept (Hg & Hb & Hp & Hu)%not_kind_eqb.
  unfold VariantB.get_probability_distribution, VariantB.filter_values.
  rewrite Hkept. cbn -[String.eqb]. by rewrite Hg, Hb, Hp, Hu.
Qed.

(** C10. In Variant B the values are filtered before the name is looked at:
    when every value is negative, the all-negative error is raised whatever
    the name, an unsupported one included; so the unsupported-distribution
    error needs a value that is zero or more, and with such a value a name
    outside the four kinds does raise it. *)
Theorem filter_before_dispatch
    (exp : Q → Q) (name : string) (parameters : gmap string num) (vals : list Z) :
  (Forall (λ v, v < 0) vals →
   (VariantB.get_probability_distribution exp name parameters vals).2
   = Err (ValueError VariantB.msg_all_negative)) ∧
  ((VariantB.get_probability_distribution exp name parameters vals).2
   = Err (ValueError VariantB.msg_unsupported) →
   ∃ v, v ∈ vals ∧ 0 ≤ v) ∧
  (Exists (λ v, 0 ≤ v) vals → name ∉ kinds →
   (VariantB.get_probability_distribution exp name parameters vals).2
   = Err (ValueError VariantB.msg_unsupported)).
Proof.
  split; [|split; [|apply variantB_unsupported]].
  - intros Hneg. apply get_probability_distribution_nothing_kept.
    induction Hneg as [|v vals Hv _ IH]; [done|].
    rewrite filter_cons_False by lia. exact IH.
  - destruct (filter (λ v, 0 ≤ v) vals) as [|v kept] eqn:Hkept.
    + rewrite get_probability_distribution_nothing_kept by done. done.
    + intros _. exists v.
      assert (v ∈ filter (λ v, 0 ≤ v) vals) as Hv by (rewrite Hkept; left).
      by apply list_elem_of_filter in Hv as [? ?].
Qed.

(** C4, as the code has it. Variant A's dispatcher lowers the name before it
    compares it, so it selects the evaluator whatever the case of the name;
    Variant B's compares the name as it is given and selects an evaluator
    for the four lower-case names only. Once the values are accepted (none
    negative in A, one that is zero or more in B), a name outside the four
    kinds (in A: whose lower-case form is outside them) fails with the
    unsupported-distribution error; so does "gaussian" on [[0]], whatever
    the parameters, in both. *)
Theorem dispatch_by_name :
  (∀ (stats : VariantA.scipy_stats) parameters vals,
     case_insensitive
       (λ name, VariantA.get_probability_distribution name parameters vals)) ∧
  (∀ (stats : VariantA.scipy_stats) name parameters vals,
     Forall (λ v, 0 ≤ v) vals →
     (lower name = "geometric" →
      VariantA.get_probability_distribution name parameters vals
      = (p ← getitem parameters "p"; VariantA.geometric p vals)) ∧
     (lower name = "binomial" →
      VariantA.get_probability_distribution name parameters vals
      = (n ← getitem parameters "n"; p ← getitem parameters "p";
         VariantA.binomial n p vals)) ∧
     (lower name = "poisson" →
      VariantA.get_probability_distribution name parameters vals
      = (mu ← getitem parameters "mu"; VariantA.poisson_dist mu vals)) ∧
     (lower name = "uniform" →
      VariantA.get_probability_distribution name parameters vals
      = (low ← getitem parameters "low"; high ← getitem parameters "high";
         VariantA.uniform_dist low high vals)) ∧
     (lower name ∉ kinds →
      VariantA.get_probability_distribution name parameters vals
      = Err (ValueError VariantA.msg_unsupported))) ∧
  (∀ (exp : Q → Q) parameters v kept,
     let vals := v :: kept in
     Forall (λ v, 0 ≤ v) vals →
     (VariantB.get_probability_distribution exp "geometric" parameters vals).2
     = (p ← getitem parameters "p";
        probabilities ← VariantB.geometric p vals;
        mret (vals, probabilities)) ∧
     (VariantB.get_probability_distribution exp "binomial" parameters vals).2
     = (n ← getitem parameters "n"; p ← getitem parameters "p";
        probabilities ← VariantB.binomial n p vals;
        mret (vals, probabilities)) ∧
     (VariantB.get_probability_distribution exp "poisson" parameters vals).2
     = (mu ← getitem parameters "mu";
        probabilities ← VariantB.poisson_dist exp mu vals;
        mret (vals, probabilities)) ∧
     (VariantB.get_probability_distribution exp "uniform" parameters vals).2
     = (low ← getitem parameters "low"; high ← getitem parameters "high";
        probabilities ← VariantB.uniform_dist low high vals;
        mret (vals, probabilities))) ∧
  (∀ (exp : Q → Q) name parameters vals,
     Exists (λ v, 0 ≤ v) vals → name ∉ kinds →
     (VariantB.get_probability_distribution exp name parameters vals).2
     = Err (ValueError VariantB.msg_unsupported)) ∧
  (∀ (stats : VariantA.scipy_stats) parameters,
     raises (VariantA.get_probability_distribution "gaussian" parameters [0])
       UnsupportedDistribution) ∧
  (∀ (exp : Q → Q) parameters,
     raises (VariantB.get_probability_distribution exp "gaussian" parameters [0]).2
       UnsupportedDistribution).
Proof.
  split; [intros; apply variantA_case_insensitive|].
  split.
  { intros stats name parameters vals Hvals.
    unfold VariantA.get_probability_distribution.
    rewrite existsb_nonnegative by done. cbv zeta.
    repeat split.
    1-4: by intros ->.
    intros (Hg & Hb & Hp & Hu)%not_kind_eqb. by rewrite Hg, Hb, Hp, Hu. }
  split.
  { intros exp parameters v kept vals Hvals.
    assert (filter (λ v, 0 ≤ v) vals = vals) as Hkept.
    { clear -Hvals. induction Hvals as [|x l Hx _ IH]; [done|].
      by rewrite filter_cons_True, IH. }
    unfold VariantB.get_probability_distribution, VariantB.filter_values.
    rewrite Hkept. subst vals. cbn.
    repeat split.
    - by destruct (getitem parameters "p").
    - by destruct (getitem parameters "n"), (getitem parameters "p").
    - by destruct (getitem parameters "mu").
    - by destruct (getitem parameters "low"), (getitem parameters "high"). }
  split; [apply variantB_unsupported|].
  split; intros; eexists; (split; [reflexivity|reflexivity]).
Qed.

(** ** Binomial coefficients *)

Lemma pascal_gt (n k : nat) : (n < k)%nat → pascal n k = 0%nat.
Proof.
  revert k. induction n as [|n IH]; intros [|k] Hlt; try lia; [done|].
  cbn. rewrite !IH by lia. done.
Qed.

Lemma pascal_diag (n : nat) : pascal n n = 1%nat.
Proof.
  induction n as [|n IH]; [done|].
  cbn. rewrite IH, pascal_gt by lia. done.
Qed.

Lemma pascal_fact (n k : nat) :
  (k ≤ n)%nat → (pascal n k * (fact k * fact (n - k)) = fact n)%nat.
Proof.
  revert k. induction n as [|n IH]; intros [|k] Hle; try lia.
  - done.
  - cbn [pascal]. rewrite Nat.sub_0_r. cbn [fact]. lia.
  - destruct (decide (k = n)) as [->|Hne].
    + cbn [pascal]. rewrite pascal_diag, pascal_gt, Nat.sub_diag by lia.
      cbn [fact]. lia.
    + assert (pascal n k * (fact k * fact (n - k)) = fact n)%nat as IH1
        by (apply IH; lia).
      assert (pascal n (S k) * (fact (S k) * fact (n - S k)) = fact n)%nat as IH2
        by (apply IH; lia).
      replace (n - k)%nat with (S (n - S k)) in IH1 by lia.
      replace (S n - S k)%nat with (S (n - S k)) by lia.
      cbn [pascal].
      change (fact (S n)) with (S n * fact n)%nat.
      change (fact (S (n - S k))) with (S (n - S k) * fact (n - S k))%nat in *.
      change (fact (S k)) with (S k * fact k)%nat in *.
      replace (S n) with (S k + S (n - S k))%nat at 2 by lia.
      nia.
Qed.

Lemma comb_pascal (n k : Z) :
  0 ≤ k ≤ n → comb n k = Ok (Z.of_nat (pascal (Z.to_nat n) (Z.to_nat k))).
Proof.
  intros Hk. unfold comb.
  destruct (Z.ltb_spec n 0), (Z.ltb_spec k 0), (Z.ltb_spec n k); try lia.
  f_equal. rewrite Z2Nat.inj_sub by lia.
  rewrite <- (pascal_fact (Z.to_nat n) (Z.to_nat k)) by lia.
  rewrite !Nat2Z.inj_mul. apply Z.div_mul.
  pose proof (lt_O_fact (Z.to_nat k)). pose proof (lt_O_fact (Z.to_nat n - Z.to_nat k)).
  nia.
Qed.

(** ** Sums of rationals and the binomial theorem *)

Local Open Scope Q_scope.

Lemma Qsum_cons (x : Q) (l : list Q) : Qsum (x :: l) = x + Qsum l.
Proof. done. Qed.

Lemma Qsum_app (l1 l2 : list Q) : Qsum (l1 ++ l2) == Qsum l1 + Qsum l2.
Proof.
  induction l1 as [|x l1 IH]; cbn [app].
  - cbn. ring.
  - rewrite !Qsum_cons, IH. ring.
Qed.

Lemma Qsum_fmap_ext {A} (f g : A → Q) (l : list A) :
  (∀ x, x ∈ l → f x == g x) → Qsum (f <$> l) == Qsum (g <$> l).
Proof.
  induction l as [|x l IH]; intros Hfg; [reflexivity|].
  rewrite !fmap_cons, !Qsum_cons, Hfg, IH; [reflexivity| |left].
  intros y Hy. apply Hfg. by right.
Qed.

Lemma Qsum_fmap_scale {A} (c : Q) (f : A → Q) (l : list A) :
  Qsum ((λ x, c * f x) <$> l) == c * Qsum (f <$> l).
Proof.
  induction l as [|x l IH]; [cbn; ring|].
  rewrite !fmap_cons, !Qsum_cons, IH. ring.
Qed.

Lemma Qsum_fmap_plus {A} (f g : A → Q) (l : list A) :
  Qsum ((λ x, f x + g x) <$> l) == Qsum (f <$> l) + Qsum (g <$> l).
Proof.
  induction l as [|x l IH]; [cbn; ring|].
  rewrite !fmap_cons, !Qsum_cons, IH. ring.
Qed.

Lemma Qsum_upto_first (f : nat → Q) (m : nat) :
  Qsum (f <$> seq 0 (S m)) == f O + Qsum ((λ k, f (S k)) <$> seq 0 m).
Proof.
  cbn [seq]. rewrite fmap_cons, Qsum_cons, <- fmap_S_seq, <- list_fmap_compose.
  reflexivity.
Qed.

Lemma Qsum_upto_last (f : nat → Q) (m : nat) :
  Qsum (f <$> seq 0 (S m)) == Qsum (f <$> seq 0 m) + f m.
Proof.
  rewrite seq_S, fmap_app, Qsum_app. cbn. ring.
Qed.

Lemma Qpower_succ (a : Q) (z : Z) : (0 ≤ z)%Z → a ^ (z + 1) == a * a ^ z.
Proof.
  intros Hz. rewrite Qpower_plus' by lia. change (a ^ 1) with a. ring.
Qed.

Lemma pascal_0_r (n : nat) : pascal n 0 = 1%nat.
Proof. by destruct n. Qed.

Lemma binomial_term_first (a b : Q) (n : nat) :
  binomial_term a b (S n) 0 == b * binomial_term a b n 0.
Proof.
  unfold binomial_term. rewrite !pascal_0_r.
  replace (Z.of_nat (S n) - Z.of_nat 0)%Z with (Z.of_nat n - Z.of_nat 0 + 1)%Z by lia.
  rewrite Qpower_succ by lia. hide_powers. ring.
Qed.

Lemma binomial_term_beyond (a b : Q) (n : nat) : binomial_term a b n (S n) == 0.
Proof. unfold binomial_term. rewrite pascal_gt by lia. hide_powers. ring. Qed.

Lemma binomial_term_succ (a b : Q) (n k : nat) :
  (k ≤ n)%nat →
  binomial_term a b (S n) (S k)
  == a * binomial_term a b n k + b * binomial_term a b n (S k).
Proof.
  intros Hk. unfold binomial_term. cbn [pascal].
  rewrite Nat2Z.inj_add, inject_Z_plus.
  replace (Z.of_nat (S n) - Z.of_nat (S k))%Z with (Z.of_nat n - Z.of_nat k)%Z by lia.
  replace (Z.of_nat (S k)) with (Z.of_nat k + 1)%Z by lia.
  rewrite Qpower_succ by lia.
  destruct (decide (k = n)) as [->|Hne].
  - rewrite (pascal_gt n (S n)) by lia. hide_powers. ring.
  - replace (Z.of_nat n - Z.of_nat k)%Z with (Z.of_nat n - (Z.of_nat k + 1) + 1)%Z
      at 1 2 by lia.
    rewrite Qpower_succ by lia. hide_powers. ring.
Qed.

Lemma binomial_theorem (a b : Q) (n : nat) :
  Qsum (binomial_term a b n <$> seq 0 (S n)) == (a + b) ^ Z.of_nat n.
Proof.
  induction n as [|n IH].
  - change (binomial_term a b 0 0 + 0 == 1).
    change (binomial_term a b 0 0) with (inject_Z 1 * 1 * 1). ring.
  - rewrite Qsum_upto_first.
    rewrite (Qsum_fmap_ext _
               (λ k, a * binomial_term a b n k + b * binomial_term a b n (S k))).
    2: { intros k Hk%elem_of_seq. apply binomial_term_succ. lia. }
    rewrite Qsum_fmap_plus, !Qsum_fmap_scale.
    rewrite (Qsum_upto_last (λ k, binomial_term a b n (S k))).
    rewrite binomial_term_beyond, binomial_term_first.
    replace (Z.of_nat (S n)) with (Z.of_nat n + 1)%Z by lia.
    rewrite Qpower_succ, <- IH, (Qsum_upto_first (binomial_term a b n)) by lia.
    ring.
Qed.

Local Close Scope Q_scope.

(** ** Variant B: the formulas *)

Lemma factorial_nonneg (x : Z) :
  0 ≤ x → factorial x = Ok (Z.of_nat (fact (Z.to_nat x))).
Proof. intros Hx. unfold factorial. by destruct (Z.ltb_spec x 0); [lia|]. Qed.

Lemma inject_fact_nonzero (k : nat) : ¬ (inject_Z (Z.of_nat (fact k)) == 0)%Q.
Proof.
  pose proof (lt_O_fact k). change 0%Q with (inject_Z 0).
  rewrite inject_Z_injective. lia.
Qed.

Lemma Qle_bool_inject_Z (x y : Z) : Qle_bool (inject_Z x) (inject_Z y) = (x <=? y).
Proof.
  apply eq_true_iff_eq. rewrite Qle_bool_iff, <- Zle_Qle. symmetry. apply Z.leb_le.
Qed.

Lemma mapM_Err_all {A B} (f : A → result B) (l : list A) (e : exn) (x : A) :
  x ∈ l → f x = Err e → (∀ y e', y ∈ l → f y = Err e' → e' = e) →
  mapM f l = Err e.
Proof.
  intros Hin Hx Hall. induction Hin as [x l|x y l _ IH]; cbn.
  - by rewrite Hx.
  - destruct (f y) as [b|e'] eqn:Hy; cbn.
    + rewrite IH; [done..|]. intros z e' Hz. apply Hall. by right.
    + f_equal. eapply Hall; [left|done].
Qed.

Lemma mapM_Err_elem {A B} (f : A → result B) (l : list A) (e : exn) :
  mapM f l = Err e → ∃ x, x ∈ l ∧ f x = Err e.
Proof.
  induction l as [|x l IH]; cbn; [done|].
  destruct (f x) as [y|e'] eqn:Hx; cbn.
  - destruct (mapM f l) as [k'|e'] eqn:Hl; cbn; [done|].
    intros [= <-]. destruct IH as (x' & ? & ?); [done|].
    exists x'. split; [by constructor|done].
  - intros [= <-]. exists x. split; [by constructor|done].
Qed.

Lemma length_mapM_Ok {A B} (f : A → result B) (l : list A) (k : list B) :
  mapM f l = Ok k → length k = length l.
Proof. intros HF%mapM_Ok_Forall2. symmetry. by eapply Forall2_length. Qed.

Lemma geometric_refines (p : Q) (vals : list Z) :
  Forall (geometric_fits p) vals →
  VariantB.geometric (PyFloat (Fin p)) vals = Ok (geometric_value p <$> vals).
Proof.
  intros Hfits. apply mapM_Ok_fmap. eapply Forall_impl; [exact Hfits|].
  intros x Hx. unfold geometric_value, geometric_formula.
  destruct (Z.ltb_spec 0 x), (Z.leb_spec 1 x); try lia; [|done].
  destruct Hx as (H1 & H2 & H3); [done|].
  rewrite py_sub_1_float by done. cbn [mbind result_bind].
  rewrite pow_float by (done || lia). cbn [mbind result_bind].
  by rewrite py_mul_float.
Qed.

Lemma binomial_refines (n : Z) (p : Q) (vals : list Z) :
  Forall (binomial_fits n p) vals →
  VariantB.binomial (PyInt n) (PyFloat (Fin p)) vals
  = Ok (binomial_value n p <$> vals).
Proof.
  intros Hfits. apply mapM_Ok_fmap. eapply Forall_impl; [exact Hfits|].
  intros x Hx. unfold binomial_value, binomial_formula, py_le. cbn [exact fle].
  rewrite Qle_bool_inject_Z.
  destruct (Z.leb_spec 0 x), (Z.leb_spec x n); cbn [andb]; try done.
  destruct Hx as (H1 & H2 & H3 & H4 & H5 & H6); [done|].
  rewrite comb_pascal by done. cbn [mbind result_bind].
  rewrite pow_float by done. cbn [mbind result_bind].
  rewrite py_mul_int_float by done. cbn [mbind result_bind].
  rewrite py_sub_1_float by done. cbn [mbind result_bind].
  rewrite pow_float by (done || lia). cbn [mbind result_bind].
  by rewrite py_mul_float.
Qed.

Lemma poisson_refines (exp : Q → Q) (mu : Q) (vals : list Z) :
  Forall (poisson_fits exp mu) vals →
  VariantB.poisson_dist exp (PyFloat (Fin mu)) vals
  = Ok (poisson_value exp mu <$> vals).
Proof.
  intros Hfits. apply mapM_Ok_fmap. eapply Forall_impl; [exact Hfits|].
  intros x Hx. unfold poisson_value, poisson_formula.
  destruct (Z.leb_spec 0 x); [|done].
  destruct Hx as (H1 & H2 & H3 & H4 & H5); [done|].
  rewrite pow_float by done. cbn [mbind result_bind].
  rewrite math_exp_float by done. cbn [mbind result_bind].
  rewrite py_mul_float by done. cbn [mbind result_bind].
  rewrite factorial_nonneg by done. cbn [mbind result_bind].
  apply truediv_float_int; [|done..].
  pose proof (lt_O_fact (Z.to_nat x)). lia.
Qed.




Lemma uniform_at_equal_bounds (low high : Q) (x : Z) (r : result num) :
  (high == low)%Q →
  (if py_le (PyFloat (Fin low)) (PyInt x) && py_le (PyInt x) (PyFloat (Fin high))
   then d ← py_sub (PyFloat (Fin high)) (PyFloat (Fin low)); truediv (PyInt 1) d
   else mret (PyInt 0)) = r →
  (r = Ok (PyInt 0) ∧ ¬ (inject_Z x == low)%Q) ∨
  r = Err (ZeroDivisionError "float division by zero").
Proof.
  intros Heq <-. unfold py_le. cbn [exact fle].
  destruct (Qle_bool low (inject_Z x)) eqn:H1;
    [destruct (Qle_bool (inject_Z x) high) eqn:H2|]; cbn [andb].
  - right. rewrite py_sub_float.
    + cbn [mbind result_bind]. apply truediv_1_zero. lra.
    + apply (fits_proper 0); [lra|apply fits_0].
  - left. split; [done|]. apply Qnot_le_bool in H2. lra.
  - left. split; [done|]. apply Qnot_le_bool in H1. lra.
Qed.

Lemma uniform_degenerate (low high : Q) (vals : list Z) (x : Z) :
  (high == low)%Q → x ∈ vals → (inject_Z x == low)%Q →
  VariantB.uniform_dist (PyFloat (Fin low)) (PyFloat (Fin high)) vals
  = Err (ZeroDivisionError "float division by zero").
Proof.
  intros Heq Hin Hx. unfold VariantB.uniform_dist.
  apply (mapM_Err_all _ _ _ x Hin).
  - by destruct (uniform_at_equal_bounds low high x _ Heq eq_refl) as [[_ ?]|?].
  - intros y e' _ Hy.
    destruct (uniform_at_equal_bounds low high y _ Heq Hy) as [[? _]|?]; congruence.
Qed.

(** ** Variant B: what the evaluators can raise *)

Lemma geometric_Err (p : num) (vals : list Z) (e : exn) :
  VariantB.geometric p vals = Err e → overflow_error e.
Proof.
  intros (x & _ & Hx)%mapM_Err_elem.
  destruct (Z.ltb_spec 0 x); [|done].
  destruct (py_sub (PyInt 1) p) as [q|] eqn:Hq; cbn in Hx;
    [|injection Hx as <-; by eapply py_sub_Err].
  destruct (pow q (x - 1)) as [a|] eqn:Ha; cbn in Hx;
    [|injection Hx as <-; eapply pow_Err; [|done]; lia].
  by eapply py_mul_Err.
Qed.

Lemma binomial_Err (n p : num) (vals : list Z) (e : exn) :
  VariantB.binomial n p vals = Err e →
  overflow_error e ∨ (e = not_an_integer ∧ ∃ f, n = PyFloat f).
Proof.
  intros (x & _ & Hx)%mapM_Err_elem.
  destruct (Z.leb_spec 0 x); [|done]. cbn [andb] in Hx.
  destruct n as [m|f]; [left|right].
  - unfold py_le in Hx. cbn [exact fle] in Hx. rewrite Qle_bool_inject_Z in Hx.
    destruct (Z.leb_spec x m); [|done].
    rewrite comb_pascal in Hx by done. cbn [mbind result_bind] in Hx.
    destruct (pow p x) as [a|] eqn:Ha; cbn [mbind result_bind] in Hx;
      [|injection Hx as <-; by eapply pow_Err].
    destruct (py_mul _ a) as [ca|] eqn:Hca; cbn [mbind result_bind] in Hx;
      [|injection Hx as <-; by eapply py_mul_Err].
    destruct (py_sub (PyInt 1) p) as [q|] eqn:Hq; cbn [mbind result_bind] in Hx;
      [|injection Hx as <-; by eapply py_sub_Err].
    destruct (pow q (m - x)) as [b|] eqn:Hb; cbn [mbind result_bind] in Hx;
      [|injection Hx as <-; eapply pow_Err; [|done]; lia].
    by eapply py_mul_Err.
  - destruct (py_le _ _); [|done]. injection Hx as <-. split; [done|]. by exists f.
Qed.

Lemma poisson_Err (exp : Q → Q) (mu : num) (vals : list Z) (e : exn) :
  VariantB.poisson_dist exp mu vals = Err e → overflow_error e.
Proof.
  intros (x & _ & Hx)%mapM_Err_elem.
  destruct (Z.leb_spec 0 x); [|done].
  destruct (pow mu x) as [a|] eqn:Ha; cbn [mbind result_bind] in Hx;
    [|injection Hx as <-; by eapply pow_Err].
  destruct (math_exp exp (py_neg mu)) as [ex|] eqn:Hex; cbn [mbind result_bind] in Hx;
    [|injection Hx as <-; by eapply math_exp_Err].
  destruct (py_mul a (PyFloat ex)) as [ae|] eqn:Hae; cbn [mbind result_bind] in Hx;
    [|injection Hx as <-; by eapply py_mul_Err].
  rewrite factorial_nonneg in Hx by done. cbn [mbind result_bind] in Hx.
  apply truediv_Err in Hx as [?|(msg & y & _ & [= <-] & Hy)]; [done|].
  by apply inject_fact_nonzero in Hy.
Qed.

Lemma uniform_Err (low high : num) (vals : list Z) (e : exn) :
  VariantB.uniform_dist low high vals = Err e →
  overflow_error e ∨ ∃ msg, e = ZeroDivisionError msg.
Proof.
  intros (x & _ & Hx)%mapM_Err_elem.
  destruct (_ && _); [|done].
  destruct (py_sub high low) as [d|] eqn:Hd; cbn [mbind result_bind] in Hx;
    [|injection Hx as <-; left; by eapply py_sub_Err].
  apply truediv_Err in Hx as [?|(msg & y & -> & _)]; [by left|right; by eexists].
Qed.

Lemma uniform_float_outcome (low high : double) (vals : list Z) :
  (∃ probs, VariantB.uniform_dist (PyFloat low) (PyFloat high) vals = Ok probs ∧
            length probs = length vals) ∨
  ((∃ l h : Q, low = Fin l ∧ high = Fin h ∧ (h == l)%Q) ∧
   VariantB.uniform_dist (PyFloat low) (PyFloat high) vals
   = Err (ZeroDivisionError "float division by zero")).
Proof.
  destruct (VariantB.uniform_dist (PyFloat low) (PyFloat high) vals)
    as [probs|e] eqn:Hrun.
  { left. exists probs. split; [done|]. by eapply length_mapM_Ok. }
  right. apply mapM_Err_elem in Hrun as (x & _ & Hx).
  destruct (_ && _); [|done]. cbn in Hx.
  destruct (fdiv (Fin 1) (fsub high low)) as [q|e'] eqn:Hdiv.
  { rewrite of_int_1 in Hx. cbn in Hx. by rewrite Hdiv in Hx. }
  rewrite of_int_1 in Hx. cbn in Hx. rewrite Hdiv in Hx. injection Hx as <-.
  apply fdiv_Err in Hdiv as (-> & y & Hsub & Hy). split; [|done].
  destruct low as [l|s|], high as [h|t|]; try done;
    try (by destruct s); try (by destruct t); try (by destruct s, t).
  exists l, h. split; [done|]. split; [done|].
  unfold fsub, fadd, fneg, rounded in Hsub.
  destruct (overflows _); [done|]. injection Hsub as <-. lra.
Qed.

(** ** Factorials and binomial coefficients against the range of the doubles *)

Lemma fits_inject_Z (z : Z) :
  0 ≤ z → z < Z.shiftl (2 ^ 54 - 1) 970 → fits (inject_Z z).
Proof.
  intros H0 Hz. unfold fits, float_limit. rewrite Qabs_pos.
  - by rewrite <- Zlt_Qlt.
  - change 0%Q with (inject_Z 0). by rewrite <- Zle_Qle.
Qed.

Lemma overflows_inject_Z (z : Z) :
  Z.shiftl (2 ^ 54 - 1) 970 ≤ z → (float_limit <= Qabs (inject_Z z))%Q.
Proof.
  intros Hz. unfold float_limit. rewrite Qabs_pos.
  - by rewrite <- Zle_Qle.
  - change 0%Q with (inject_Z 0). rewrite <- Zle_Qle.
    assert (0 ≤ Z.shiftl (2 ^ 54 - 1) 970) by (apply Z.shiftl_nonneg; lia). lia.
Qed.

Lemma fact_Z_spec (n : nat) : fact_Z n = Z.of_nat (fact n).
Proof.
  induction n as [|n IH]; [done|].
  change (fact (S n)) with (S n * fact n)%nat.
  rewrite Nat2Z.inj_mul, <- IH. done.
Qed.

Lemma fact_fits (x : Z) : x ≤ 170 → fits (inject_Z (Z.of_nat (fact (Z.to_nat x)))).
Proof.
  intros Hx. apply fits_inject_Z; [lia|].
  apply Z.le_lt_trans with (Z.of_nat (fact 170)).
  - apply Nat2Z.inj_le, fact_le. lia.
  - rewrite <- fact_Z_spec. by vm_compute.
Qed.

Lemma fact_overflows (x : Z) :
  171 ≤ x → (float_limit <= Qabs (inject_Z (Z.of_nat (fact (Z.to_nat x)))))%Q.
Proof.
  intros Hx. apply overflows_inject_Z.
  apply Z.le_trans with (Z.of_nat (fact 171)).
  - rewrite <- fact_Z_spec. by vm_compute.
  - apply Nat2Z.inj_le, fact_le. lia.
Qed.

Lemma pascal_step (n k : nat) : (pascal n (S k) * S k = pascal n k * (n - k))%nat.
Proof.
  revert k. induction n as [|n IH]; intros k.
  - destruct k; cbn; lia.
  - destruct k as [|k].
    + specialize (IH 0%nat). rewrite pascal_0_r in IH.
      cbn [pascal]. rewrite !pascal_0_r. lia.
    + pose proof (IH k) as IH1. pose proof (IH (S k)) as IH2.
      change (pascal (S n) (S (S k))) with (pascal n (S k) + pascal n (S (S k)))%nat.
      change (pascal (S n) (S k)) with (pascal n k + pascal n (S k))%nat.
      destruct (le_lt_dec (S k) n) as [Hle|Hgt].
      * replace (S n - S k)%nat with (S (n - S k)) by lia.
        replace (n - k)%nat with (S (n - S k)) in IH1 by lia. nia.
      * rewrite (pascal_gt n (S k)), (pascal_gt n (S (S k))) by lia.
        replace (S n - S k)%nat with 0%nat by lia. lia.
Qed.

Lemma pascal_row_spec (n len k : nat) :
  pascal_row (Z.of_nat n) k (Z.of_nat (pascal n k)) len
  = (λ j, Z.of_nat (pascal n j)) <$> seq k len.
Proof.
  revert k. induction len as [|len IH]; intros k; [done|].
  cbn [pascal_row seq fmap list_fmap]. f_equal.
  rewrite <- IH. f_equal.
  destruct (le_lt_dec k n) as [Hle|Hgt].
  - rewrite <- Nat2Z.inj_sub, <- Nat2Z.inj_mul, <- pascal_step, Nat2Z.inj_mul by done.
    apply Z.div_mul. lia.
  - rewrite (pascal_gt n k), (pascal_gt n (S k)) by lia. done.
Qed.

Lemma pascal_mono (n m k : nat) : (n ≤ m)%nat → (pascal n k ≤ pascal m k)%nat.
Proof.
  induction 1 as [|m _ IH]; [done|].
  etrans; [exact IH|]. destruct k; cbn [pascal]; [by rewrite pascal_0_r|lia].
Qed.

Lemma pascal_fits (n k : nat) :
  (n ≤ 1029)%nat → fits (inject_Z (Z.of_nat (pascal n k))).
Proof.
  intros Hn. apply fits_inject_Z; [lia|].
  apply Z.le_lt_trans with (Z.of_nat (pascal 1029 k));
    [by apply Nat2Z.inj_le, pascal_mono|].
  destruct (le_lt_dec k 1029) as [Hk|Hk]; [|by rewrite pascal_gt by lia].
  assert (forallb (λ c, c <? Z.shiftl (2 ^ 54 - 1) 970)
            (pascal_row (Z.of_nat 1029) 0 (Z.of_nat (pascal 1029 0)) 1030) = true)
    as Hrow by (rewrite pascal_0_r; by vm_compute).
  rewrite pascal_row_spec, forallb_forall in Hrow.
  apply Z.ltb_lt, Hrow, list_elem_of_In, list_elem_of_fmap.
  exists k. split; [done|]. apply elem_of_seq. lia.
Qed.

Lemma pascal_row_lookup (n k : nat) (c : Z) :
  pascal_row (Z.of_nat n) 0 1 (S k) !! k = Some c → Z.of_nat (pascal n k) = c.
Proof.
  pose proof (pascal_row_spec n (S k) 0) as Hspec. rewrite pascal_0_r in Hspec.
  change (Z.of_nat 1) with 1 in Hspec. rewrite Hspec.
  rewrite list_lookup_fmap, lookup_seq_lt by lia. by intros [= <-].
Qed.

Lemma pascal_1030_overflows :
  (float_limit <= Qabs (inject_Z (Z.of_nat (pascal 1030 515))))%Q.
Proof.
  apply overflows_inject_Z.
  assert (∃ c, pascal_row (Z.of_nat 1030) 0 1 516 !! 515%nat = Some c ∧
               Z.shiftl (2 ^ 54 - 1) 970 ≤ c) as (c & Hc & Hle).
  { eexists. split; [vm_compute; reflexivity|]. vm_compute. discriminate. }
  rewrite (pascal_row_lookup 1030 515 c Hc). exact Hle.
Qed.

(** ** Variant B: parameters in their range *)

Local Open Scope Q_scope.

Lemma Qpower_le_1 (a : Q) (n : Z) : 0 <= a → a <= 1 → (0 ≤ n)%Z → a ^ n <= 1.
Proof.
  intros Ha0 Ha1 Hn. rewrite <- (Z2Nat.id n) by done.
  induction (Z.to_nat n) as [|k IH]; [discriminate|].
  replace (Z.of_nat (S k)) with (Z.of_nat k + 1)%Z by lia.
  rewrite Qpower_succ by lia.
  pose proof (Qpower_0_le a (Z.of_nat k) Ha0). nra.
Qed.


Lemma fits_power (a : Q) (n : Z) : 0 <= a → a <= 1 → (0 ≤ n)%Z → fits (a ^ n).
Proof.
  intros Ha0 Ha1 Hn. apply fits_unit; [by apply Qpower_0_le|by apply Qpower_le_1].
Qed.

Lemma geometric_fits_probability (p : Q) (x : Z) :
  0 < p → p <= 1 → geometric_fits p x.
Proof.
  intros Hp0 Hp1 Hx.
  assert (fits ((1 - p) ^ (x - 1))) as Hpow by (apply fits_power; lra || lia).
  split; [apply fits_unit; lra|]. split; [done|].
  apply fits_scaled; (done || lra).
Qed.

Lemma binomial_fits_probability (n : Z) (p : Q) (x : Z) :
  0 <= p → p <= 1 →
  fits (inject_Z (Z.of_nat (pascal (Z.to_nat n) (Z.to_nat x)))) →
  binomial_fits n p x.
Proof.
  intros Hp0 Hp1 Hc Hx. cbv zeta.
  pose proof (Qpower_0_le p x Hp0).
  pose proof (Qpower_le_1 p x Hp0 Hp1 ltac:(lia)).
  pose proof (Qpower_0_le (1 - p) (n - x) ltac:(lra)).
  pose proof (Qpower_le_1 (1 - p) (n - x) ltac:(lra) ltac:(lra) ltac:(lia)).
  assert (fits (inject_Z (Z.of_nat (pascal (Z.to_nat n) (Z.to_nat x))) * p ^ x))
    as Hcp by by apply fits_scaled.
  split; [by apply fits_unit|]. split; [done|]. split; [done|].
  split; [apply fits_unit; lra|]. split; [by apply fits_unit|].
  by apply fits_scaled.
Qed.

Lemma poisson_fits_probability (exp : Q → Q) (mu : Q) (x : Z) :
  0 <= exp (- mu) → exp (- mu) <= 1 → fits (mu ^ x) → (x ≤ 170)%Z →
  poisson_fits exp mu x.
Proof.
  intros He0 He1 Hpow Hx H0. cbv zeta.
  assert (fits (mu ^ x * exp (- mu))) as Hm by by apply fits_scaled.
  split; [done|]. split; [by apply fits_unit|]. split; [done|].
  split; [by apply fact_fits|].
  assert (1 <= inject_Z (Z.of_nat (fact (Z.to_nat x)))) as Hf.
  { change 1 with (inject_Z 1). rewrite <- Zle_Qle.
    pose proof (lt_O_fact (Z.to_nat x)). lia. }
  unfold Qdiv. apply fits_scaled; [| |done].
  - apply Qlt_le_weak, Qinv_lt_0_compat. lra.
  - rewrite <- (Qmult_1_l (/ _)). apply Qle_shift_div_r; lra.
Qed.

Local Close Scope Q_scope.

Lemma mapM_singleton {A B} (f : A → result B) (x : A) :
  mapM f [x] = (y ← f x; mret [y]).
Proof. cbn. by destruct (f x). Qed.

Lemma mapM_singleton_Err {A B} (f : A → result B) (x : A) (e : exn) :
  mapM f [x] = Err e ↔ f x = Err e.
Proof. rewrite mapM_singleton. destruct (f x); cbn; split; (done || congruence). Qed.

Lemma mapM_Err_singletons {A B} (f : A → result B) (l : list A) (e : exn) (x : A) :
  x ∈ l → mapM f [x] = Err e →
  (∀ y e', y ∈ l → mapM f [y] = Err e' → e' = e) →
  mapM f l = Err e.
Proof.
  intros Hin Hx Hall. apply (mapM_Err_all f l e x Hin); [by apply mapM_singleton_Err|].
  intros y e' Hy Hfy. apply (Hall y e' Hy). by apply mapM_singleton_Err.
Qed.

Lemma binomial_single (n : Z) (p : Q) (x : Z) :
  (0 <= p)%Q → (p <= 1)%Q →
  VariantB.binomial (PyInt n) (PyFloat (Fin p)) [x]
  = if (0 <=? x) && (x <=? n)
       && overflows (inject_Z (Z.of_nat (pascal (Z.to_nat n) (Z.to_nat x))))
    then Err (OverflowError "int too large to convert to float")
    else Ok [binomial_value n p x].
Proof.
  intros Hp0 Hp1.
  destruct (overflows (inject_Z (Z.of_nat (pascal (Z.to_nat n) (Z.to_nat x)))))
    eqn:Hc.
  - destruct (Z.leb_spec 0 x), (Z.leb_spec x n); cbn [andb].
    2-4: by rewrite binomial_refines by (apply Forall_singleton; intros ?; lia).
    unfold VariantB.binomial. rewrite mapM_singleton.
    unfold py_le. cbn [exact fle]. rewrite Qle_bool_inject_Z.
    destruct (Z.leb_spec 0 x), (Z.leb_spec x n); try lia. cbn [andb].
    rewrite comb_pascal by done. cbn [mbind result_bind].
    rewrite pow_float by (done || apply fits_power; done). cbn [mbind result_bind].
    unfold py_mul. cbn [as_float]. rewrite of_int_overflows; [done|].
    by apply overflows_true.
  - rewrite andb_false_r. apply binomial_refines, Forall_singleton.
    apply binomial_fits_probability; [done..|]. by apply overflows_false.
Qed.

Lemma binomial_overflows (n : Z) (p : Q) (vals : list Z) (x : Z) :
  (0 <= p)%Q → (p <= 1)%Q → x ∈ vals → 0 ≤ x ≤ n →
  (float_limit <= Qabs (inject_Z (Z.of_nat (pascal (Z.to_nat n) (Z.to_nat x)))))%Q →
  VariantB.binomial (PyInt n) (PyFloat (Fin p)) vals
  = Err (OverflowError "int too large to convert to float").
Proof.
  intros Hp0 Hp1 Hin Hx Hc%overflows_true.
  unfold VariantB.binomial. apply (mapM_Err_singletons _ _ _ x Hin).
  - change (VariantB.binomial (PyInt n) (PyFloat (Fin p)) [x]
            = Err (OverflowError "int too large to convert to float")).
    rewrite binomial_single, Hc by done.
    by destruct (Z.leb_spec 0 x), (Z.leb_spec x n); try lia.
  - intros y e' _ Hy.
    change (VariantB.binomial (PyInt n) (PyFloat (Fin p)) [y] = Err e') in Hy.
    rewrite binomial_single in Hy by done. destruct (_ && _); congruence.
Qed.



(** C7, against the claim. With [n = 1030] and [p = 1/2], both in their
    range, the binomial evaluator of Variant B returns nothing on the values
    [0 .. 1030]: the middle coefficients, [comb(1030, 515)] among them, are
    [int]s too large for the float they are multiplied by, and the
    conversion of the first one met raises [OverflowError]. *)
Theorem binomial_overflow_1030 :
  VariantB.binomial (PyInt 1030) (PyFloat (Fin (1 # 2))) (range 0 (1030 + 1))
  = Err (OverflowError "int too large to convert to float").
Proof.
  apply (binomial_overflows 1030 (1 # 2) _ 515); [done|done| |lia|].
  - apply elem_of_seqZ. lia.
  - change (Z.to_nat 1030) with 1030%nat. change (Z.to_nat 515) with 515%nat.
    apply pascal_1030_overflows.
Qed.

(** C8, against the claim. With [mu = 0], the Poisson evaluator of Variant B
    returns nothing at a value [x >= 171]: [factorial(x)] is an [int] too
    large for the float it divides, and the conversion raises
    [OverflowError]. *)
Theorem poisson_overflow_171 (exp : Q → Q) (x : Z) :
  171 ≤ x →
  ∃ msg, VariantB.poisson_dist exp (PyFloat (Fin 0)) [x] = Err (OverflowError msg).
Proof.
  intros Hx. unfold VariantB.poisson_dist. rewrite mapM_singleton.
  destruct (Z.leb_spec 0 x); [|lia].
  rewrite pow_float; [|lia|].
  2: { apply (fits_proper 0); [|apply fits_0]. symmetry. apply Qpower_0. lia. }
  cbn [mbind result_bind].
  destruct (math_exp exp (py_neg (PyFloat (Fin 0)))) as [e|e] eqn:He;
    cbn [mbind result_bind].
  - rewrite factorial_nonneg by done.
    cbn [mbind result_bind as_float py_mul mret result_ret truediv].
    rewrite of_int_overflows by by apply fact_overflows.
    by eexists.
  - apply math_exp_Err in He as [msg ->]. by eexists.
Qed.

(** C8 against the claim, at [x = 171], with the exponential series for
    [math.exp]. *)
Lemma poisson_overflow_171_witness :
  171 ≤ 171 ∧
  ∃ msg, VariantB.poisson_dist (exp_series 4) (PyFloat (Fin 0)) [171]
         = Err (OverflowError msg).
Proof.
  assert (171 ≤ 171) as Hx by discriminate.
  split; [exact Hx|]. exact (poisson_overflow_171 (exp_series 4) 171 Hx).
Defined.



(** C4, against the claim: Variant B's dispatcher tells "Geometric" from
    "geometric". *)
Lemma variantB_dispatch_case_sensitive :
  (VariantB.get_probability_distribution (exp_series 4)
     "geometric" {[ "p" := PyFloat (Fin (1 # 2)) ]} [1]).2
  = Ok ([1], [PyFloat (Fin (1 # 2))]) ∧
  (VariantB.get_probability_distribution (exp_series 4)
     "Geometric" {[ "p" := PyFloat (Fin (1 # 2)) ]} [1]).2
  = Err (ValueError VariantB.msg_unsupported) ∧
  ¬ case_insensitive
      (λ name, VariantB.get_probability_distribution (exp_series 4)
                 name {[ "p" := PyFloat (Fin (1 # 2)) ]} [1]).
Proof.
  split; [vm_compute; reflexivity|]. split; [reflexivity|].
  intros Hci. specialize (Hci "Geometric" "geometric" eq_refl).
  apply (f_equal snd) in Hci. vm_compute in Hci. discriminate Hci.
Qed.

(** ** The result pairs each retained value with its probability *)

Lemma existsb_negative_false (vals : list Z) :
  existsb (λ v, v <? 0) vals = false ↔ Forall (λ v, 0 ≤ v) vals.
Proof.
  split; [|apply existsb_nonnegative].
  intros Hex. apply Forall_forall. intros v Hin.
  destruct (decide (0 ≤ v)) as [|Hneg]; [done|].
  assert (existsb (λ v, v <? 0) vals = true) as Htrue; [|congruence].
  apply existsb_negative, Exists_exists. exists v. split; [done|lia].
Qed.

Lemma mapM_Ok_lookup {A B} (f : A → result B) (l : list A) (k : list B) :
  mapM f l = Ok k →
  length k = length l ∧
  ∀ i x, l !! i = Some x → ∃ y, k !! i = Some y ∧ mapM f [x] = Ok [y].
Proof.
  intros HF%mapM_Ok_Forall2. split; [symmetry; by eapply Forall2_length|].
  intros i x Hx. destruct (Forall2_lookup_l _ _ _ _ _ HF Hx) as (y & Hy & Hxy).
  exists y. split; [done|]. cbn. by rewrite Hxy.
Qed.

Lemma variantA_success
    `{!VariantA.scipy_stats} (name : string) (parameters : gmap string num)
    (vals : list Z) (probs : list double) :
  VariantA.get_probability_distribution name parameters vals = Ok probs →
  ∃ f : Z → double,
    probs = f <$> vals ∧
    Forall (λ v, 0 ≤ v) vals ∧
    ∀ vals', Forall (λ v, 0 ≤ v) vals' →
      VariantA.get_probability_distribution name parameters vals' = Ok (f <$> vals').
Proof.
  unfold VariantA.get_probability_distribution.
  destruct (existsb _ vals) eqn:Hvals; [done|]. cbv zeta.
  pose proof existsb_nonnegative as Hnn.
  apply existsb_negative_false in Hvals.
  destruct (String.eqb (lower name) "geometric");
    [|destruct (String.eqb (lower name) "binomial");
      [|destruct (String.eqb (lower name) "poisson");
        [|destruct (String.eqb (lower name) "uniform"); [|done]]]].
  - destruct (getitem parameters "p") as [p|]; [cbn|done].
    unfold VariantA.geometric. destruct (_ || _); [done|].
    rewrite Hnn by done. intros [= <-]. eexists. split; [done|]. split; [done|].
    intros vals' Hvals'. by rewrite !Hnn.
  - destruct (getitem parameters "n") as [n|]; [cbn|done].
    destruct (getitem parameters "p") as [p|]; [cbn|done].
    unfold VariantA.binomial. destruct (py_lt n _); [done|].
    destruct (_ || _); [done|].
    rewrite Hnn by done. intros [= <-]. eexists. split; [done|]. split; [done|].
    intros vals' Hvals'. by rewrite !Hnn.
  - destruct (getitem parameters "mu") as [mu|]; [cbn|done].
    unfold VariantA.poisson_dist. destruct (py_lt _ _); [done|].
    rewrite Hnn by done. intros [= <-]. eexists. split; [done|]. split; [done|].
    intros vals' Hvals'. by rewrite !Hnn.
  - destruct (getitem parameters "low") as [low|]; [cbn|done].
    destruct (getitem parameters "high") as [high|]; [cbn|done].
    unfold VariantA.uniform_dist. destruct (py_le _ _); [done|].
    destruct (py_sub high low) as [scale|]; [cbn|done].
    intros [= <-]. eexists. split; [done|]. split; [done|].
    intros vals' Hvals'. by rewrite !Hnn.
Qed.

Lemma variantB_success
    (exp : Q → Q) (name : string) (parameters : gmap string num)
    (vals : list Z) (out : list VariantB.line) (kept : list Z) (probs : list num) :
  VariantB.get_probability_distribution exp name parameters vals
  = (out, Ok (kept, probs)) →
  kept = filter (λ v, 0 ≤ v) vals ∧
  length probs = length kept ∧
  ∀ i x, kept !! i = Some x →
    ∃ q, probs !! i = Some q ∧
         (VariantB.get_probability_distribution exp name parameters [x]).2
         = Ok ([x], [q]).
Proof.
  intros Hrun. apply (f_equal snd) in Hrun. cbn [snd] in Hrun.
  assert (∀ x, x ∈ filter (λ v, 0 ≤ v) vals → 0 ≤ x) as Hone.
  { by intros x [Hx _]%list_elem_of_filter. }
  revert Hrun. unfold VariantB.get_probability_distribution, VariantB.filter_values.
  cbn [fst snd].
  destruct (filter (λ v, 0 ≤ v) vals) as [|v kept0] eqn:Hkept; [done|].
  set (filtered := v :: kept0) in *. clearbody filtered. cbn -[String.eqb].
  assert (∀ (f : Z → result num) probs0,
            mapM f filtered = Ok probs0 →
            length probs0 = length filtered ∧
            ∀ i x, filtered !! i = Some x →
              ∃ q, probs0 !! i = Some q ∧ 0 ≤ x ∧ mapM f [x] = Ok [q]) as Hmap.
  { intros f probs0 [Hlen Hlook]%mapM_Ok_lookup. split; [done|].
    intros i x Hx. destruct (Hlook i x Hx) as (q & Hq & Hfx).
    exists q. split; [done|]. split; [|done].
    apply Hone. by eapply list_elem_of_lookup_2. }
  clear Hone Hkept.
  destruct (String.eqb name "geometric");
    [|destruct (String.eqb name "binomial");
      [|destruct (String.eqb name "poisson");
        [|destruct (String.eqb name "uniform"); [|done]]]].
  - destruct (getitem parameters "p") as [p|]; [cbn|done].
    destruct (VariantB.geometric _ filtered) as [probs0|] eqn:HD; [cbn|done].
    intros [= <- <-]. apply Hmap in HD as [Hlen Hlook].
    split; [done|]. split; [done|]. intros i x Hx.
    destruct (Hlook i x Hx) as (q & Hq & H0 & Hfx). exists q. split; [done|].
    rewrite decide_True by done. unfold VariantB.geometric.
    cbn [mbind result_bind]. by rewrite Hfx.
  - destruct (getitem parameters "n") as [n|]; [cbn|done].
    destruct (getitem parameters "p") as [p|]; [cbn|done].
    destruct (VariantB.binomial _ _ filtered) as [probs0|] eqn:HD; [cbn|done].
    intros [= <- <-]. apply Hmap in HD as [Hlen Hlook].
    split; [done|]. split; [done|]. intros i x Hx.
    destruct (Hlook i x Hx) as (q & Hq & H0 & Hfx). exists q. split; [done|].
    rewrite decide_True by done. unfold VariantB.binomial.
    cbn [mbind result_bind]. by rewrite Hfx.
  - destruct (getitem parameters "mu") as [mu|]; [cbn|done].
    destruct (VariantB.poisson_dist _ _ filtered) as [probs0|] eqn:HD; [cbn|done].
    intros [= <- <-]. apply Hmap in HD as [Hlen Hlook].
    split; [done|]. split; [done|]. intros i x Hx.
    destruct (Hlook i x Hx) as (q & Hq & H0 & Hfx). exists q. split; [done|].
    rewrite decide_True by done. unfold VariantB.poisson_dist.
    cbn [mbind result_bind]. by rewrite Hfx.
  - destruct (getitem parameters "low") as [low|]; [cbn|done].
    destruct (getitem parameters "high") as [high|]; [cbn|done].
    destruct (VariantB.uniform_dist _ _ filtered) as [probs0|] eqn:HD; [cbn|done].
    intros [= <- <-]. apply Hmap in HD as [Hlen Hlook].
    split; [done|]. split; [done|]. intros i x Hx.
    destruct (Hlook i x Hx) as (q & Hq & H0 & Hfx). exists q. split; [done|].
    rewrite decide_True by done. unfold VariantB.uniform_dist.
    cbn [mbind result_bind]. by rewrite Hfx.
Qed.

(** C9. A successful evaluation gives one probability for each retained
    value, in the order of the retained values: the probabilities are as
    many as these values (all of [vals] in Variant A, the values that are
    zero or more in Variant B, which returns them beside the probabilities),
    and the [i]-th probability is the one the evaluation gives to the [i]-th
    retained value alone. *)
Theorem result_pairs_values :
  (∀ (stats : VariantA.scipy_stats) name parameters vals probs,
     VariantA.get_probability_distribution name parameters vals = Ok probs →
     length probs = length vals ∧
     ∀ i x, vals !! i = Some x →
       ∃ q, probs !! i = Some q ∧
            VariantA.get_probability_distribution name parameters [x] = Ok [q]) ∧
  (∀ (exp : Q → Q) name parameters vals out kept probs,
     VariantB.get_probability_distribution exp name parameters vals
     = (out, Ok (kept, probs)) →
     kept = filter (λ v, 0 ≤ v) vals ∧
     length probs = length kept ∧
     ∀ i x, kept !! i = Some x →
       ∃ q, probs !! i = Some q ∧
            (VariantB.get_probability_distribution exp name parameters [x]).2
            = Ok ([x], [q])).
Proof.
  split; [|apply variantB_success].
  intros stats name parameters vals probs (f & -> & Hvals & Hf)%variantA_success.
  split; [apply length_fmap|]. intros i x Hx. exists (f x).
  split; [by rewrite list_lookup_fmap, Hx|].
  apply (Hf [x]), Forall_singleton.
  rewrite Forall_forall in Hvals. apply Hvals. by eapply list_elem_of_lookup_2.
Qed.

(** ** The scripts: reading the input *)

Section Scripts.
Context `{!builtins}.

Lemma io_bind_Returns {A B} (m : io A) (f : A → io B) stdin out rest (b : B) :
  (m ≫= f) stdin = (out, rest, Returns b) →
  ∃ a out1 stdin1 out2,
    m stdin = (out1, stdin1, Returns a) ∧
    f a stdin1 = (out2, rest, Returns b) ∧
    out = out1 ++ out2.
Proof.
  unfold mbind, io_bind. destruct (m stdin) as [[out1 stdin1] [a|e]]; [|done].
  destruct (f a stdin1) as [[out2 stdin2] r2] eqn:Hf. intros [= <- <- ->].
  by exists a, out1, stdin1, out2.
Qed.

Lemma input_Returns (msg : string) stdin out rest (answer : string) :
  input msg stdin = (out, rest, Returns answer) →
  stdin = answer :: rest ∧ out = [prompt msg].
Proof. destruct stdin; [done|]. by intros [= <- <- <-]. Qed.

Lemma call_Returns {A} (r : result A) stdin out rest (a : A) :
  call r stdin = (out, rest, Returns a) → r = Ok a ∧ out = [] ∧ rest = stdin.
Proof. destruct r; [|done]. by intros [= <- <- <-]. Qed.

Lemma input_call_Returns {A} (msg : string) (conv : string → result A)
    stdin out rest (a : A) :
  (input msg ≫= λ s, call (conv s)) stdin = (out, rest, Returns a) →
  ∃ s, stdin = s :: rest ∧ conv s = Ok a ∧ out = [prompt msg].
Proof.
  intros (s & out1 & stdin1 & out2 & [-> ->]%input_Returns
          & (Hs & -> & ->)%call_Returns & ->)%io_bind_Returns.
  by exists s.
Qed.

Lemma ask_parameters_Returns (name : string) stdin out rest parameters :
  ask_parameters name stdin = (out, rest, Returns parameters) →
  (name = "geometric" ∧ ∃ p : double, parameters = <["p" := PyFloat p]> ∅) ∨
  (name = "binomial" ∧ ∃ (n : Z) (p : double),
     parameters = <["p" := PyFloat p]> (<["n" := PyInt n]> ∅)) ∨
  (name = "poisson" ∧ ∃ mu : double, parameters = <["mu" := PyFloat mu]> ∅) ∨
  (name = "uniform" ∧ ∃ low high : double,
     parameters = <["high" := PyFloat high]> (<["low" := PyFloat low]> ∅)).
Proof.
  unfold ask_parameters. cbv zeta.
  destruct (String.eqb_spec name "geometric") as [->|_].
  { intros (p & o1 & s1 & o2 & _ & [= <- <- <-] & _)%io_bind_Returns. left. eauto. }
  destruct (String.eqb_spec name "binomial") as [->|_].
  { intros (n & o1 & s1 & o2 & _
            & (p & o3 & s3 & o4 & _ & [= <- <- <-] & _)%io_bind_Returns
            & _)%io_bind_Returns.
    right. left. eauto. }
  destruct (String.eqb_spec name "poisson") as [->|_].
  { intros (mu & o1 & s1 & o2 & _ & [= <- <- <-] & _)%io_bind_Returns.
    right. right. left. eauto. }
  destruct (String.eqb_spec name "uniform") as [->|_]; [|done].
  intros (low & o1 & s1 & o2 & _
          & (high & o3 & s3 & o4 & _ & [= <- <- <-] & _)%io_bind_Returns
          & _)%io_bind_Returns.
  right. right. right. eauto.
Qed.

Lemma input_name_Returns stdin out rest (name : string) :
  (input ask_name ≫= λ s, mret (lower (strip s))) stdin = (out, rest, Returns name) →
  ∃ raw, stdin = raw :: rest ∧ name = lower (strip raw) ∧ out = [prompt ask_name].
Proof.
  intros (raw & out1 & stdin1 & out2 & [-> ->]%input_Returns
          & [= <- <- <-] & ->)%io_bind_Returns.
  by exists raw.
Qed.

Lemma ask_parameters_names (name : string) stdin out rest parameters :
  ask_parameters name stdin = (out, rest, Returns parameters) →
  name ∈ kinds ∧ dom parameters = parameter_names name.
Proof.
  intros [(-> & p & ->)|[(-> & n & p & ->)|[(-> & mu & ->)|(-> & low & high & ->)]]]
    %ask_parameters_Returns;
    (split; [unfold kinds; set_solver|]);
    rewrite ?dom_insert_L, dom_empty_L; cbn; set_solver.
Qed.

Lemma range_nonnegative (start stop : Z) :
  0 ≤ start → Forall (λ v, 0 ≤ v) (range start stop).
Proof.
  intros Hstart. apply Forall_forall. intros v Hv%elem_of_seqZ. lia.
Qed.

Lemma filter_all {A} (P : A → Prop) `{!∀ x, Decision (P x)} (l : list A) :
  Forall P l → filter P l = l.
Proof.
  induction 1 as [|x l Hx _ IH]; [done|]. by rewrite filter_cons_True, IH.
Qed.

Lemma filter_none {A} (P : A → Prop) `{!∀ x, Decision (P x)} (l : list A) :
  Forall (λ x, ¬ P x) l → filter P l = [].
Proof.
  induction 1 as [|x l Hx _ IH]; [done|]. by rewrite filter_cons_False.
Qed.

Lemma filter_range_nonnegative (start stop : Z) :
  filter (λ v, 0 ≤ v) (range start stop) = range (Z.max start 0) stop.
Proof.
  unfold range. destruct (Z.le_gt_cases 0 start) as [Hstart|Hstart].
  - rewrite Z.max_l by done. apply filter_all, Forall_forall.
    intros v Hv%elem_of_seqZ. lia.
  - rewrite Z.max_r by lia. destruct (Z.le_gt_cases stop 0) as [Hstop|Hstop].
    + rewrite (seqZ_nil 0) by lia. apply filter_none, Forall_forall.
      intros v Hv%elem_of_seqZ. lia.
    + replace (stop - start) with (- start + (stop - 0)) by lia.
      rewrite seqZ_app by lia. rewrite filter_app.
      replace (start + - start) with 0 by lia.
      rewrite filter_none, filter_all; [done|apply Forall_forall..];
        intros v Hv%elem_of_seqZ; lia.
Qed.

Lemma programA_get_user_input_inv stdin out rest name parameters vals :
  ProgramA.get_user_input stdin = (out, rest, Returns (name, parameters, vals)) →
  ∃ raw s e start end_ tail out',
    stdin = raw :: s :: e :: tail ∧
    name = lower (strip raw) ∧
    int s = Ok start ∧ int e = Ok end_ ∧ (0 ≤ start ∨ 0 ≤ end_) ∧
    vals = range (Z.abs start) (Z.abs end_ + 1) ∧
    ask_parameters name tail = (out', rest, Returns parameters).
Proof.
  unfold ProgramA.get_user_input.
  intros (name' & o1 & s1 & o2 & (raw & -> & -> & ->)%input_name_Returns
          & (start & o3 & s3 & o4 & (s & -> & Hs & ->)%input_call_Returns
             & (end_ & o5 & s5 & o6 & (e & -> & He & ->)%input_call_Returns
                & Hrest & ->)%io_bind_Returns
             & ->)%io_bind_Returns
          & ->)%io_bind_Returns.
  destruct (Z.ltb_spec start 0) as [Hstart|Hstart],
           (Z.ltb_spec end_ 0) as [Hend|Hend]; cbn [andb] in Hrest; [done|..];
    cbv zeta in Hrest;
    apply io_bind_Returns in Hrest
      as ([] & o7 & s7 & o8 & [= <- <-]
          & (ps & o9 & s9 & o10 & Hask & Hret & ->)%io_bind_Returns & ->);
    injection Hret as <- <- <- <- <-;
    exists raw, s, e, start, end_, s5, o9;
    rewrite ?(Z.abs_eq start), ?(Z.abs_eq end_) by lia;
    repeat (split; [done || lia|]); done.
Qed.

Lemma programB_get_user_input_inv stdin out rest name parameters vals :
  ProgramB.get_user_input stdin = (out, rest, Returns (name, parameters, vals)) →
  ∃ raw s e start end_ tail out',
    stdin = raw :: s :: e :: tail ∧
    name = lower (strip raw) ∧
    int s = Ok start ∧ int e = Ok end_ ∧
    vals = range start (end_ + 1) ∧
    ask_parameters name tail = (out', rest, Returns parameters).
Proof.
  unfold ProgramB.get_user_input.
  intros (name' & o1 & s1 & o2 & (raw & -> & -> & ->)%input_name_Returns
          & (start & o3 & s3 & o4 & (s & -> & Hs & ->)%input_call_Returns
             & (end_ & o5 & s5 & o6 & (e & -> & He & ->)%input_call_Returns
                & Hrest & ->)%io_bind_Returns
             & ->)%io_bind_Returns
          & ->)%io_bind_Returns.
  cbv zeta in Hrest.
  apply io_bind_Returns in Hrest as (ps & o9 & s9 & o10 & Hask & Hret & ->).
  injection Hret as <- <- <- <- <-.
  by exists raw, s, e, start, end_, s5, o9.
Qed.

(** X1. When [get_user_input] of Variant A returns, three lines were read
    before the parameters: the name, which is returned stripped and lowered
    and is one of the four kinds, and two integers that are not both
    negative; the values are the range from [|start|] to [|end|] included
    (empty when [|end| < |start|]), so none is negative; and the parameters
    are exactly those of the kind. *)
Theorem programA_get_user_input_returns stdin out rest name parameters vals :
  ProgramA.get_user_input stdin = (out, rest, Returns (name, parameters, vals)) →
  ∃ raw s e start end_ tail,
    stdin = raw :: s :: e :: tail ∧
    name = lower (strip raw) ∧ name ∈ kinds ∧
    int s = Ok start ∧ int e = Ok end_ ∧ (0 ≤ start ∨ 0 ≤ end_) ∧
    vals = range (Z.abs start) (Z.abs end_ + 1) ∧
    Forall (λ v, 0 ≤ v) vals ∧
    dom parameters = parameter_names name.
Proof.
  intros (raw & s & e & start & end_ & tail & out' & -> & Hname & Hs & He & Hsign
          & -> & [Hkind Hdom]%ask_parameters_names)%programA_get_user_input_inv.
  exists raw, s, e, start, end_, tail. repeat (split; [done|]).
  split; [apply range_nonnegative; lia|done].
Qed.

(** X2. When [get_user_input] of Variant B returns, the name is stripped,
    lowered and one of the four kinds, the parameters are exactly those of
    the kind, and the values are the range from [start] to [end] included,
    as the two integers were given: the negative ones are still there, and
    what [filter_values] will keep is the range from [max(start, 0)]. *)
Theorem programB_get_user_input_returns stdin out rest name parameters vals :
  ProgramB.get_user_input stdin = (out, rest, Returns (name, parameters, vals)) →
  ∃ raw s e start end_ tail,
    stdin = raw :: s :: e :: tail ∧
    name = lower (strip raw) ∧ name ∈ kinds ∧
    int s = Ok start ∧ int e = Ok end_ ∧
    vals = range start (end_ + 1) ∧
    filter (λ v, 0 ≤ v) vals = range (Z.max start 0) (end_ + 1) ∧
    dom parameters = parameter_names name.
Proof.
  intros (raw & s & e & start & end_ & tail & out' & -> & Hname & Hs & He
          & -> & [Hkind Hdom]%ask_parameters_names)%programB_get_user_input_inv.
  exists raw, s, e, start, end_, tail. repeat (split; [done|]).
  split; [apply filter_range_nonnegative|done].
Qed.

Lemma getitem_insert_eq (parameters : gmap string num) (key : string) (v : num) :
  getitem (<[key := v]> parameters) key = Ok v.
Proof. unfold getitem. by rewrite lookup_insert_eq. Qed.

Lemma getitem_insert_ne (parameters : gmap string num) (key key' : string) (v : num) :
  key ≠ key' → getitem (<[key := v]> parameters) key' = getitem parameters key'.
Proof. intros Hne. unfold getitem. by rewrite lookup_insert_ne. Qed.

Lemma variantA_dispatch_lowered
    `{!VariantA.scipy_stats} (parameters : gmap string num) (vals : list Z) :
  Forall (λ v, 0 ≤ v) vals →
  VariantA.get_probability_distribution "geometric" parameters vals
  = (p ← getitem parameters "p"; VariantA.geometric p vals) ∧
  VariantA.get_probability_distribution "binomial" parameters vals
  = (n ← getitem parameters "n"; p ← getitem parameters "p";
     VariantA.binomial n p vals) ∧
  VariantA.get_probability_distribution "poisson" parameters vals
  = (mu ← getitem parameters "mu"; VariantA.poisson_dist mu vals) ∧
  VariantA.get_probability_distribution "uniform" parameters vals
  = (low ← getitem parameters "low"; high ← getitem parameters "high";
     VariantA.uniform_dist low high vals).
Proof.
  intros Hvals%existsb_nonnegative. unfold VariantA.get_probability_distribution.
  rewrite Hvals. repeat split; reflexivity.
Qed.

Lemma programA_core_after_input
    `{!VariantA.scipy_stats} stdin out rest name parameters vals :
  ProgramA.get_user_input stdin = (out, rest, Returns (name, parameters, vals)) →
  (∃ probs,
     VariantA.get_probability_distribution name parameters vals = Ok probs ∧
     length probs = length vals) ∨
  raises (VariantA.get_probability_distribution name parameters vals)
    InvalidParameter.
Proof.
  intros (raw & s & e & start & end_ & tail & out' & -> & Hname & Hs & He & Hsign
          & -> & Hask)%programA_get_user_input_inv.
  assert (Forall (λ v, 0 ≤ v) (range (Z.abs start) (Z.abs end_ + 1))) as Hvals
    by (apply range_nonnegative; lia).
  destruct InvalidParameter_messages as (Kg & Kn & Kp & Km & Ku).
  destruct (variantA_dispatch_lowered parameters _ Hvals) as (Dg & Db & Dp & Du).
  apply existsb_nonnegative in Hvals.
  apply ask_parameters_Returns in Hask
    as [(-> & p & ->)|[(-> & n & p & ->)|[(-> & mu & ->)|(-> & low & high & ->)]]].
  - rewrite Dg, getitem_insert_eq. cbn. unfold VariantA.geometric. rewrite Hvals.
    destruct (_ || _); [right; eexists; split; [reflexivity|assumption]|left].
    eexists. split; [done|apply length_fmap].
  - rewrite Db, (getitem_insert_ne _ "p" "n"), !getitem_insert_eq by done. cbn.
    unfold VariantA.binomial. rewrite Hvals.
    destruct (py_lt (PyInt n) _); [right; eexists; split; [reflexivity|assumption]|].
    destruct (_ || _); [right; eexists; split; [reflexivity|assumption]|left].
    eexists. split; [done|apply length_fmap].
  - rewrite Dp, getitem_insert_eq. cbn. unfold VariantA.poisson_dist. rewrite Hvals.
    destruct (py_lt _ _); [right; eexists; split; [reflexivity|assumption]|left].
    eexists. split; [done|apply length_fmap].
  - rewrite Du, (getitem_insert_ne _ "high" "low"), !getitem_insert_eq by done. cbn.
    unfold VariantA.uniform_dist.
    destruct (py_le _ _); [right; eexists; split; [reflexivity|assumption]|left].
    cbn. eexists. split; [done|apply length_fmap].
Qed.

Lemma variantB_dispatch_kept
    (exp : Q → Q) (parameters : gmap string num) (vals : list Z) :
  filter (λ v, 0 ≤ v) vals ≠ [] →
  (VariantB.get_probability_distribution exp "geometric" parameters vals).2
  = (p ← getitem parameters "p";
     probabilities ← VariantB.geometric p (filter (λ v, 0 ≤ v) vals);
     mret (filter (λ v, 0 ≤ v) vals, probabilities)) ∧
  (VariantB.get_probability_distribution exp "binomial" parameters vals).2
  = (n ← getitem parameters "n"; p ← getitem parameters "p";
     probabilities ← VariantB.binomial n p (filter (λ v, 0 ≤ v) vals);
     mret (filter (λ v, 0 ≤ v) vals, probabilities)) ∧
  (VariantB.get_probability_distribution exp "poisson" parameters vals).2
  = (mu ← getitem parameters "mu";
     probabilities ← VariantB.poisson_dist exp mu (filter (λ v, 0 ≤ v) vals);
     mret (filter (λ v, 0 ≤ v) vals, probabilities)) ∧
  (VariantB.get_probability_distribution exp "uniform" parameters vals).2
  = (low ← getitem parameters "low"; high ← getitem parameters "high";
     probabilities ←
       VariantB.uniform_dist low high (filter (λ v, 0 ≤ v) vals);
     mret (filter (λ v, 0 ≤ v) vals, probabilities)).
Proof.
  intros Hkept. unfold VariantB.get_probability_distribution, VariantB.filter_values.
  destruct (filter (λ v, 0 ≤ v) vals) as [|v kept]; [done|]. cbn.
  repeat split.
  - by destruct (getitem parameters "p").
  - by destruct (getitem parameters "n"), (getitem parameters "p").
  - by destruct (getitem parameters "mu").
  - by destruct (getitem parameters "low"), (getitem parameters "high").
Qed.

Lemma programB_core_after_input
    (exp : Q → Q) stdin out rest name parameters vals :
  ProgramB.get_user_input stdin = (out, rest, Returns (name, parameters, vals)) →
  (filter (λ v, 0 ≤ v) vals = [] ∧
   (VariantB.get_probability_distribution exp name parameters vals).2
   = Err (ValueError VariantB.msg_all_negative)) ∨
  (∃ probs,
     (VariantB.get_probability_distribution exp name parameters vals).2
     = Ok (filter (λ v, 0 ≤ v) vals, probs) ∧
     length probs = length (filter (λ v, 0 ≤ v) vals)) ∨
  (name = "uniform" ∧
   (∃ low high : Q,
      parameters !! "low" = Some (PyFloat (Fin low)) ∧
      parameters !! "high" = Some (PyFloat (Fin high)) ∧ (high == low)%Q) ∧
   (VariantB.get_probability_distribution exp name parameters vals).2
   = Err (ZeroDivisionError "float division by zero")) ∨
  (name ≠ "uniform" ∧
   ∃ msg,
     (VariantB.get_probability_distribution exp name parameters vals).2
     = Err (OverflowError msg)).
Proof.
  intros (raw & s & e & start & end_ & tail & out' & -> & Hname & Hs & He
          & -> & Hask)%programB_get_user_input_inv.
  set (vals := range start (end_ + 1)).
  destruct (decide (filter (λ v, 0 ≤ v) vals = [])) as [Hnone|Hkept].
  { left. split; [done|]. by apply get_probability_distribution_nothing_kept. }
  right.
  destruct (variantB_dispatch_kept exp parameters vals Hkept) as (Dg & Db & Dp & Du).
  apply ask_parameters_Returns in Hask
    as [(-> & p & ->)|[(-> & n & p & ->)|[(-> & mu & ->)|(-> & low & high & ->)]]].
  - rewrite Dg, getitem_insert_eq. cbn [mbind result_bind].
    destruct (VariantB.geometric _ _) as [probs|e'] eqn:Hrun; cbn [mbind result_bind].
    + left. exists probs. split; [done|]. by eapply length_mapM_Ok.
    + right. right. split; [done|].
      apply geometric_Err in Hrun as [msg ->]. by exists msg.
  - rewrite Db, (getitem_insert_ne _ "p" "n"), !getitem_insert_eq by done.
    cbn [mbind result_bind].
    destruct (VariantB.binomial _ _ _) as [probs|e'] eqn:Hrun; cbn [mbind result_bind].
    + left. exists probs. split; [done|]. by eapply length_mapM_Ok.
    + right. right. split; [done|].
      apply binomial_Err in Hrun as [[msg ->]|[_ [f [=]]]]. by exists msg.
  - rewrite Dp, getitem_insert_eq. cbn [mbind result_bind].
    destruct (VariantB.poisson_dist _ _ _) as [probs|e'] eqn:Hrun;
      cbn [mbind result_bind].
    + left. exists probs. split; [done|]. by eapply length_mapM_Ok.
    + right. right. split; [done|].
      apply poisson_Err in Hrun as [msg ->]. by exists msg.
  - rewrite Du, (getitem_insert_ne _ "high" "low"), !getitem_insert_eq by done.
    cbn [mbind result_bind].
    destruct (uniform_float_outcome low high (filter (λ v, 0 ≤ v) vals))
      as [(probs & -> & Hlen)|[(l & h & -> & -> & Heq) ->]].
    + left. by exists probs.
    + right. left. split; [done|]. split; [|done]. exists l, h.
      by rewrite lookup_insert_ne, !lookup_insert_eq.
Qed.

(** X3. In the script of Variant A, what [get_user_input] returns is always
    accepted by [get_probability_distribution] up to the range of the
    parameters: the call returns one probability for each value, or raises
    an invalid-parameter error. The negative-value, unsupported-name and
    missing-key errors cannot happen there. *)
Theorem programA_input_then_core
    `{!VariantA.scipy_stats} stdin out rest name parameters vals :
  ProgramA.get_user_input stdin = (out, rest, Returns (name, parameters, vals)) →
  (∃ probs,
     VariantA.get_probability_distribution name parameters vals = Ok probs ∧
     length probs = length vals) ∨
  raises (VariantA.get_probability_distribution name parameters vals)
    InvalidParameter.
Proof. apply programA_core_after_input. Qed.

(** X4. In the script of Variant B, on what [get_user_input] returns,
    [get_probability_distribution] ends in one of four ways only: the
    all-negative error, when the range has no value that is zero or more;
    the kept values with one probability each; a division by zero, which
    needs the uniform kind with two equal finite bounds; or an
    [OverflowError], which needs one of the other three kinds. The
    unsupported-name, missing-key and type errors cannot happen there. *)
Theorem programB_input_then_core
    (exp : Q → Q) stdin out rest name parameters vals :
  ProgramB.get_user_input stdin = (out, rest, Returns (name, parameters, vals)) →
  (filter (λ v, 0 ≤ v) vals = [] ∧
   (VariantB.get_probability_distribution exp name parameters vals).2
   = Err (ValueError VariantB.msg_all_negative)) ∨
  (∃ probs,
     (VariantB.get_probability_distribution exp name parameters vals).2
     = Ok (filter (λ v, 0 ≤ v) vals, probs) ∧
     length probs = length (filter (λ v, 0 ≤ v) vals)) ∨
  (name = "uniform" ∧
   (∃ low high : Q,
      parameters !! "low" = Some (PyFloat (Fin low)) ∧
      parameters !! "high" = Some (PyFloat (Fin high)) ∧ (high == low)%Q) ∧
   (VariantB.get_probability_distribution exp name parameters vals).2
   = Err (ZeroDivisionError "float division by zero")) ∨
  (name ≠ "uniform" ∧
   ∃ msg,
     (VariantB.get_probability_distribution exp name parameters vals).2
     = Err (OverflowError msg)).
Proof. apply programB_core_after_input. Qed.

(** ** The scripts: how a run ends *)

Lemma io_bind_Raises {A B} (m : io A) (f : A → io B) stdin out rest x :
  (m ≫= f) stdin = (out, rest, Raises x) →
  m stdin = (out, rest, Raises x) ∨
  ∃ a out1 stdin1 out2,
    m stdin = (out1, stdin1, Returns a) ∧
    f a stdin1 = (out2, rest, Raises x) ∧
    out = out1 ++ out2.
Proof.
  unfold mbind, io_bind. destruct (m stdin) as [[out1 stdin1] [a|e]].
  - destruct (f a stdin1) as [[out2 stdin2] r2] eqn:Hf. intros [= <- <- ->].
    right. by exists a, out1, stdin1, out2.
  - intros [= <- <- <-]. by left.
Qed.

Lemma input_call_Raises {A} (msg : string) (conv : string → result A)
    stdin out rest x :
  (input msg ≫= λ s, call (conv s)) stdin = (out, rest, Raises x) →
  x = EOFError ∨ ∃ s e, conv s = Err e ∧ x = Core e.
Proof.
  intros [Hin|(s & o1 & s1 & o2 & _ & Hcall & _)]%io_bind_Raises.
  - left. destruct stdin; cbn in Hin; by simplify_eq.
  - right. exists s. destruct (conv s) as [a|e]; [done|].
    exists e. split; [done|]. by injection Hcall.
Qed.

Lemma input_int_Raises msg stdin out rest x :
  (input msg ≫= λ s, call (int s)) stdin = (out, rest, Raises x) → input_error x.
Proof. intros [->|(s & e & ? & ->)]%input_call_Raises; [by left|right; eauto]. Qed.

Lemma input_float_Raises msg stdin out rest x :
  (input msg ≫= λ s, call (float s)) stdin = (out, rest, Raises x) → input_error x.
Proof. intros [->|(s & e & ? & ->)]%input_call_Raises; [by left|right; eauto]. Qed.

Lemma input_name_Raises stdin out rest x :
  (input ask_name ≫= λ s, mret (lower (strip s))) stdin = (out, rest, Raises x) →
  input_error x.
Proof.
  intros [Hin|(s & o1 & s1 & o2 & _ & Hret & _)]%io_bind_Raises; [|done].
  left. destruct stdin; cbn in Hin; by simplify_eq.
Qed.

Lemma ask_parameters_Raises (name : string) stdin out rest x :
  ask_parameters name stdin = (out, rest, Raises x) →
  input_error x ∨ x = Core (ValueError msg_invalid_name).
Proof.
  unfold ask_parameters. cbv zeta.
  destruct (String.eqb name "geometric").
  { intros [?%input_float_Raises|(? & ? & ? & ? & _ & ? & _)]%io_bind_Raises;
      [by left|done]. }
  destruct (String.eqb name "binomial").
  { intros [?%input_int_Raises|(? & ? & ? & ? & _
              & [?%input_float_Raises|(? & ? & ? & ? & _ & ? & _)]%io_bind_Raises
              & _)]%io_bind_Raises; by left || done. }
  destruct (String.eqb name "poisson").
  { intros [?%input_float_Raises|(? & ? & ? & ? & _ & ? & _)]%io_bind_Raises;
      [by left|done]. }
  destruct (String.eqb name "uniform").
  { intros [?%input_float_Raises|(? & ? & ? & ? & _
              & [?%input_float_Raises|(? & ? & ? & ? & _ & ? & _)]%io_bind_Raises
              & _)]%io_bind_Raises; by left || done. }
  intros [= <- <- <-]. by right.
Qed.

Lemma programA_get_user_input_Raises stdin out rest x :
  ProgramA.get_user_input stdin = (out, rest, Raises x) →
  input_error x ∨ ∃ msg, x = Core (ValueError msg).
Proof.
  unfold ProgramA.get_user_input.
  intros [?%input_name_Raises|(name & ? & ? & ? & _ & Hstart & _)]%io_bind_Raises;
    [by left|].
  apply io_bind_Raises in Hstart
    as [?%input_int_Raises|(start & ? & ? & ? & _ & Hend & _)]; [by left|].
  apply io_bind_Raises in Hend
    as [?%input_int_Raises|(end_ & ? & ? & ? & _ & Hrest & _)]; [by left|].
  destruct (_ && _).
  { injection Hrest as <- <- <-. right. eauto. }
  cbv zeta in Hrest.
  apply io_bind_Raises in Hrest as [?|([] & ? & ? & ? & _ & Hask & _)]; [done|].
  apply io_bind_Raises in Hask
    as [[?| ->]%ask_parameters_Raises|(? & ? & ? & ? & _ & ? & _)];
    [by left|right; eauto|done].
Qed.

Lemma programB_get_user_input_Raises stdin out rest x :
  ProgramB.get_user_input stdin = (out, rest, Raises x) →
  input_error x ∨ ∃ msg, x = Core (ValueError msg).
Proof.
  unfold ProgramB.get_user_input.
  intros [?%input_name_Raises|(name & ? & ? & ? & _ & Hstart & _)]%io_bind_Raises;
    [by left|].
  apply io_bind_Raises in Hstart
    as [?%input_int_Raises|(start & ? & ? & ? & _ & Hend & _)]; [by left|].
  apply io_bind_Raises in Hend
    as [?%input_int_Raises|(end_ & ? & ? & ? & _ & Hask & _)]; [by left|].
  cbv zeta in Hask.
  apply io_bind_Raises in Hask
    as [[?| ->]%ask_parameters_Raises|(? & ? & ? & ? & _ & ? & _)];
    [by left|right; eauto|done].
Qed.

Lemma programA_plot_run
    `{!VariantA.scipy_stats} (name : string) (parameters : gmap string num)
    (vals : list Z) stdin :
  ProgramA.plot_distribution name parameters vals stdin
  = match VariantA.get_probability_distribution name parameters vals with
    | Ok probabilities =>
        ([probabilities_for (capitalize name) parameters]
         ++ ((λ '(val, prob), value_line val (PyFloat prob))
               <$> zip vals probabilities)
         ++ [bar_chart vals (PyFloat <$> probabilities) (capitalize name) "Values"
               (if negb (name =? "uniform")%string then "Probability" else "Density")
               (capitalize name +:+ " Distribution")],
         stdin, Returns tt)
    | Err (ValueError msg) => ([error_line msg], stdin, Returns tt)
    | Err e => ([], stdin, Raises (Core e))
    end.
Proof.
  unfold ProgramA.plot_distribution, try_except_ValueError.
  destruct (VariantA.get_probability_distribution name parameters vals)
    as [probs|[]]; reflexivity.
Qed.

Lemma programB_plot_run
    (exp : Q → Q) (name : string) (parameters : gmap string num)
    (vals : list Z) stdin :
  ProgramB.plot_distribution exp name parameters vals stdin
  = match VariantB.get_probability_distribution exp name parameters vals with
    | (lines, Ok (filtered_vals, probabilities)) =>
        ((filter_line <$> lines)
         ++ [calculated_probabilities]
         ++ ((λ '(v, prob), value_line v prob) <$> zip filtered_vals probabilities)
         ++ [bar_chart filtered_vals probabilities (capitalize name) "Values"
               "Probability" (capitalize name +:+ " Distribution")],
         stdin, Returns tt)
    | (lines, Err (ValueError msg)) =>
        ((filter_line <$> lines) ++ [error_line msg], stdin, Returns tt)
    | (lines, Err e) => (filter_line <$> lines, stdin, Raises (Core e))
    end.
Proof.
  unfold ProgramB.plot_distribution, try_except_ValueError.
  destruct (VariantB.get_probability_distribution exp name parameters vals)
    as [lines [[kept probs]|[]]];
    cbv [mbind io_bind print_all print call mret io_ret raise];
    by rewrite ?app_nil_r, <- ?app_assoc.
Qed.

Lemma try_except_ValueError_outcome (body : io unit) (msg_out : string → event)
    stdin out rest r :
  try_except_ValueError body (λ e, print (msg_out e)) stdin = (out, rest, r) →
  r = Returns tt ∨
  ∃ out' x, body stdin = (out', rest, Raises x) ∧ r = Raises x ∧
            ∀ msg, x ≠ Core (ValueError msg).
Proof.
  unfold try_except_ValueError.
  destruct (body stdin) as [[out1 stdin1] [[]|[[]|]]] eqn:Hbody;
    intros [= <- <- <-]; (by left) || (right; by eexists _, _).
Qed.

(** X5. The script of Variant A never ends on an exception of its own
    code: a run returns normally (every [ValueError], of the core, of the
    range check or of a conversion, ends as an error line), unless the
    input ran out or [int] or [float] raised something that is no
    [ValueError]. *)
Theorem programA_main_outcome `{!VariantA.scipy_stats} stdin out rest r :
  ProgramA.main stdin = (out, rest, r) →
  r = Returns tt ∨
  ∃ x, r = Raises x ∧ input_error x ∧ ∀ msg, x ≠ Core (ValueError msg).
Proof.
  intros [->|(out' & x & Hbody & -> & Hx)]%try_except_ValueError_outcome;
    [by left|right].
  exists x. split; [done|]. split; [|done].
  apply io_bind_Raises in Hbody
    as [[?|[msg ->]]%programA_get_user_input_Raises
       |([[name parameters] vals] & o1 & s1 & o2 & Hin & Hplot & _)];
    [done|by destruct (Hx msg)|].
  rewrite programA_plot_run in Hplot.
  destruct (programA_core_after_input _ _ _ _ _ _ Hin)
    as [(probs & Hrun & _)|(e & Hrun & [K|[K|[K|[K|K]]]])];
    rewrite Hrun in Hplot; by simplify_eq.
Qed.

(** X6. The script of Variant B ends in one of four ways: it returns
    normally; the input ran out or a conversion raised something that is no
    [ValueError]; it dies on the division by zero of the uniform density; or
    it dies on an [OverflowError] of a formula. *)
Theorem programB_main_outcome (exp : Q → Q) stdin out rest r :
  ProgramB.main exp stdin = (out, rest, r) →
  r = Returns tt ∨
  (∃ x, r = Raises x ∧ input_error x ∧ ∀ msg, x ≠ Core (ValueError msg)) ∨
  r = Raises (Core (ZeroDivisionError "float division by zero")) ∨
  ∃ msg, r = Raises (Core (OverflowError msg)).
Proof.
  intros [->|(out' & x & Hbody & -> & Hx)]%try_except_ValueError_outcome;
    [by left|right].
  apply io_bind_Raises in Hbody
    as [[?|[msg ->]]%programB_get_user_input_Raises
       |([[name parameters] vals] & o1 & s1 & o2 & Hin & Hplot & _)];
    [left; by exists x|by destruct (Hx msg)|right].
  rewrite programB_plot_run in Hplot.
  destruct (programB_core_after_input exp _ _ _ _ _ _ Hin)
    as [[_ Hrun]|[(probs & Hrun & _)|[(_ & _ & Hrun)|(_ & msg & Hrun)]]];
    destruct (VariantB.get_probability_distribution exp name parameters vals)
      as [lines res]; cbn [snd] in Hrun; subst res; simplify_eq;
    [by left|right; by exists msg].
Qed.

Lemma programB_get_user_input_uniform
    (raw s e lo hi : string) (tail : list string) (start end_ : Z)
    (low high : double) :
  lower (strip raw) = "uniform" →
  int s = Ok start → int e = Ok end_ → float lo = Ok low → float hi = Ok high →
  ProgramB.get_user_input (raw :: s :: e :: lo :: hi :: tail)
  = ([prompt ask_name; prompt ask_start; prompt ask_end;
      prompt ask_low; prompt ask_high],
     tail,
     Returns ("uniform", <["high" := PyFloat high]> (<["low" := PyFloat low]> ∅),
              range start (end_ + 1))).
Proof.
  intros Hraw Hs He Hlo Hhi.
  unfold ProgramB.get_user_input, ask_parameters.
  cbv [mbind io_bind input call mret io_ret]. rewrite Hraw, Hs.
  cbv [mbind io_bind input call mret io_ret]. rewrite He.
  cbv beta iota zeta delta [mbind io_bind input call mret io_ret].
  change (String.eqb "uniform" "geometric") with false.
  change (String.eqb "uniform" "binomial") with false.
  change (String.eqb "uniform" "poisson") with false.
  change (String.eqb "uniform" "uniform") with true.
  cbv beta iota zeta delta [mbind io_bind input call mret io_ret]. rewrite Hlo.
  cbv beta iota zeta delta [mbind io_bind input call mret io_ret]. rewrite Hhi.
  reflexivity.
Qed.

Lemma charts_filter_lines (lines : list VariantB.line) :
  charts (filter_line <$> lines) = [] ∧ printed_values (filter_line <$> lines) = [].
Proof. unfold charts, printed_values. by induction lines. Qed.

(** X7. The script of Variant B dies on a [ZeroDivisionError] that nothing
    catches when the kind is uniform, the two bounds are equal and the range
    contains that bound as a value that is zero or more: all five lines are
    read, and nothing is printed after the lines of [filter_values], no
    probability and no chart. *)
Theorem programB_uniform_equal_bounds
    (exp : Q → Q) (raw s e lo hi : string) (tail : list string)
    (start end_ : Z) (low high : Q) (x : Z) :
  lower (strip raw) = "uniform" →
  int s = Ok start → int e = Ok end_ →
  float lo = Ok (Fin low) → float hi = Ok (Fin high) →
  (high == low)%Q → Z.max start 0 ≤ x ≤ end_ → (inject_Z x == low)%Q →
  ∃ out,
    ProgramB.main exp (raw :: s :: e :: lo :: hi :: tail)
    = (out, tail, Raises (Core (ZeroDivisionError "float division by zero"))) ∧
    charts out = [] ∧ printed_values out = [].
Proof.
  intros Hraw Hs He Hlo Hhi Heq Hx Hxlow.
  set (vals := range start (end_ + 1)).
  set (parameters := <["high" := PyFloat (Fin high)]>
                       (<["low" := PyFloat (Fin low)]> ∅)
       : gmap string num).
  assert (x ∈ filter (λ v, 0 ≤ v) vals) as Hkept.
  { unfold vals. rewrite filter_range_nonnegative. apply elem_of_seqZ. lia. }
  assert ((VariantB.get_probability_distribution exp "uniform" parameters vals).2
          = Err (ZeroDivisionError "float division by zero")) as Hrun.
  { destruct (variantB_dispatch_kept exp parameters vals) as (_ & _ & _ & ->).
    { intros Hnil. rewrite Hnil in Hkept. by apply not_elem_of_nil in Hkept. }
    unfold parameters.
    rewrite (getitem_insert_ne _ "high" "low"), !getitem_insert_eq by done.
    cbn [mbind result_bind].
    by rewrite (uniform_degenerate low high _ x). }
  unfold ProgramB.main, try_except_ValueError. cbv [mbind io_bind].
  rewrite (programB_get_user_input_uniform raw s e lo hi tail start end_
             (Fin low) (Fin high)) by done.
  cbv beta iota. fold vals parameters. rewrite programB_plot_run.
  destruct (VariantB.get_probability_distribution exp "uniform" parameters vals)
    as [lines res]. cbn [snd] in Hrun. subst res.
  eexists. split; [reflexivity|].
  destruct (charts_filter_lines lines) as [Hc Hp].
  unfold charts, printed_values in *. by rewrite !omap_app, Hc, Hp.
Qed.

(** X8. In the script of Variant A, two negative bounds end the run at
    once, whatever the name that was typed, a wrong one included: after the
    three prompts the error line is printed, no parameter is asked for and
    the lines that follow are left unread. *)
Theorem programA_both_negative
    `{!VariantA.scipy_stats} (raw s e : string) (tail : list string)
    (start end_ : Z) :
  int s = Ok start → int e = Ok end_ → start < 0 → end_ < 0 →
  ProgramA.main (raw :: s :: e :: tail)
  = ([prompt ask_name; prompt ask_start; prompt ask_end;
      error_line ProgramA.msg_both_negative],
     tail, Returns tt).
Proof.
  intros Hs He Hstart Hend.
  unfold ProgramA.main, try_except_ValueError, ProgramA.get_user_input.
  cbv [mbind io_bind input call mret io_ret]. rewrite Hs.
  cbv [mbind io_bind input call mret io_ret]. rewrite He.
  cbv beta iota zeta delta [mbind io_bind input call mret io_ret].
  destruct (Z.ltb_spec start 0), (Z.ltb_spec end_ 0); try lia. reflexivity.
Qed.

Lemma value_lines_floats (vals : list Z) (probs : list double) :
  (λ '(val, prob), value_line val (PyFloat prob)) <$> zip vals probs
  = (λ '(val, prob), value_line val prob) <$> zip vals (PyFloat <$> probs).
Proof.
  revert probs. induction vals as [|v vals IH]; intros [|q probs]; try done.
  cbn. by rewrite IH.
Qed.

Lemma value_lines_printed (pairs : list (Z * num)) :
  printed_probabilities ((λ '(val, prob), value_line val prob) <$> pairs) = pairs.
Proof.
  unfold printed_probabilities. induction pairs as [|[v q] pairs IH]; [done|].
  cbn. by rewrite IH.
Qed.

Lemma printed_values_value_lines (vals : list Z) (probs : list num) :
  length probs = length vals →
  printed_values ((λ '(val, prob), value_line val prob) <$> zip vals probs) = vals ∧
  charts ((λ '(val, prob), value_line val prob) <$> zip vals probs) = [].
Proof.
  unfold printed_values, charts. revert probs.
  induction vals as [|v vals IH]; intros [|q probs] Hlen; try done.
  cbn. destruct (IH probs) as [-> Hc]; [by injection Hlen|]. split; [done|].
  exact Hc.
Qed.

(** X9. [plot_distribution] of Variant A reads no input and follows the
    core: when the core returns, it prints every value of [vals] with its
    probability, in order, and nothing else with a probability, and draws
    one chart of [vals] against the probabilities; when the core raises a
    [ValueError] it prints the error line only and returns; any other
    exception of the core (a missing key) passes through, with nothing
    printed. *)
Theorem programA_plot_follows_core
    `{!VariantA.scipy_stats} (name : string) (parameters : gmap string num)
    (vals : list Z) (stdin : list string) :
  ∃ out r,
    ProgramA.plot_distribution name parameters vals stdin = (out, stdin, r) ∧
    match VariantA.get_probability_distribution name parameters vals with
    | Ok probabilities =>
        r = Returns tt ∧
        printed_probabilities out = zip vals (PyFloat <$> probabilities) ∧
        length probabilities = length vals ∧
        printed_values out = vals ∧
        charts out = [(vals, PyFloat <$> probabilities)]
    | Err (ValueError msg) => r = Returns tt ∧ out = [error_line msg]
    | Err e => r = Raises (Core e) ∧ out = []
    end.
Proof.
  rewrite programA_plot_run.
  destruct (VariantA.get_probability_distribution name parameters vals)
    as [probs|e] eqn:Hrun; [|destruct e; by eexists _, _].
  apply variantA_success in Hrun as (f & -> & _ & _).
  eexists _, _. split; [done|]. split; [done|].
  rewrite value_lines_floats.
  destruct (printed_values_value_lines vals (PyFloat <$> (f <$> vals))) as [Hp Hc];
    [by rewrite !length_fmap|].
  split.
  { unfold printed_probabilities. rewrite !omap_app.
    fold (printed_probabilities
            ((λ '(val, prob), value_line val prob)
               <$> zip vals (PyFloat <$> (f <$> vals)))).
    rewrite value_lines_printed. cbn. by rewrite app_nil_r. }
  split; [apply length_fmap|].
  unfold printed_values, charts in *.
  rewrite !omap_app, Hp, Hc. cbn. by rewrite app_nil_r.
Qed.

(** X10. [plot_distribution] of Variant B reads no input and follows the
    core: when the core returns, the values printed with a probability and
    the values of the one chart drawn are exactly the values of [vals] that
    are zero or more, in order; when the core raises a [ValueError] the
    error line comes last and the run returns; any other exception of the
    core passes through. In both error cases no probability is printed and
    no chart is drawn. *)
Theorem programB_plot_follows_core
    (exp : Q → Q) (name : string) (parameters : gmap string num)
    (vals : list Z) (stdin : list string) :
  ∃ out r,
    ProgramB.plot_distribution exp name parameters vals stdin = (out, stdin, r) ∧
    match (VariantB.get_probability_distribution exp name parameters vals).2 with
    | Ok (_, probabilities) =>
        r = Returns tt ∧ printed_values out = filter (λ v, 0 ≤ v) vals ∧
        charts out = [(filter (λ v, 0 ≤ v) vals, probabilities)]
    | Err (ValueError msg) =>
        r = Returns tt ∧ last out = Some (error_line msg) ∧
        printed_values out = [] ∧ charts out = []
    | Err e => r = Raises (Core e) ∧ printed_values out = [] ∧ charts out = []
    end.
Proof.
  rewrite programB_plot_run.
  destruct (VariantB.get_probability_distribution exp name parameters vals)
    as [lines [[kept probs]|e]] eqn:Hrun; cbn [snd];
    destruct (charts_filter_lines lines) as [Hc Hp]; unfold printed_values, charts in *.
  - apply variantB_success in Hrun as (-> & Hlen & _).
    destruct (printed_values_value_lines _ probs Hlen) as [Hp' Hc'].
    unfold printed_values, charts in *.
    eexists _, _. split; [done|]. split; [done|].
    rewrite !omap_app, Hp, Hc, Hp', Hc'. cbn. by rewrite app_nil_r.
  - destruct e; eexists _, _; (split; [done|]); rewrite ?omap_app, ?Hp, ?Hc;
      try done.
    split; [done|]. split; [apply last_snoc|done].
Qed.

End Scripts.

(** ** The parameters the dispatcher reads *)

Lemma getitem_agree (parameters parameters' : gmap string num) (key : string) :
  parameters !! key = parameters' !! key →
  getitem parameters key = getitem parameters' key.
Proof. unfold getitem. by intros ->. Qed.

(** X11. The dispatcher reads the parameters of the selected kind and no
    other entry of the dictionary: two dictionaries that agree on these
    names give the same result (and, in Variant B, the same printed lines),
    so entries under other names are ignored. *)
Theorem parameters_frame :
  (∀ (stats : VariantA.scipy_stats) name parameters parameters' vals,
     (∀ key, key ∈ parameter_names (lower name) →
             parameters !! key = parameters' !! key) →
     VariantA.get_probability_distribution name parameters vals
     = VariantA.get_probability_distribution name parameters' vals) ∧
  (∀ (exp : Q → Q) name parameters parameters' vals,
     (∀ key, key ∈ parameter_names name →
             parameters !! key = parameters' !! key) →
     VariantB.get_probability_distribution exp name parameters vals
     = VariantB.get_probability_distribution exp name parameters' vals).
Proof.
  split.
  - intros stats name ps ps' vals Hagree.
    unfold VariantA.get_probability_distribution.
    destruct (existsb _ vals); [done|]. cbv zeta.
    unfold parameter_names in Hagree.
    destruct (String.eqb (lower name) "geometric");
      [|destruct (String.eqb (lower name) "binomial");
        [|destruct (String.eqb (lower name) "poisson");
          [|destruct (String.eqb (lower name) "uniform"); [|done]]]].
    + by rewrite (getitem_agree ps ps' "p") by (apply Hagree; set_solver).
    + by rewrite (getitem_agree ps ps' "n"), (getitem_agree ps ps' "p")
        by (apply Hagree; set_solver).
    + by rewrite (getitem_agree ps ps' "mu") by (apply Hagree; set_solver).
    + by rewrite (getitem_agree ps ps' "low"), (getitem_agree ps ps' "high")
        by (apply Hagree; set_solver).
  - intros exp name ps ps' vals Hagree.
    unfold VariantB.get_probability_distribution.
    destruct (VariantB.filter_values vals) as [lines filtered]. f_equal.
    destruct filtered as [kept|e]; [cbn [mbind result_bind]|done].
    unfold parameter_names in Hagree.
    destruct (String.eqb name "geometric");
      [|destruct (String.eqb name "binomial");
        [|destruct (String.eqb name "poisson");
          [|destruct (String.eqb name "uniform"); [|done]]]].
    + by rewrite (getitem_agree ps ps' "p") by (apply Hagree; set_solver).
    + by rewrite (getitem_agree ps ps' "n"), (getitem_agree ps ps' "p")
        by (apply Hagree; set_solver).
    + by rewrite (getitem_agree ps ps' "mu") by (apply Hagree; set_solver).
    + by rewrite (getitem_agree ps ps' "low"), (getitem_agree ps ps' "high")
        by (apply Hagree; set_solver).
Qed.

Lemma variantA_dispatch_kind
    `{!VariantA.scipy_stats} (name : string) (parameters : gmap string num)
    (vals : list Z) :
  Forall (λ v, 0 ≤ v) vals →
  (lower name = "geometric" →
   VariantA.get_probability_distribution name parameters vals
   = (p ← getitem parameters "p"; VariantA.geometric p vals)) ∧
  (lower name = "binomial" →
   VariantA.get_probability_distribution name parameters vals
   = (n ← getitem parameters "n"; p ← getitem parameters "p";
      VariantA.binomial n p vals)) ∧
  (lower name = "poisson" →
   VariantA.get_probability_distribution name parameters vals
   = (mu ← getitem parameters "mu"; VariantA.poisson_dist mu vals)) ∧
  (lower name = "uniform" →
   VariantA.get_probability_distribution name parameters vals
   = (low ← getitem parameters "low"; high ← getitem parameters "high";
      VariantA.uniform_dist low high vals)).
Proof.
  intros Hvals%existsb_nonnegative. unfold VariantA.get_probability_distribution.
  rewrite Hvals. cbv zeta. repeat split; by intros ->.
Qed.

Lemma variantA_no_KeyError `{!VariantA.scipy_stats} (vals : list Z) (key : string) :
  (∀ p, VariantA.geometric p vals ≠ Err (KeyError key)) ∧
  (∀ n p, VariantA.binomial n p vals ≠ Err (KeyError key)) ∧
  (∀ mu, VariantA.poisson_dist mu vals ≠ Err (KeyError key)) ∧
  (∀ low high, VariantA.uniform_dist low high vals ≠ Err (KeyError key)).
Proof.
  unfold VariantA.geometric, VariantA.binomial, VariantA.poisson_dist,
    VariantA.uniform_dist.
  repeat split; intros; repeat case_match; try done.
  destruct (py_sub high low) as [scale|e] eqn:Hsub; cbn; [done|].
  intros [= ->]. by apply py_sub_Err in Hsub as [? [=]].
Qed.

Lemma variantB_no_KeyError (exp : Q → Q) (vals : list Z) (key : string) :
  (∀ p, VariantB.geometric p vals ≠ Err (KeyError key)) ∧
  (∀ n p, VariantB.binomial n p vals ≠ Err (KeyError key)) ∧
  (∀ mu, VariantB.poisson_dist exp mu vals ≠ Err (KeyError key)) ∧
  (∀ low high, VariantB.uniform_dist low high vals ≠ Err (KeyError key)).
Proof.
  repeat split.
  - by intros p [? [=]]%geometric_Err.
  - by intros n p [[? [=]]|[[=] _]]%binomial_Err.
  - by intros mu [? [=]]%poisson_Err.
  - by intros low high [[? [=]]|[? [=]]]%uniform_Err.
Qed.

Lemma one_parameter_KeyError {A} (parameters : gmap string num) (k : string)
    (f : num → result A) :
  (∀ v key, f v ≠ Err (KeyError key)) →
  (∀ key, (v ← getitem parameters k; f v) = Err (KeyError key) →
          key ∈ ({[k]} : gset string) ∧ parameters !! key = None) ∧
  (¬ ({[k]} : gset string) ⊆ dom parameters →
   ∃ key, (v ← getitem parameters k; f v) = Err (KeyError key)).
Proof.
  intros Hf. unfold getitem. destruct (parameters !! k) as [v|] eqn:Hk; cbn.
  - split; [intros key Herr; by destruct (Hf v key)|].
    intros Hsub. destruct Hsub. apply elem_of_dom_2 in Hk.
    by intros x ->%elem_of_singleton.
  - split; [|by eauto]. intros key [= <-]. split; [set_solver|done].
Qed.

Lemma two_parameters_KeyError {A} (parameters : gmap string num) (k1 k2 : string)
    (f : num → num → result A) :
  (∀ v1 v2 key, f v1 v2 ≠ Err (KeyError key)) →
  (∀ key, (v1 ← getitem parameters k1; v2 ← getitem parameters k2; f v1 v2)
          = Err (KeyError key) →
          key ∈ ({[k1; k2]} : gset string) ∧ parameters !! key = None) ∧
  (¬ ({[k1; k2]} : gset string) ⊆ dom parameters →
   ∃ key, (v1 ← getitem parameters k1; v2 ← getitem parameters k2; f v1 v2)
          = Err (KeyError key)).
Proof.
  intros Hf. unfold getitem.
  destruct (parameters !! k1) as [v1|] eqn:Hk1; cbn.
  - destruct (parameters !! k2) as [v2|] eqn:Hk2; cbn.
    + split; [intros key Herr; by destruct (Hf v1 v2 key)|].
      intros Hsub. destruct Hsub.
      apply elem_of_dom_2 in Hk1. apply elem_of_dom_2 in Hk2.
      intros x [Hx|Hx]%elem_of_union; by apply elem_of_singleton in Hx as ->.
    + split; [|by eauto]. intros key [= <-]. split; [set_solver|done].
  - split; [|by eauto]. intros key [= <-]. split; [set_solver|done].
Qed.

Lemma bind_no_KeyError {A B} (r : result A) (g : A → B) (key : string) :
  r ≠ Err (KeyError key) → (a ← r; mret (g a)) ≠ Err (KeyError key).
Proof.
  intros Hr. destruct r as [a|e]; cbn; [done|]. intros [= ->]. by destruct Hr.
Qed.

(** X12. A missing parameter is a [KeyError], and the only one: once the
    values are accepted and the name is one of the four kinds (in Variant
    A, up to case), the dispatcher raises [KeyError] exactly when the
    dictionary lacks a parameter of the kind, and the key it names is such
    a missing parameter. *)
Theorem missing_parameter_KeyError :
  (∀ (stats : VariantA.scipy_stats) name parameters vals,
     lower name ∈ kinds → Forall (λ v, 0 ≤ v) vals →
     (∀ key, VariantA.get_probability_distribution name parameters vals
             = Err (KeyError key) →
             key ∈ parameter_names (lower name) ∧ parameters !! key = None) ∧
     (¬ parameter_names (lower name) ⊆ dom parameters →
      ∃ key, VariantA.get_probability_distribution name parameters vals
             = Err (KeyError key))) ∧
  (∀ (exp : Q → Q) name parameters vals,
     name ∈ kinds → Exists (λ v, 0 ≤ v) vals →
     (∀ key, (VariantB.get_probability_distribution exp name parameters vals).2
             = Err (KeyError key) →
             key ∈ parameter_names name ∧ parameters !! key = None) ∧
     (¬ parameter_names name ⊆ dom parameters →
      ∃ key, (VariantB.get_probability_distribution exp name parameters vals).2
             = Err (KeyError key))).
Proof.
  split.
  - intros stats name ps vals Hkind Hvals.
    destruct (variantA_dispatch_kind name ps vals Hvals) as (Dg & Db & Dp & Du).
    unfold kinds in Hkind.
    apply elem_of_cons in Hkind as [Hl|Hkind];
      [|apply elem_of_cons in Hkind as [Hl|Hkind];
        [|apply elem_of_cons in Hkind as [Hl|Hkind];
          [|apply list_elem_of_singleton in Hkind as Hl]]].
    + rewrite (Dg Hl), Hl. apply one_parameter_KeyError.
      intros v key. apply (variantA_no_KeyError vals key).
    + rewrite (Db Hl), Hl. apply two_parameters_KeyError.
      intros v1 v2 key. apply (variantA_no_KeyError vals key).
    + rewrite (Dp Hl), Hl. apply one_parameter_KeyError.
      intros v key. apply (variantA_no_KeyError vals key).
    + rewrite (Du Hl), Hl. apply two_parameters_KeyError.
      intros v1 v2 key. apply (variantA_no_KeyError vals key).
  - intros exp name ps vals Hkind (v & kept & Hkept)%Exists_nonnegative_kept.
    destruct (variantB_dispatch_kept exp ps vals) as (Dg & Db & Dp & Du);
      [by rewrite Hkept|].
    unfold kinds in Hkind.
    apply elem_of_cons in Hkind as [->|Hkind];
      [|apply elem_of_cons in Hkind as [->|Hkind];
        [|apply elem_of_cons in Hkind as [->|Hkind];
          [|apply list_elem_of_singleton in Hkind as ->]]].
    + rewrite Dg. apply one_parameter_KeyError.
      intros p key. apply bind_no_KeyError, (variantB_no_KeyError exp _ key).
    + rewrite Db. apply two_parameters_KeyError.
      intros n p key. apply bind_no_KeyError, (variantB_no_KeyError exp _ key).
    + rewrite Dp. apply one_parameter_KeyError.
      intros mu key. apply bind_no_KeyError, (variantB_no_KeyError exp _ key).
    + rewrite Du. apply two_parameters_KeyError.
      intros low high key. apply bind_no_KeyError, (variantB_no_KeyError exp _ key).
Qed.

(** ** Variant A: parameters that are numbers *)

(** X17. In Variant A, on a parameter that is a number (an [int] or a
    finite float), each distribution function raises an invalid-parameter
    error exactly when the parameter is out of its range (whatever the
    values): [geometric] unless [0 < p <= 1], [binomial] unless [n >= 0] and
    [0 <= p <= 1], [poisson_dist] unless [mu >= 0], [uniform_dist] unless
    [low < high]; with float parameters in range and values that are zero or
    more, each returns its probabilities. *)
Theorem invalid_parameter_iff_out_of_range :
  (∀ (stats : VariantA.scipy_stats) p q vals,
     real p = Some q →
     raises (VariantA.geometric p vals) InvalidParameter
     ↔ ¬ (0 < q ∧ q <= 1)%Q) ∧
  (∀ (stats : VariantA.scipy_stats) n p m q vals,
     real n = Some m → real p = Some q →
     raises (VariantA.binomial n p vals) InvalidParameter
     ↔ ¬ (0 <= m ∧ 0 <= q ∧ q <= 1)%Q) ∧
  (∀ (stats : VariantA.scipy_stats) mu m vals,
     real mu = Some m →
     raises (VariantA.poisson_dist mu vals) InvalidParameter
     ↔ ¬ (0 <= m)%Q) ∧
  (∀ (stats : VariantA.scipy_stats) low high l h vals,
     real low = Some l → real high = Some h →
     raises (VariantA.uniform_dist low high vals) InvalidParameter
     ↔ ¬ (l < h)%Q) ∧
  (∀ (stats : VariantA.scipy_stats) vals, Forall (λ v, 0 ≤ v) vals →
     (∀ p, (0 < p ∧ p <= 1)%Q →
        VariantA.geometric (PyFloat (Fin p)) vals
        = Ok (VariantA.geom_pmf (PyFloat (Fin p)) <$> vals)) ∧
     (∀ n p, 0 ≤ n → (0 <= p ∧ p <= 1)%Q →
        VariantA.binomial (PyInt n) (PyFloat (Fin p)) vals
        = Ok (VariantA.binom_pmf (PyInt n) (PyFloat (Fin p)) <$> vals)) ∧
     (∀ mu, (0 <= mu)%Q →
        VariantA.poisson_dist (PyFloat (Fin mu)) vals
        = Ok (VariantA.poisson_pmf (PyFloat (Fin mu)) <$> vals)) ∧
     (∀ low high, (low < high)%Q →
        VariantA.uniform_dist (PyFloat (Fin low)) (PyFloat (Fin high)) vals
        = Ok (VariantA.uniform_pdf (PyFloat (Fin low))
                (PyFloat (rounded (high - low))) <$> vals))).
Proof.
  destruct InvalidParameter_messages as (Kg & Kn & Kp & Km & Ku).
  split; [|split; [|split; [|split]]].
  - intros stats p q vals Hp. unfold VariantA.geometric.
    rewrite raises_guard, raises_after_validation by done.
    rewrite (py_le_real p (PyInt 0) q 0), (py_lt_real (PyInt 1) p 1 q) by done.
    rewrite orb_true_iff, Qle_bool_iff, Qlt_bool_iff.
    destruct (Qlt_le_dec 0 q), (Qlt_le_dec 1 q); split; intros; try lra; tauto.
  - intros stats n p m q vals Hn Hp. unfold VariantA.binomial.
    rewrite !raises_guard, raises_after_validation by done.
    rewrite (py_lt_real n (PyInt 0) m 0), (py_lt_real p (PyInt 0) q 0),
      (py_lt_real (PyInt 1) p 1 q) by done.
    rewrite orb_true_iff, !Qlt_bool_iff.
    destruct (Qlt_le_dec m 0), (Qlt_le_dec q 0), (Qlt_le_dec 1 q);
      split; intros; try lra; tauto.
  - intros stats mu m vals Hmu. unfold VariantA.poisson_dist.
    rewrite raises_guard, raises_after_validation by done.
    rewrite (py_lt_real mu (PyInt 0) m 0) by done.
    rewrite Qlt_bool_iff. destruct (Qlt_le_dec m 0); split; intros; try lra; tauto.
  - intros stats low high l h vals Hl Hh. unfold VariantA.uniform_dist.
    rewrite raises_guard, raises_after_scale by done.
    rewrite (py_le_real high low h l) by done.
    rewrite Qle_bool_iff. destruct (Qlt_le_dec l h); split; intros; try lra; tauto.
  - intros stats vals Hvals. apply existsb_nonnegative in Hvals.
    split; [|split; [|split]].
    + intros p [Hp0 Hp1]. unfold VariantA.geometric. rewrite Hvals.
      rewrite (py_le_real _ (PyInt 0) p 0), (py_lt_real (PyInt 1) _ 1 p) by done.
      apply Qnot_le_bool in Hp0 as ->. by apply Qnot_lt_bool in Hp1 as ->.
    + intros n p Hn [Hp0 Hp1]. unfold VariantA.binomial. rewrite Hvals.
      rewrite (py_lt_real (PyInt n) (PyInt 0) (inject_Z n) 0),
        (py_lt_real _ (PyInt 0) p 0), (py_lt_real (PyInt 1) _ 1 p) by done.
      assert (0 <= inject_Z n)%Q as Hn'.
      { change 0%Q with (inject_Z 0). by rewrite <- Zle_Qle. }
      apply Qnot_lt_bool in Hn' as ->. apply Qnot_lt_bool in Hp0 as ->.
      by apply Qnot_lt_bool in Hp1 as ->.
    + intros mu Hmu. unfold VariantA.poisson_dist. rewrite Hvals.
      rewrite (py_lt_real _ (PyInt 0) mu 0) by done.
      by apply Qnot_lt_bool in Hmu as ->.
    + intros low high Hlt. unfold VariantA.uniform_dist.
      rewrite (py_le_real _ _ high low) by done.
      by apply Qnot_le_bool in Hlt as ->.
Qed.

(** ** Variant B: the values are probabilities *)

Local Open Scope Q_scope.



Lemma real_binomial_value (n : Z) (p : Q) (x : Z) :
  ∃ q, real (binomial_value n p x) = Some q ∧ q == binomial_formula n p x.
Proof.
  unfold binomial_value, binomial_formula.
  destruct (_ && _); eexists; (split; [reflexivity|reflexivity]).
Qed.

Lemma real_poisson_value (exp : Q → Q) (mu : Q) (x : Z) :
  ∃ q, real (poisson_value exp mu x) = Some q ∧ q == poisson_formula exp mu x.
Proof.
  unfold poisson_value, poisson_formula.
  destruct (Z.leb_spec 0 x); eexists; (split; [reflexivity|reflexivity]).
Qed.


Lemma geometric_formula_sum (p : Q) (m : nat) :
  Qsum (geometric_formula p <$> range 1 (Z.of_nat m + 1)) == 1 - (1 - p) ^ Z.of_nat m.
Proof.
  unfold range. replace (Z.of_nat m + 1 - 1)%Z with (Z.of_nat m) by lia.
  induction m as [|m IH]; [reflexivity|].
  rewrite seqZ_S, fmap_app, Qsum_app, IH.
  cbn [fmap list_fmap Qsum foldr]. unfold geometric_formula.
  destruct (Z.leb_spec 1 (1 + Z.of_nat m)); [|lia].
  replace (1 + Z.of_nat m - 1)%Z with (Z.of_nat m) by lia.
  replace (Z.of_nat (S m)) with (Z.of_nat m + 1)%Z by lia.
  rewrite Qpower_succ by lia. hide_powers. ring.
Qed.

(** X14. On the values [1 .. m] the geometric evaluator of Variant B returns
    floats whose sum is [1 - (1 - p) ^ m]; for [0 < p <= 1] this is at most
    1. *)
Theorem geometric_partial_sum (p : Q) (m : Z) :
  (0 ≤ m)%Z → 0 < p → p <= 1 →
  ∃ probs : list Q,
    VariantB.geometric (PyFloat (Fin p)) (range 1 (m + 1))
    = Ok ((λ q, PyFloat (Fin q)) <$> probs) ∧
    Qsum probs == 1 - (1 - p) ^ m ∧
    Qsum probs <= 1.
Proof.
  intros Hm Hp0 Hp1. exists (geometric_formula p <$> range 1 (m + 1)).
  split.
  { rewrite geometric_refines.
    - f_equal. rewrite <- list_fmap_compose. apply list_fmap_ext.
      intros i x Hx%list_elem_of_lookup_2%elem_of_seqZ. cbn.
      unfold geometric_value. by destruct (Z.leb_spec 1 x); [|lia].
    - apply Forall_forall. intros x _. by apply geometric_fits_probability. }
  rewrite <- (Z2Nat.id m) by done. rewrite geometric_formula_sum.
  split; [reflexivity|].
  pose proof (Qpower_0_le (1 - p) (Z.of_nat (Z.to_nat m)) ltac:(lra)). lra.
Qed.

Lemma Qsum_nonnegative (l : list Q) : Forall (λ q, 0 <= q) l → 0 <= Qsum l.
Proof.
  induction 1 as [|q l Hq _ IH]; [discriminate|]. rewrite Qsum_cons. lra.
Qed.

Lemma Qsum_ge_elem (l : list Q) (q : Q) :
  Forall (λ q, 0 <= q) l → q ∈ l → q <= Qsum l.
Proof.
  intros Hl Hq. induction Hq as [q l|q q' l _ IH];
    apply Forall_cons in Hl as [Hq' Hl]; rewrite Qsum_cons.
  - pose proof (Qsum_nonnegative l Hl). lra.
  - specialize (IH Hl). lra.
Qed.

Lemma binomial_formula_nonnegative (n : Z) (p : Q) (x : Z) :
  0 <= p → p <= 1 → 0 <= binomial_formula n p x.
Proof.
  intros Hp0 Hp1. unfold binomial_formula. destruct (_ && _); [|discriminate].
  pose proof (Qpower_0_le p x Hp0).
  pose proof (Qpower_0_le (1 - p) (n - x) ltac:(lra)).
  assert (0 <= inject_Z (Z.of_nat (pascal (Z.to_nat n) (Z.to_nat x)))) as Hc.
  { change 0 with (inject_Z 0). rewrite <- Zle_Qle. lia. }
  apply Qmult_le_0_compat; [apply Qmult_le_0_compat|]; done.
Qed.

Lemma binomial_formula_term (n k : nat) (p : Q) :
  (k ≤ n)%nat →
  binomial_formula (Z.of_nat n) p (Z.of_nat k + 0) = binomial_term p (1 - p) n k.
Proof.
  intros Hk. unfold binomial_formula, binomial_term.
  rewrite Z.add_0_r, !Nat2Z.id.
  by destruct (Z.leb_spec 0 (Z.of_nat k)), (Z.leb_spec (Z.of_nat k) (Z.of_nat n));
    try lia.
Qed.

Lemma binomial_formula_sum (n : Z) (p : Q) :
  (0 ≤ n)%Z → Qsum (binomial_formula n p <$> range 0 (n + 1)) == 1.
Proof.
  intros Hn. unfold range, seqZ. rewrite <- list_fmap_compose.
  replace (Z.to_nat (n + 1 - 0)) with (S (Z.to_nat n)) by lia.
  rewrite (Qsum_fmap_ext _ (binomial_term p (1 - p) (Z.to_nat n))).
  - rewrite binomial_theorem.
    assert (p + (1 - p) == 1) as -> by ring. apply Qpower_1.
  - intros k Hk%elem_of_seq. cbn.
    rewrite <- (Z2Nat.id n) at 1 by done. rewrite binomial_formula_term by lia.
    reflexivity.
Qed.

Lemma binomial_returns (n : Z) (p : Q) (vals : list Z) :
  (n ≤ 1029)%Z → 0 <= p → p <= 1 →
  VariantB.binomial (PyInt n) (PyFloat (Fin p)) vals
  = Ok (binomial_value n p <$> vals).
Proof.
  intros Hn Hp0 Hp1. apply binomial_refines, Forall_forall. intros x _.
  apply binomial_fits_probability; [done..|]. apply pascal_fits. lia.
Qed.

(** X15. With [0 <= p <= 1] and an integer [n <= 1029] the binomial
    evaluator of Variant B returns probabilities, whatever the values: each
    is between 0 and 1. *)
Theorem binomial_probabilities (n : Z) (p : Q) (vals : list Z) :
  (n ≤ 1029)%Z → 0 <= p → p <= 1 →
  ∃ probs,
    VariantB.binomial (PyInt n) (PyFloat (Fin p)) vals = Ok probs ∧
    Forall (λ v, ∃ q, real v = Some q ∧ 0 <= q ∧ q <= 1) probs.
Proof.
  intros Hn Hp0 Hp1. exists (binomial_value n p <$> vals).
  split; [by apply binomial_returns|]. apply Forall_fmap, Forall_forall.
  intros x _. destruct (real_binomial_value n p x) as (q & Hq & Heq).
  exists q. split; [done|]. rewrite Heq.
  split; [by apply binomial_formula_nonnegative|].
  destruct (Z.leb_spec 0 x) as [Hx0|Hx0], (Z.leb_spec x n) as [Hxn|Hxn];
    try (unfold binomial_formula;
         destruct (Z.leb_spec 0 x), (Z.leb_spec x n); try lia; discriminate).
  rewrite <- (binomial_formula_sum n p) by lia.
  apply Qsum_ge_elem.
  - apply Forall_fmap, Forall_forall. intros y _.
    by apply binomial_formula_nonnegative.
  - apply list_elem_of_fmap. exists x. split; [done|]. apply elem_of_seqZ. lia.
Qed.

(** X16. With [mu >= 0] (and [0 <= e ^ (- mu) <= 1]) the Poisson evaluator of
    Variant B returns values that are zero or more, on values up to [170]
    at which [mu ^ x] has a double. *)
Theorem poisson_nonnegative (exp : Q → Q) (mu : Q) (vals : list Z) :
  0 <= mu → 0 <= exp (- mu) → exp (- mu) <= 1 →
  Forall (λ x, (0 ≤ x)%Z → (x ≤ 170)%Z ∧ fits (mu ^ x)) vals →
  ∃ probs,
    VariantB.poisson_dist exp (PyFloat (Fin mu)) vals = Ok probs ∧
    Forall (λ v, ∃ q, real v = Some q ∧ 0 <= q) probs.
Proof.
  intros Hmu He0 He1 Hvals. exists (poisson_value exp mu <$> vals).
  split.
  { apply poisson_refines. eapply Forall_impl; [exact Hvals|].
    intros x Hx H0. destruct (Hx H0) as [H170 Hfits].
    exact (poisson_fits_probability exp mu x He0 He1 Hfits H170 H0). }
  apply Forall_fmap, Forall_forall.
  intros x _. destruct (real_poisson_value exp mu x) as (q & Hq & Heq).
  exists q. split; [done|]. rewrite Heq. unfold poisson_formula.
  destruct (Z.leb_spec 0 x); [|discriminate].
  pose proof (Qpower_0_le mu x Hmu).
  assert (0 < inject_Z (Z.of_nat (fact (Z.to_nat x)))) as Hfact.
  { change 0 with (inject_Z 0). rewrite <- Zlt_Qlt.
    pose proof (lt_O_fact (Z.to_nat x)). lia. }
  apply Qle_shift_div_l; [done|]. nra.
Qed.

(** X18. For an integer [0 <= n <= 1029] and [0 <= p <= 1], the binomial
    evaluator of Variant B on the values [0 .. n] returns one float for each
    value, [comb(n, x) * p ^ x * (1 - p) ^ (n - x)] at [x], and their sum,
    in exact arithmetic, is [1]. *)
Theorem binomial_sums_to_one (n : Z) (p : Q) :
  (0 ≤ n ≤ 1029)%Z → 0 <= p → p <= 1 →
  ∃ probs : list Q,
    VariantB.binomial (PyInt n) (PyFloat (Fin p)) (range 0 (n + 1))
    = Ok ((λ q, PyFloat (Fin q)) <$> probs) ∧
    length probs = Z.to_nat (n + 1) ∧
    (∀ x, (0 ≤ x ≤ n)%Z → ∃ c,
       comb n x = Ok c ∧
       probs !! Z.to_nat x = Some (inject_Z c * p ^ x * (1 - p) ^ (n - x))) ∧
    Qsum probs == 1.
Proof.
  intros Hn Hp0 Hp1. exists (binomial_formula n p <$> range 0 (n + 1)).
  split; [|split; [|split]].
  - rewrite binomial_returns by (done || lia).
    f_equal. rewrite <- list_fmap_compose. apply list_fmap_ext.
    intros i x Hx%list_elem_of_lookup_2%elem_of_seqZ. cbn.
    unfold binomial_value.
    by destruct (Z.leb_spec 0 x), (Z.leb_spec x n); try lia.
  - rewrite length_fmap. unfold range. rewrite length_seqZ. f_equal. lia.
  - intros x Hx. eexists. split; [by apply comb_pascal|].
    rewrite list_lookup_fmap. unfold range.
    rewrite lookup_seqZ_lt by lia. cbn. f_equal.
    rewrite Z2Nat.id, Z.add_0_l by lia. unfold binomial_formula.
    by destruct (Z.leb_spec 0 x), (Z.leb_spec x n); try lia.
  - apply binomial_formula_sum. lia.
Qed.

(** X19. With [mu = 0] (and [e ^ 0 = 1]), the Poisson evaluator of Variant B
    returns [1] for [x = 0] and [0] for every other integer [x <= 170]. *)
Theorem poisson_mu_zero (exp : Q → Q) (x : Z) :
  exp 0 == 1 → (x ≤ 170)%Z →
  ∃ v q,
    VariantB.poisson_dist exp (PyFloat (Fin 0)) [x] = Ok [v] ∧
    real v = Some q ∧
    q == if (x =? 0)%Z then 1 else 0.
Proof.
  intros Hexp Hx.
  assert (exp (- 0) == 1) as Hexp' by exact Hexp.
  destruct (real_poisson_value exp 0 x) as (q & Hq & Heq).
  exists (poisson_value exp 0 x), q. split; [|split; [done|]].
  - apply (poisson_refines exp 0 [x]), Forall_singleton.
    apply poisson_fits_probability; [rewrite Hexp'; discriminate..| |done].
    destruct (decide (x = 0%Z)) as [->|Hne]; [by apply fits_unit|].
    apply (fits_proper 0); [|apply fits_0]. symmetry. by apply Qpower_0.
  - rewrite Heq. unfold poisson_formula.
    destruct (Z.leb_spec 0 x), (Z.eqb_spec x 0); try lia; try reflexivity.
    + subst x. rewrite Hexp'. reflexivity.
    + rewrite Hexp', Qpower_0 by done. field. apply inject_fact_nonzero.
Qed.

Local Close Scope Q_scope.

(** ** The scripts: the overflow of the Poisson formula *)

Lemma poisson_zero_single (exp : Q → Q) (x : Z) :
  (exp 0 == 1)%Q →
  VariantB.poisson_dist exp (PyFloat (Fin 0)) [x]
  = if 171 <=? x then Err (OverflowError "int too large to convert to float")
    else Ok [poisson_value exp 0 x].
Proof.
  intros Hexp. assert (exp (- 0)%Q == 1)%Q as Hexp' by exact Hexp.
  assert (fits (0 ^ x)) as Hpow.
  { destruct (decide (x = 0)) as [->|Hne]; [by apply fits_unit|].
    apply (fits_proper 0); [|apply fits_0]. symmetry. by apply Qpower_0. }
  destruct (Z.leb_spec 171 x) as [Hx|Hx].
  - unfold VariantB.poisson_dist. rewrite mapM_singleton.
    destruct (Z.leb_spec 0 x); [|lia].
    rewrite pow_float by (done || lia). cbn [mbind result_bind].
    rewrite math_exp_float by (apply (fits_proper 1); [done|by apply fits_unit]).
    rewrite factorial_nonneg by done.
    cbn [mbind result_bind as_float py_mul mret result_ret truediv].
    by rewrite of_int_overflows by by apply fact_overflows.
  - apply (poisson_refines exp 0 [x]), Forall_singleton.
    apply poisson_fits_probability; [rewrite Hexp'; discriminate..|done|lia].
Qed.

Lemma poisson_zero_overflows (exp : Q → Q) (vals : list Z) (x : Z) :
  (exp 0 == 1)%Q → x ∈ vals → 171 ≤ x →
  VariantB.poisson_dist exp (PyFloat (Fin 0)) vals
  = Err (OverflowError "int too large to convert to float").
Proof.
  intros Hexp Hin Hx. unfold VariantB.poisson_dist.
  apply (mapM_Err_singletons _ _ _ x Hin).
  - change (VariantB.poisson_dist exp (PyFloat (Fin 0)) [x]
            = Err (OverflowError "int too large to convert to float")).
    rewrite poisson_zero_single by done. by destruct (Z.leb_spec 171 x); [|lia].
  - intros y e' _ Hy.
    change (VariantB.poisson_dist exp (PyFloat (Fin 0)) [y] = Err e') in Hy.
    rewrite poisson_zero_single in Hy by done. destruct (171 <=? y); congruence.
Qed.

Section ScriptsOverflow.
Context `{!builtins}.

Lemma programB_get_user_input_poisson
    (raw s e m : string) (tail : list string) (start end_ : Z) (mu : double) :
  lower (strip raw) = "poisson" →
  int s = Ok start → int e = Ok end_ → float m = Ok mu →
  ProgramB.get_user_input (raw :: s :: e :: m :: tail)
  = ([prompt ask_name; prompt ask_start; prompt ask_end; prompt ask_mu],
     tail,
     Returns ("poisson", <["mu" := PyFloat mu]> ∅, range start (end_ + 1))).
Proof.
  intros Hraw Hs He Hm.
  unfold ProgramB.get_user_input, ask_parameters.
  cbv [mbind io_bind input call mret io_ret]. rewrite Hraw, Hs.
  cbv [mbind io_bind input call mret io_ret]. rewrite He.
  cbv beta iota zeta delta [mbind io_bind input call mret io_ret].
  change (String.eqb "poisson" "geometric") with false.
  change (String.eqb "poisson" "binomial") with false.
  change (String.eqb "poisson" "poisson") with true.
  cbv beta iota zeta delta [mbind io_bind input call mret io_ret]. rewrite Hm.
  reflexivity.
Qed.

(** X20. The script of Variant B dies on an [OverflowError] that nothing
    catches when the kind is Poisson, the mean is [0] (and [e ^ 0 = 1]) and
    the range contains [171] or a larger value: all four lines are read, and
    nothing is printed after the lines of [filter_values], no probability
    and no chart. *)
Theorem programB_poisson_overflow
    (exp : Q → Q) (raw s e m : string) (tail : list string)
    (start end_ : Z) (x : Z) :
  lower (strip raw) = "poisson" →
  int s = Ok start → int e = Ok end_ → float m = Ok (Fin 0) →
  (exp 0 == 1)%Q → start ≤ x ≤ end_ → 171 ≤ x →
  ∃ out,
    ProgramB.main exp (raw :: s :: e :: m :: tail)
    = (out, tail,
       Raises (Core (OverflowError "int too large to convert to float"))) ∧
    charts out = [] ∧ printed_values out = [].
Proof.
  intros Hraw Hs He Hm Hexp Hx H171.
  set (vals := range start (end_ + 1)).
  set (parameters := <["mu" := PyFloat (Fin 0)]> ∅ : gmap string num).
  assert (x ∈ filter (λ v, 0 ≤ v) vals) as Hkept.
  { unfold vals. rewrite filter_range_nonnegative. apply elem_of_seqZ. lia. }
  assert ((VariantB.get_probability_distribution exp "poisson" parameters vals).2
          = Err (OverflowError "int too large to convert to float")) as Hrun.
  { destruct (variantB_dispatch_kept exp parameters vals) as (_ & _ & -> & _).
    { intros Hnil. rewrite Hnil in Hkept. by apply not_elem_of_nil in Hkept. }
    unfold parameters. rewrite getitem_insert_eq. cbn [mbind result_bind].
    by rewrite (poisson_zero_overflows exp _ x). }
  unfold ProgramB.main, try_except_ValueError. cbv [mbind io_bind].
  rewrite (programB_get_user_input_poisson raw s e m tail start end_ (Fin 0))
    by done.
  cbv beta iota. fold vals parameters. rewrite programB_plot_run.
  destruct (VariantB.get_probability_distribution exp "poisson" parameters vals)
    as [lines res]. cbn [snd] in Hrun. subst res.
  eexists. split; [reflexivity|].
  destruct (charts_filter_lines lines) as [Hc Hp].
  unfold charts, printed_values in *. by rewrite !omap_app, Hc, Hp.
Qed.

End ScriptsOverflow.

(** ** The extra properties on concrete runs *)

(** X1 on the lines " Geometric", "-2", "3", "1". *)
Lemma programA_get_user_input_returns_witness :
  ∃ out,
    @ProgramA.get_user_input decimal_builtins [" Geometric"; "-2"; "3"; "1"]
    = (out, [], Returns ("geometric", <["p" := PyFloat (Fin 1)]> ∅, [2; 3])) ∧
    ∃ raw s e start end_ tail,
      [" Geometric"; "-2"; "3"; "1"] = raw :: s :: e :: tail ∧
      "geometric" = lower (strip raw) ∧ "geometric" ∈ kinds ∧
      @int decimal_builtins s = Ok start ∧ @int decimal_builtins e = Ok end_ ∧
      (0 ≤ start ∨ 0 ≤ end_) ∧
      [2; 3] = range (Z.abs start) (Z.abs end_ + 1) ∧
      Forall (λ v, 0 ≤ v) [2; 3] ∧
      dom (<["p" := PyFloat (Fin 1)]> ∅ : gmap string num) = parameter_names "geometric".
Proof.
  assert (∃ out,
    @ProgramA.get_user_input decimal_builtins [" Geometric"; "-2"; "3"; "1"]
    = (out, [], Returns ("geometric", <["p" := PyFloat (Fin 1)]> ∅, [2; 3])))
    as [out Hrun] by (eexists; vm_compute; reflexivity).
  exists out. split; [exact Hrun|].
  exact (programA_get_user_input_returns _ _ _ _ _ _ Hrun).
Defined.

(** X2 on the lines "poisson", "-2", "1", "3". *)
Lemma programB_get_user_input_returns_witness :
  ∃ out,
    @ProgramB.get_user_input decimal_builtins ["poisson"; "-2"; "1"; "3"]
    = (out, [], Returns ("poisson", <["mu" := PyFloat (Fin 3)]> ∅, [-2; -1; 0; 1])) ∧
    ∃ raw s e start end_ tail,
      ["poisson"; "-2"; "1"; "3"] = raw :: s :: e :: tail ∧
      "poisson" = lower (strip raw) ∧ "poisson" ∈ kinds ∧
      @int decimal_builtins s = Ok start ∧ @int decimal_builtins e = Ok end_ ∧
      [-2; -1; 0; 1] = range start (end_ + 1) ∧
      filter (λ v, 0 ≤ v) [-2; -1; 0; 1] = range (Z.max start 0) (end_ + 1) ∧
      dom (<["mu" := PyFloat (Fin 3)]> ∅ : gmap string num) = parameter_names "poisson".
Proof.
  assert (∃ out,
    @ProgramB.get_user_input decimal_builtins ["poisson"; "-2"; "1"; "3"]
    = (out, [], Returns ("poisson", <["mu" := PyFloat (Fin 3)]> ∅, [-2; -1; 0; 1])))
    as [out Hrun] by (eexists; vm_compute; reflexivity).
  exists out. split; [exact Hrun|].
  exact (programB_get_user_input_returns _ _ _ _ _ _ Hrun).
Defined.

(** X3 on the lines "binomial", "0", "2", "2", "1". *)
Lemma programA_input_then_core_witness :
  ∃ out,
    @ProgramA.get_user_input decimal_builtins ["binomial"; "0"; "2"; "2"; "1"]
    = (out, [],
       Returns ("binomial", <["p" := PyFloat (Fin 1)]> (<["n" := PyInt 2]> ∅), [0; 1; 2])) ∧
    ((∃ probs,
        @VariantA.get_probability_distribution exact_stats
          "binomial" (<["p" := PyFloat (Fin 1)]> (<["n" := PyInt 2]> ∅)) [0; 1; 2]
        = Ok probs ∧
        length probs = length [0; 1; 2]) ∨
     raises (@VariantA.get_probability_distribution exact_stats
               "binomial" (<["p" := PyFloat (Fin 1)]> (<["n" := PyInt 2]> ∅)) [0; 1; 2])
       InvalidParameter).
Proof.
  assert (∃ out,
    @ProgramA.get_user_input decimal_builtins ["binomial"; "0"; "2"; "2"; "1"]
    = (out, [],
       Returns ("binomial", <["p" := PyFloat (Fin 1)]> (<["n" := PyInt 2]> ∅), [0; 1; 2])))
    as [out Hrun] by (eexists; vm_compute; reflexivity).
  exists out. split; [exact Hrun|].
  exact (programA_input_then_core _ _ _ _ _ _ Hrun).
Defined.

(** X4 on the lines "poisson", "170", "171", "0". *)
Lemma programB_input_then_core_witness :
  ∃ out,
    @ProgramB.get_user_input decimal_builtins ["poisson"; "170"; "171"; "0"]
    = (out, [], Returns ("poisson", <["mu" := PyFloat (Fin 0)]> ∅, [170; 171])) ∧
    ((filter (λ v, 0 ≤ v) [170; 171] = [] ∧
      (VariantB.get_probability_distribution (exp_series 4) "poisson"
         (<["mu" := PyFloat (Fin 0)]> ∅) [170; 171]).2
      = Err (ValueError VariantB.msg_all_negative)) ∨
     (∃ probs,
        (VariantB.get_probability_distribution (exp_series 4) "poisson"
           (<["mu" := PyFloat (Fin 0)]> ∅) [170; 171]).2
        = Ok (filter (λ v, 0 ≤ v) [170; 171], probs) ∧
        length probs = length (filter (λ v, 0 ≤ v) [170; 171])) ∨
     ("poisson" = "uniform" ∧
      (∃ low high : Q,
         (<["mu" := PyFloat (Fin 0)]> ∅ : gmap string num) !! "low"
         = Some (PyFloat (Fin low)) ∧
         (<["mu" := PyFloat (Fin 0)]> ∅ : gmap string num) !! "high"
         = Some (PyFloat (Fin high)) ∧
         (high == low)%Q) ∧
      (VariantB.get_probability_distribution (exp_series 4) "poisson"
         (<["mu" := PyFloat (Fin 0)]> ∅) [170; 171]).2
      = Err (ZeroDivisionError "float division by zero")) ∨
     ("poisson" ≠ "uniform" ∧
      ∃ msg,
        (VariantB.get_probability_distribution (exp_series 4) "poisson"
           (<["mu" := PyFloat (Fin 0)]> ∅) [170; 171]).2
        = Err (OverflowError msg))).
Proof.
  assert (∃ out,
    @ProgramB.get_user_input decimal_builtins ["poisson"; "170"; "171"; "0"]
    = (out, [], Returns ("poisson", <["mu" := PyFloat (Fin 0)]> ∅, [170; 171])))
    as [out Hrun] by (eexists; vm_compute; reflexivity).
  exists out. split; [exact Hrun|].
  exact (programB_input_then_core (exp_series 4) _ _ _ _ _ _ Hrun).
Defined.

(** X5 on the lines "geometric", "1", "2", "1". *)
Lemma programA_main_outcome_witness :
  ∃ out,
    @ProgramA.main exact_stats decimal_builtins ["geometric"; "1"; "2"; "1"]
    = (out, [], Returns tt) ∧
    (Returns tt = Returns tt ∨
     ∃ x, Returns tt = Raises x ∧ @input_error decimal_builtins x ∧
          ∀ msg, x ≠ Core (ValueError msg)).
Proof.
  assert (∃ out,
    @ProgramA.main exact_stats decimal_builtins ["geometric"; "1"; "2"; "1"]
    = (out, [], Returns tt))
    as [out Hrun] by (eexists; vm_compute; reflexivity).
  exists out. split; [exact Hrun|].
  exact (programA_main_outcome _ _ _ _ Hrun).
Defined.

(** X6 on the lines "uniform", "0", "2", "1", "1": the run dies. *)
Lemma programB_main_outcome_witness :
  ∃ out,
    @ProgramB.main decimal_builtins (exp_series 4) ["uniform"; "0"; "2"; "1"; "1"]
    = (out, [], Raises (Core (ZeroDivisionError "float division by zero"))) ∧
    ((Raises (Core (ZeroDivisionError "float division by zero")) : outcome ())
     = Returns tt ∨
     (∃ x, (Raises (Core (ZeroDivisionError "float division by zero")) : outcome ())
           = Raises x ∧
           @input_error decimal_builtins x ∧ ∀ msg, x ≠ Core (ValueError msg)) ∨
     (Raises (Core (ZeroDivisionError "float division by zero")) : outcome ())
     = Raises (Core (ZeroDivisionError "float division by zero")) ∨
     ∃ msg, (Raises (Core (ZeroDivisionError "float division by zero")) : outcome ())
            = Raises (Core (OverflowError msg))).
Proof.
  assert (∃ out,
    @ProgramB.main decimal_builtins (exp_series 4) ["uniform"; "0"; "2"; "1"; "1"]
    = (out, [], Raises (Core (ZeroDivisionError "float division by zero"))))
    as [out Hrun] by (eexists; vm_compute; reflexivity).
  exists out. split; [exact Hrun|].
  exact (programB_main_outcome (exp_series 4) _ _ _ _ Hrun).
Defined.

(** X7 on the lines " Uniform", "-1", "2", "1", "1", with the value 1. *)
Lemma programB_uniform_equal_bounds_witness :
  lower (strip " Uniform") = "uniform" ∧
  @int decimal_builtins "-1" = Ok (-1) ∧ @int decimal_builtins "2" = Ok 2 ∧
  @float decimal_builtins "1" = Ok (Fin 1) ∧
  (1 == 1)%Q ∧ Z.max (-1) 0 ≤ 1 ≤ 2 ∧ (inject_Z 1 == 1)%Q ∧
  ∃ out,
    @ProgramB.main decimal_builtins (exp_series 4) [" Uniform"; "-1"; "2"; "1"; "1"]
    = (out, [], Raises (Core (ZeroDivisionError "float division by zero"))) ∧
    charts out = [] ∧ printed_values out = [].
Proof.
  assert (lower (strip " Uniform") = "uniform") as Hraw by reflexivity.
  assert (@int decimal_builtins "-1" = Ok (-1)) as Hs by reflexivity.
  assert (@int decimal_builtins "2" = Ok 2) as He by reflexivity.
  assert (@float decimal_builtins "1" = Ok (Fin 1)) as Hf by reflexivity.
  assert (1 == 1)%Q as Heq by reflexivity.
  assert (Z.max (-1) 0 ≤ 1 ≤ 2) as Hx by lia.
  assert (inject_Z 1 == 1)%Q as Hx1 by reflexivity.
  repeat (split; [assumption|]).
  exact (programB_uniform_equal_bounds (exp_series 4) " Uniform" "-1" "2" "1" "1" []
           (-1) 2 1 1 1 Hraw Hs He Hf Hf Heq Hx Hx1).
Defined.

(** X8 on the lines "gauss", "-3", "-1", "1". *)
Lemma programA_both_negative_witness :
  @int decimal_builtins "-3" = Ok (-3) ∧ @int decimal_builtins "-1" = Ok (-1) ∧
  -3 < 0 ∧ -1 < 0 ∧
  @ProgramA.main exact_stats decimal_builtins ["gauss"; "-3"; "-1"; "1"]
  = ([prompt ask_name; prompt ask_start; prompt ask_end;
      error_line ProgramA.msg_both_negative],
     ["1"], Returns tt).
Proof.
  assert (@int decimal_builtins "-3" = Ok (-3)) as Hs by reflexivity.
  assert (@int decimal_builtins "-1" = Ok (-1)) as He by reflexivity.
  assert (-3 < 0) as H3 by lia.
  assert (-1 < 0) as H1 by lia.
  repeat (split; [assumption|]).
  exact (programA_both_negative "gauss" "-3" "-1" ["1"] (-3) (-1) Hs He H3 H1).
Defined.

(** X11 in Variant A: an entry under another name changes nothing. *)
Lemma parameters_frame_witness :
  (∀ key, key ∈ parameter_names (lower "Geometric") →
          (<["p" := PyFloat (Fin (1 # 2))]> ∅ : gmap string num) !! key
          = (<["q" := PyFloat (Fin 5)]> (<["p" := PyFloat (Fin (1 # 2))]> ∅) : gmap string num)
              !! key) ∧
  @VariantA.get_probability_distribution exact_stats
    "Geometric" (<["p" := PyFloat (Fin (1 # 2))]> ∅) [1; 2]
  = @VariantA.get_probability_distribution exact_stats
      "Geometric" (<["q" := PyFloat (Fin 5)]> (<["p" := PyFloat (Fin (1 # 2))]> ∅)) [1; 2].
Proof.
  assert (∀ key, key ∈ parameter_names (lower "Geometric") →
          (<["p" := PyFloat (Fin (1 # 2))]> ∅ : gmap string num) !! key
          = (<["q" := PyFloat (Fin 5)]> (<["p" := PyFloat (Fin (1 # 2))]> ∅) : gmap string num)
              !! key) as Hagree.
  { intros key Hkey.
    change (key ∈ ({["p"]} : gset string)) in Hkey.
    apply elem_of_singleton in Hkey as ->. reflexivity. }
  split; [exact Hagree|].
  exact (proj1 parameters_frame exact_stats "Geometric" _ _ [1; 2] Hagree).
Defined.

(** X12 in Variant A: the binomial kind without its parameter [n]. *)
Lemma missing_parameter_KeyError_witness :
  lower "Binomial" ∈ kinds ∧ Forall (λ v, 0 ≤ v) [0; 1] ∧
  ¬ parameter_names (lower "Binomial")
    ⊆ dom (<["p" := PyFloat (Fin (1 # 2))]> ∅ : gmap string num) ∧
  ∃ key,
    @VariantA.get_probability_distribution exact_stats
      "Binomial" (<["p" := PyFloat (Fin (1 # 2))]> ∅) [0; 1]
    = Err (KeyError key).
Proof.
  assert (lower "Binomial" ∈ kinds) as Hkind.
  { change ("binomial" ∈ ["geometric"; "binomial"; "poisson"; "uniform"]).
    apply elem_of_cons; right; apply elem_of_cons; left; reflexivity. }
  assert (Forall (λ v, 0 ≤ v) [0; 1]) as Hvals.
  { repeat constructor; discriminate. }
  assert (¬ parameter_names (lower "Binomial")
            ⊆ dom (<["p" := PyFloat (Fin (1 # 2))]> ∅ : gmap string num)) as Hmiss.
  { change (¬ ({["n"; "p"]} : gset string)
              ⊆ dom (<["p" := PyFloat (Fin (1 # 2))]> ∅ : gmap string num)).
    intros Hsub. specialize (Hsub "n").
    rewrite elem_of_dom in Hsub.
    destruct Hsub as [v Hv]; [apply elem_of_union_l, elem_of_singleton; reflexivity|].
    discriminate Hv. }
  repeat (split; [assumption|]).
  exact (proj2 (proj1 missing_parameter_KeyError exact_stats "Binomial"
                  (<["p" := PyFloat (Fin (1 # 2))]> ∅) [0; 1] Hkind Hvals) Hmiss).
Defined.


(** X14 at [p = 1/2] and [m = 3]. *)
Lemma geometric_partial_sum_witness :
  0 ≤ 3 ∧ (0 < 1 # 2)%Q ∧ (1 # 2 <= 1)%Q ∧
  ∃ probs : list Q,
    VariantB.geometric (PyFloat (Fin (1 # 2))) (range 1 (3 + 1))
    = Ok ((λ q, PyFloat (Fin q)) <$> probs) ∧
    (Qsum probs == 1 - (1 - (1 # 2)) ^ 3)%Q ∧
    (Qsum probs <= 1)%Q.
Proof.
  assert (0 ≤ 3) as Hm by discriminate.
  assert (0 < 1 # 2)%Q as Hp0 by reflexivity.
  assert (1 # 2 <= 1)%Q as Hp1 by discriminate.
  split; [exact Hm|]. split; [exact Hp0|]. split; [exact Hp1|].
  exact (geometric_partial_sum (1 # 2) 3 Hm Hp0 Hp1).
Defined.

(** X15 at [n = 3] and [p = 1/3]. *)
Lemma binomial_probabilities_witness :
  3 ≤ 1029 ∧ (0 <= 1 # 3)%Q ∧ (1 # 3 <= 1)%Q ∧
  ∃ probs,
    VariantB.binomial (PyInt 3) (PyFloat (Fin (1 # 3))) [0; 1; 2; 3; 4] = Ok probs ∧
    Forall (λ v, ∃ q, real v = Some q ∧ 0 <= q ∧ q <= 1)%Q probs.
Proof.
  assert (3 ≤ 1029) as Hn by discriminate.
  assert (0 <= 1 # 3)%Q as Hp0 by discriminate.
  assert (1 # 3 <= 1)%Q as Hp1 by discriminate.
  split; [exact Hn|]. split; [exact Hp0|]. split; [exact Hp1|].
  exact (binomial_probabilities 3 (1 # 3) [0; 1; 2; 3; 4] Hn Hp0 Hp1).
Defined.

(** X16 at [mu = 1], with the exponential series for [math.exp]. *)
Lemma poisson_nonnegative_witness :
  (0 <= 1)%Q ∧ (0 <= exp_series 4 (- 1))%Q ∧ (exp_series 4 (- 1) <= 1)%Q ∧
  Forall (λ x, 0 ≤ x → x ≤ 170 ∧ fits (1 ^ x)) [0; 1; 2] ∧
  ∃ probs,
    VariantB.poisson_dist (exp_series 4) (PyFloat (Fin 1)) [0; 1; 2] = Ok probs ∧
    Forall (λ v, ∃ q, real v = Some q ∧ 0 <= q)%Q probs.
Proof.
  assert (0 <= 1)%Q as Hmu by discriminate.
  assert (0 <= exp_series 4 (- 1))%Q as He0 by (vm_compute; discriminate).
  assert (exp_series 4 (- 1) <= 1)%Q as He1 by (vm_compute; discriminate).
  assert (Forall (λ x, 0 ≤ x → x ≤ 170 ∧ fits (1 ^ x)) [0; 1; 2]) as Hvals.
  { repeat constructor; try discriminate; vm_compute; reflexivity. }
  split; [exact Hmu|]. split; [exact He0|]. split; [exact He1|].
  split; [exact Hvals|].
  exact (poisson_nonnegative (exp_series 4) 1 [0; 1; 2] Hmu He0 He1 Hvals).
Defined.

(** X18 at [n = 5] and [p = 1/2]. *)
Lemma binomial_sums_to_one_witness :
  0 ≤ 5 ≤ 1029 ∧ (0 <= 1 # 2)%Q ∧ (1 # 2 <= 1)%Q ∧
  ∃ probs : list Q,
    VariantB.binomial (PyInt 5) (PyFloat (Fin (1 # 2))) (range 0 (5 + 1))
    = Ok ((λ q, PyFloat (Fin q)) <$> probs) ∧
    length probs = Z.to_nat (5 + 1) ∧
    (∀ x, 0 ≤ x ≤ 5 → ∃ c,
       comb 5 x = Ok c ∧
       probs !! Z.to_nat x
       = Some (inject_Z c * (1 # 2) ^ x * (1 - (1 # 2)) ^ (5 - x))%Q) ∧
    (Qsum probs == 1)%Q.
Proof.
  assert (0 ≤ 5 ≤ 1029) as Hn by (split; discriminate).
  assert (0 <= 1 # 2)%Q as Hp0 by discriminate.
  assert (1 # 2 <= 1)%Q as Hp1 by discriminate.
  split; [exact Hn|]. split; [exact Hp0|]. split; [exact Hp1|].
  exact (binomial_sums_to_one 5 (1 # 2) Hn Hp0 Hp1).
Defined.

(** X19 at [x = 0], with the exponential series for [math.exp]. *)
Lemma poisson_mu_zero_witness :
  (exp_series 4 0 == 1)%Q ∧ 0 ≤ 170 ∧
  ∃ v q,
    VariantB.poisson_dist (exp_series 4) (PyFloat (Fin 0)) [0] = Ok [v] ∧
    real v = Some q ∧
    (q == if 0 =? 0 then 1 else 0)%Q.
Proof.
  assert (exp_series 4 0 == 1)%Q as Hexp by reflexivity.
  assert (0 ≤ 170) as Hx by discriminate.
  split; [exact Hexp|]. split; [exact Hx|].
  exact (poisson_mu_zero (exp_series 4) 0 Hexp Hx).
Defined.

(** C3 against the claim, on the values [1] and [2]. *)
Lemma nan_parameter_accepted_witness :
  Forall (λ v, 0 ≤ v) [1; 2] ∧
  @VariantA.geometric exact_stats (PyFloat NaN) [1; 2]
  = Ok (@VariantA.geom_pmf exact_stats (PyFloat NaN) <$> [1; 2]) ∧
  (∀ n : Z, 0 ≤ n →
     @VariantA.binomial exact_stats (PyInt n) (PyFloat NaN) [1; 2]
     = Ok (@VariantA.binom_pmf exact_stats (PyInt n) (PyFloat NaN) <$> [1; 2])) ∧
  @VariantA.poisson_dist exact_stats (PyFloat NaN) [1; 2]
  = Ok (@VariantA.poisson_pmf exact_stats (PyFloat NaN) <$> [1; 2]) ∧
  (∀ bound : double,
     @VariantA.uniform_dist exact_stats (PyFloat NaN) (PyFloat bound) [1; 2]
     = Ok (@VariantA.uniform_pdf exact_stats (PyFloat NaN) (PyFloat NaN) <$> [1; 2]) ∧
     @VariantA.uniform_dist exact_stats (PyFloat bound) (PyFloat NaN) [1; 2]
     = Ok (@VariantA.uniform_pdf exact_stats (PyFloat bound) (PyFloat NaN)
             <$> [1; 2])) ∧
  @VariantA.get_probability_distribution exact_stats
    "geometric" {[ "p" := PyFloat NaN ]} [1; 2]
  = Ok (@VariantA.geom_pmf exact_stats (PyFloat NaN) <$> [1; 2]) ∧
  ¬ raises (@VariantA.get_probability_distribution exact_stats
              "geometric" {[ "p" := PyFloat NaN ]} [1; 2]) InvalidParameter.
Proof.
  assert (Forall (λ v, 0 ≤ v) [1; 2]) as Hvals by (repeat constructor; discriminate).
  split; [exact Hvals|]. exact (@nan_parameter_accepted exact_stats [1; 2] Hvals).
Defined.

(** X20 on the lines "poisson", "170", "171", "0". *)
Lemma programB_poisson_overflow_witness :
  lower (strip "poisson") = "poisson" ∧
  @int decimal_builtins "170" = Ok 170 ∧ @int decimal_builtins "171" = Ok 171 ∧
  @float decimal_builtins "0" = Ok (Fin 0) ∧
  (exp_series 4 0 == 1)%Q ∧ 170 ≤ 171 ≤ 171 ∧ 171 ≤ 171 ∧
  ∃ out,
    @ProgramB.main decimal_builtins (exp_series 4) ["poisson"; "170"; "171"; "0"]
    = (out, [],
       Raises (Core (OverflowError "int too large to convert to float"))) ∧
    charts out = [] ∧ printed_values out = [].
Proof.
  assert (lower (strip "poisson") = "poisson") as Hraw by reflexivity.
  assert (@int decimal_builtins "170" = Ok 170) as Hs by reflexivity.
  assert (@int decimal_builtins "171" = Ok 171) as He by reflexivity.
  assert (@float decimal_builtins "0" = Ok (Fin 0)) as Hm by reflexivity.
  assert (exp_series 4 0 == 1)%Q as Hexp by reflexivity.
  assert (170 ≤ 171 ≤ 171) as Hx by lia.
  assert (171 ≤ 171) as H171 by lia.
  repeat (split; [assumption|]).
  exact (programB_poisson_overflow (exp_series 4) "poisson" "170" "171" "0" []
           170 171 171 Hraw Hs He Hm Hexp Hx H171).
Defined.

(** ** The specification's examples, and the inputs of the defects *)

Example filter_mode_example (exp : Q → Q) :
  VariantB.get_probability_distribution exp
    "binomial" {[ "n" := PyInt 5; "p" := PyFloat (Fin (1 # 2)) ]} [-1; 0; 1]
  = ([VariantB.removed_line [-1]; VariantB.remaining_line [0; 1]],
     Ok ([0; 1], [PyFloat (Fin (1 # 32)); PyFloat (Fin (5 # 32))])).
Proof. vm_compute. reflexivity. Qed.

Example all_negative_example (exp : Q → Q) :
  VariantB.get_probability_distribution exp "binomial" ∅ [-3; -1]
  = ([VariantB.removed_line [-3; -1]; VariantB.remaining_line []],
     Err (ValueError VariantB.msg_all_negative)).
Proof. reflexivity. Qed.

Example uniform_degenerate_example :
  VariantB.uniform_dist (PyFloat (Fin 1)) (PyFloat (Fin 1)) [0; 1; 2]
  = Err (ZeroDivisionError "float division by zero").
Proof. vm_compute. reflexivity. Qed.

Example reject_mode_success_example :
  @VariantA.get_probability_distribution exact_stats
    "Binomial" {[ "n" := PyInt 5; "p" := PyFloat (Fin (1 # 2)) ]} [0; 1]
  = Ok [Fin (1 # 32); Fin (5 # 32)].
Proof. vm_compute. reflexivity. Qed.

Example invalid_parameter_example :
  @VariantA.get_probability_distribution exact_stats
    "geometric" {[ "p" := PyInt 0 ]} [1; 2]
  = Err (ValueError VariantA.msg_geometric_p).
Proof. vm_compute. reflexivity. Qed.

(** The script of Variant A on the lines "geometric", "1", "2", "nan": no
    error line, and a probability printed for each value. *)
Example nan_accepted_example :
  @ProgramA.main exact_stats decimal_builtins ["geometric"; "1"; "2"; "nan"]
  = ([prompt ask_name; prompt ask_start; prompt ask_end; range_line [1; 2];
      prompt ask_p;
      probabilities_for "Geometric" {[ "p" := PyFloat NaN ]};
      value_line 1 (PyFloat NaN); value_line 2 (PyFloat NaN);
      bar_chart [1; 2] [PyFloat NaN; PyFloat NaN]
        "Geometric" "Values" "Probability" "Geometric Distribution"],
     [], Returns tt).
Proof. vm_compute. reflexivity. Qed.

(** The geometric evaluator of Variant B at [p = -1.0] and [x = 1025]:
    [2.0 ** 1024] has no double. *)
Example geometric_overflow_example :
  VariantB.geometric (PyFloat (Fin (-1))) [1025]
  = Err (OverflowError "(34, 'Numerical result out of range')").
Proof. vm_compute. reflexivity. Qed.
